(** * sub2api: Antigravity gateway core

  A shallow embedding of the protocol-translation and forwarding core of
  the gateway:

  - [backend/internal/pkg/antigravity/request_transformer.go]
    (schema sanitizer and Claude -> Gemini request transformer), and
  - the Antigravity gateway service ([Forward], [ForwardGemini], the
    retry loop and the SSE usage accumulator).

  Go maps are [gmap]s, Go slices are lists, [error] results are sums, and
  the effects of the forwarding engine (upstream calls, back-off sleeps,
  rate-limit notifications, writes to the client) are recorded in an
  explicit event trace. *)

From Stdlib Require Import ZArith List String Ascii Bool Lia.
From Corelib Require Import PrimFloat.
From stdpp Require Import base option list strings gmap fin_maps.

Set Default Proof Using "Type".
Local Open Scope string_scope.

(* ===================================================================== *)
(** * Go's [strings] package, on byte strings *)
(* ===================================================================== *)

Module GoStrings.

(** The ASCII white space of [unicode.IsSpace]: tab, line feed, vertical
    tab, form feed, carriage return and space.  Strings are byte strings;
    the multi-byte white space of Unicode is outside this model. *)
Definition isSpace (c : ascii) : bool :=
  let n := nat_of_ascii c in
  ((9 <=? n)%nat && (n <=? 13)%nat) || (n =? 32)%nat.

Fixpoint trimLeft (s : string) : string :=
  match s with
  | EmptyString => EmptyString
  | String c s' => if isSpace c then trimLeft s' else s
  end.

Fixpoint trimRight (s : string) : string :=
  match s with
  | EmptyString => EmptyString
  | String c s' =>
      match trimRight s' with
      | EmptyString => if isSpace c then EmptyString else String c EmptyString
      | t => String c t
      end
  end.

(** [strings.TrimSpace] *)
Definition TrimSpace (s : string) : string := trimRight (trimLeft s).

(** The test [strings.TrimSpace(s) == ""] that the code uses for "blank". *)
Definition isBlank (s : string) : bool := String.eqb (TrimSpace s) "".

(** [strings.HasPrefix] *)
Definition HasPrefix (s pre : string) : bool := String.prefix pre s.

(** [strings.Contains] *)
Fixpoint Contains (s sub : string) : bool :=
  String.prefix sub s ||
  match s with
  | EmptyString => false
  | String _ s' => Contains s' sub
  end.

(** [strings.ToUpper], on the ASCII letters. *)
Definition upperAscii (c : ascii) : ascii :=
  let n := nat_of_ascii c in
  if ((97 <=? n)%nat && (n <=? 122)%nat) then ascii_of_nat (n - 32) else c.

Fixpoint ToUpper (s : string) : string :=
  match s with
  | EmptyString => EmptyString
  | String c s' => String (upperAscii c) (ToUpper s')
  end.

(** [strings.Join] *)
Fixpoint Join (l : list string) (sep : string) : string :=
  match l with
  | [] => ""
  | [x] => x
  | x :: r => x ++ sep ++ Join r sep
  end.

(** [s[n:]], the whole of [s] gone when it is shorter. *)
Fixpoint dropBytes (n : nat) (s : string) : string :=
  match n, s with
  | S n, String _ s' => dropBytes n s'
  | _, _ => s
  end.

(** [strings.TrimPrefix] *)
Definition TrimPrefix (s pre : string) : string :=
  if HasPrefix s pre then dropBytes (String.length pre) s else s.

Fixpoint inCutset (c : ascii) (cutset : string) : bool :=
  match cutset with
  | EmptyString => false
  | String d cutset => Ascii.eqb c d || inCutset c cutset
  end.

(** [strings.TrimRight], for a cutset of ASCII bytes. *)
Fixpoint TrimRight (s cutset : string) : string :=
  match s with
  | EmptyString => EmptyString
  | String c s' =>
      match TrimRight s' cutset with
      | EmptyString =>
          if inCutset c cutset then EmptyString else String c EmptyString
      | t => String c t
      end
  end.

End GoStrings.

(* ===================================================================== *)
(** * Schema sanitizer *)
(* ===================================================================== *)

Module Schema.
Import GoStrings.

(** The dynamically typed JSON trees ([any]) that [encoding/json] builds:
    [nil], [bool], [float64], [string], [[]any] and [map[string]any]. *)
#[warnings="-register-all"]
Inductive json : Type :=
| JNull
| JBool (b : bool)
| JNum (n : float)
| JStr (s : string)
| JArr (l : list json)
| JObj (m : gmap string json).

(** Number of nodes of a tree; the measure of the induction principle
    for [json]. *)
Fixpoint jsize (j : json) : nat :=
  match j with
  | JArr l => S (foldr (fun x acc => jsize x + acc)%nat 0%nat l)
  | JObj m => S (map_fold (fun _ x acc => jsize x + acc)%nat 0%nat m)
  | _ => 1
  end.

(** [excludedSchemaKeys] *)
Definition excludedSchemaKeys : gset string :=
  list_to_set
    [ "$schema"; "$id"; "$ref";
      "minLength"; "maxLength"; "pattern";
      "minimum"; "maximum"; "exclusiveMinimum"; "exclusiveMaximum";
      "multipleOf";
      "uniqueItems"; "minItems"; "maxItems";
      "oneOf"; "anyOf"; "allOf"; "not"; "if"; "then"; "else";
      "$defs"; "definitions";
      "minProperties"; "maxProperties"; "patternProperties";
      "propertyNames"; "dependencies"; "dependentSchemas";
      "dependentRequired";
      "default"; "const"; "examples"; "deprecated"; "readOnly";
      "writeOnly"; "contentMediaType"; "contentEncoding";
      "strict" ].

Definition isExcluded (k : string) : bool :=
  bool_decide (k ∈ excludedSchemaKeys).

(** First member of a [type] array that is a string other than ["null"]. *)
Fixpoint firstNonNullType (v : list json) : option string :=
  match v with
  | [] => None
  | JStr ts :: rest =>
      if String.eqb ts "null" then firstNonNullType rest else Some ts
  | _ :: rest => firstNonNullType rest
  end.

(** [cleanTypeValue] *)
Definition cleanTypeValue (value : json) : json :=
  match value with
  | JStr v => JStr (ToUpper v)
  | JArr v =>
      match firstNonNullType v with
      | Some ts => JStr (ToUpper ts)
      | None => JStr "STRING"
      end
  | _ => value
  end.

(** The formats Gemini accepts. *)
Definition isAllowedFormat (formatStr : string) : bool :=
  String.eqb formatStr "date-time" || String.eqb formatStr "date"
  || String.eqb formatStr "time".

(** One iteration of the [for k, val := range v] loop of
    [cleanSchemaValue]: [None] when the key is skipped, [Some x] when
    [result[k] = x] is stored.  [rec] is the recursive call. *)
Definition cleanSchemaEntry (rec : json -> json) (k : string) (val : json)
  : option json :=
  if isExcluded k then None
  else if String.eqb k "type" then Some (cleanTypeValue val)
  else if String.eqb k "format" then
    match val with
    | JStr formatStr => if isAllowedFormat formatStr then Some val else None
    | _ => None
    end
  else if String.eqb k "additionalProperties" then
    match val with
    | JBool boolVal => Some (JBool boolVal)
    | _ => Some (JBool false)
    end
  else Some (rec val).

(** [cleanSchemaValue].  The [path] argument of the source only feeds the
    one-time diagnostic of [warnSchemaKeyRemovedOnce]; it has no influence
    on the returned tree and is left out. *)
Fixpoint cleanSchemaValue (value : json) : json :=
  match value with
  | JObj v => JObj (map_imap (cleanSchemaEntry cleanSchemaValue) v)
  | JArr v => JArr (map cleanSchemaValue v)
  | _ => value
  end.

(** Is [r] a string naming a key of [props]? *)
Definition isValidRequired (props : gmap string json) (r : json) : bool :=
  match r with
  | JStr reqName => bool_decide (is_Some (props !! reqName))
  | _ => false
  end.

(** The top-level repair of [required] in [cleanJSONSchema]. *)
Definition repairRequired (result : gmap string json) : gmap string json :=
  match result !! "required" with
  | Some (JArr required) =>
      match result !! "properties" with
      | Some (JObj props) =>
          let validRequired := List.filter (isValidRequired props) required in
          if (0 <? length validRequired)%nat
          then <["required" := JArr validRequired]> result
          else delete "required" result
      | _ => result
      end
  | _ => result
  end.

Definition ensureType (result : gmap string json) : gmap string json :=
  match result !! "type" with
  | Some _ => result
  | None => <["type" := JStr "OBJECT"]> result
  end.

Definition ensureProperties (result : gmap string json) : gmap string json :=
  match result !! "properties" with
  | Some _ => result
  | None => <["properties" := JObj ∅]> result
  end.

(** [cleanJSONSchema]; [None] is Go's nil map. *)
Definition cleanJSONSchema (schema : option (gmap string json))
  : option (gmap string json) :=
  match schema with
  | None => None
  | Some schema =>
      match cleanSchemaValue (JObj schema) with
      | JObj result =>
          Some (repairRequired (ensureProperties (ensureType result)))
      | _ => None
      end
  end.

(** The three repairs after the recursive pass, in the order of the
    source. *)
Definition postPass (m : gmap string json) : gmap string json :=
  repairRequired (ensureProperties (ensureType m)).

(** A map every entry of which the loop of [cleanSchemaValue] stores back
    unchanged. *)
Definition cleanFixed (m : gmap string json) : Prop :=
  forall k v, m !! k = Some v -> cleanSchemaEntry cleanSchemaValue k v = Some v.

(** The property of one object that the specification asks for: a
    [required] array is never empty and every name it lists is a key of
    the sibling [properties] map. *)
Definition requiredNamesOK (m : gmap string json) : bool :=
  match m !! "required" with
  | Some (JArr required) =>
      (0 <? length required)%nat &&
      forallb (fun r =>
                 match r with
                 | JStr reqName =>
                     match m !! "properties" with
                     | Some (JObj props) =>
                         bool_decide (is_Some (props !! reqName))
                     | _ => false
                     end
                 | _ => true
                 end) required
  | _ => true
  end.

(** The same property at the top level and at every nested level. *)
Fixpoint requiredOKEverywhere (j : json) : bool :=
  match j with
  | JObj m =>
      requiredNamesOK m &&
      map_fold (fun _ v acc => requiredOKEverywhere v && acc) true m
  | JArr l => forallb requiredOKEverywhere l
  | _ => true
  end.

(** The dialect of the cleaner, along the paths that it walks: an object
    has no excluded key, its [format] is one of the allowed strings, its
    [additionalProperties] is a boolean, its [type] is no array and, when a
    string, in upper case; the values under its other keys and the members
    of arrays are in the dialect again. *)
#[warnings="-register-all"]
Inductive InDialect : json -> Prop :=
| InDialect_null : InDialect JNull
| InDialect_bool (b : bool) : InDialect (JBool b)
| InDialect_num (n : float) : InDialect (JNum n)
| InDialect_str (s : string) : InDialect (JStr s)
| InDialect_arr (l : list json) : Forall InDialect l -> InDialect (JArr l)
| InDialect_obj (m : gmap string json) :
    (forall k, isExcluded k = true -> m !! k = None) ->
    (forall v, m !! "format" = Some v ->
               exists formatStr, v = JStr formatStr /\
                                 isAllowedFormat formatStr = true) ->
    (forall v, m !! "additionalProperties" = Some v -> exists b, v = JBool b) ->
    (forall v, m !! "type" = Some v ->
               (forall l, v <> JArr l) /\
               (forall s, v = JStr s -> ToUpper s = s)) ->
    (forall k v, m !! k = Some v ->
                 k <> "type" -> k <> "format" ->
                 k <> "additionalProperties" -> InDialect v) ->
    InDialect (JObj m).

(** A nested object schema whose [required] names a property it does not
    declare: [{"properties": {"a": {"type": "object", "properties": {},
    "required": ["x"]}}}]. *)
Definition nestedRequiredSchema : gmap string json :=
  {[ "properties" :=
       JObj {[ "a" :=
                 JObj (<[ "type" := JStr "object" ]>
                       (<[ "properties" := JObj ∅ ]>
                        {[ "required" := JArr [JStr "x"] ]})) ]} ]}.

(** A schema that requires ["a"], which it declares, ["b"], which it does
    not, and a non-string entry. *)
Definition partlyRequiredSchema : gmap string json :=
  <[ "properties" := JObj {[ "a" := JObj ∅ ]} ]>
    {[ "required" := JArr [JStr "a"; JStr "b"; JNull] ]}.

(** What [cleanJSONSchema] makes of it. *)
Definition partlyRequiredCleaned : gmap string json :=
  <[ "type" := JStr "OBJECT" ]>
    (<[ "properties" := JObj {[ "a" := JObj ∅ ]} ]>
       {[ "required" := JArr [JStr "a"] ]}).

(** A tool schema as clients send it:
    [{"$schema": "...", "type": "object", "additionalProperties": {},
      "properties": {"when": {"type": ["string", "null"],
                              "format": "date-time", "minLength": 1},
                     "id": {"type": "string", "format": "uuid"}},
      "required": ["when", "gone"]}]. *)
Definition clientSchema : gmap string json :=
  <[ "$schema" := JStr "http://json-schema.org/draft-07/schema#" ]>
  (<[ "type" := JStr "object" ]>
  (<[ "additionalProperties" := JObj ∅ ]>
  (<[ "properties" :=
        JObj (<[ "when" :=
                   JObj (<[ "type" := JArr [JStr "string"; JStr "null"] ]>
                        (<[ "format" := JStr "date-time" ]>
                         {[ "minLength" := JNum 1%float ]})) ]>
              {[ "id" :=
                   JObj (<[ "type" := JStr "string" ]>
                         {[ "format" := JStr "uuid" ]}) ]}) ]>
   {[ "required" := JArr [JStr "when"; JStr "gone"] ]}))).

Definition clientSchemaCleaned : gmap string json :=
  <[ "type" := JStr "OBJECT" ]>
  (<[ "additionalProperties" := JBool false ]>
  (<[ "properties" :=
        JObj (<[ "when" :=
                   JObj (<[ "type" := JStr "STRING" ]>
                         {[ "format" := JStr "date-time" ]}) ]>
              {[ "id" := JObj {[ "type" := JStr "STRING" ]} ]}) ]>
   {[ "required" := JArr [JStr "when"] ]})).

(** A schema without [type] and [properties]: [{"title": "x"}]. *)
Definition titledSchema : gmap string json := {[ "title" := JStr "x" ]}.

End Schema.

(* ===================================================================== *)
(** * Claude -> Gemini request transformer *)
(* ===================================================================== *)

Module Transformer.
Import GoStrings Schema.

(** ** Results of fallible functions *)

Inductive TransformError : Type :=
| ErrParseContentBlocks                        (* "parse content blocks" *)
| ErrBuildParts (i : nat) (e : TransformError) (* "build parts for message i" *)
| ErrBuildContents (e : TransformError).       (* "build contents" *)

Inductive res (A : Type) : Type :=
| Ok (a : A)
| Err (e : TransformError).
Arguments Ok {A} a.
Arguments Err {A} e.

(** ** Source protocol (Claude)

    The struct declarations live in a file of the package that is not part
    of this development; the records list the fields that the transformer
    reads.  A [json.RawMessage] field is represented by the outcome of the
    decoding attempts that the code makes on it, in the order it makes
    them. *)

Record ImageSource : Type := {
  src_Type : string;
  src_MediaType : string;
  src_Data : string
}.

(** [tool_result.content], as [parseToolResultContent] decodes it. *)
Inductive ToolResultContent : Type :=
| ResultAbsent                               (* len(content) == 0 *)
| ResultString (str : string)                (* a JSON string *)
| ResultArray (arr : list (gmap string json)) (* a JSON array of objects *)
| ResultRaw (raw : string).                  (* anything else, as JSON text *)

Record ContentBlock : Type := {
  cb_Type : string;
  cb_Text : string;
  cb_Thinking : string;
  cb_Signature : string;
  cb_Source : option ImageSource;
  cb_ID : string;
  cb_Name : string;
  cb_Input : json;
  cb_ToolUseID : string;
  cb_Content : ToolResultContent;
  cb_IsError : bool
}.

(** [message.content], as [buildParts] decodes it: first as a string, then
    as an array of content blocks. *)
Inductive MessageContent : Type :=
| ContentString (textContent : string)
| ContentBlocks (blocks : list ContentBlock)
| ContentInvalid.

Record ClaudeMessage : Type := {
  msg_Role : string;
  msg_Content : MessageContent
}.

Record SystemBlock : Type := {
  sb_Type : string;
  sb_Text : string
}.

(** [system], as [buildSystemInstruction] decodes it. *)
Inductive SystemPrompt : Type :=
| SystemAbsent                               (* len(system) == 0 *)
| SystemString (sysStr : string)
| SystemBlocks (sysBlocks : list SystemBlock)
| SystemInvalid.

Record CustomToolSpec : Type := {
  custom_Description : string;
  custom_InputSchema : option (gmap string json)
}.

Record ClaudeTool : Type := {
  tool_Type : string;
  tool_Name : string;
  tool_Description : string;
  tool_InputSchema : option (gmap string json);
  tool_Custom : option CustomToolSpec
}.

Record ThinkingConfig : Type := {
  th_Type : string;
  th_BudgetTokens : Z
}.

Record ClaudeMetadata : Type := {
  meta_UserID : string
}.

Record ClaudeRequest : Type := {
  req_Model : string;
  req_Messages : list ClaudeMessage;
  req_System : SystemPrompt;
  req_Tools : list ClaudeTool;
  req_Thinking : option ThinkingConfig;
  req_Temperature : option float;
  req_TopP : option float;
  req_TopK : option Z;
  req_Metadata : option ClaudeMetadata;
  req_Stream : bool
}.

(** ** Target protocol (Gemini, v1internal) *)

Record GeminiInlineData : Type := {
  inline_MimeType : string;
  inline_Data : string
}.

Record GeminiFunctionCall : Type := {
  fc_Name : string;
  fc_Args : json;
  fc_ID : string
}.

Record GeminiFunctionResponse : Type := {
  fr_Name : string;
  fr_Response : gmap string json;
  fr_ID : string
}.

Record GeminiPart : Type := {
  part_Text : string;
  part_Thought : bool;
  part_ThoughtSignature : string;
  part_InlineData : option GeminiInlineData;
  part_FunctionCall : option GeminiFunctionCall;
  part_FunctionResponse : option GeminiFunctionResponse
}.

Record GeminiContent : Type := {
  content_Role : string;
  content_Parts : list GeminiPart
}.

Record GeminiThinkingConfig : Type := {
  tc_IncludeThoughts : bool;
  tc_ThinkingBudget : Z
}.

Record GeminiGenerationConfig : Type := {
  gc_MaxOutputTokens : Z;
  gc_StopSequences : list string;
  gc_ThinkingConfig : option GeminiThinkingConfig;
  gc_Temperature : option float;
  gc_TopP : option float;
  gc_TopK : option Z
}.

Record GeminiFunctionDecl : Type := {
  fd_Name : string;
  fd_Description : string;
  fd_Parameters : gmap string json
}.

Record GeminiImageSearch : Type := { is_MaxResultCount : Z }.
Record GeminiEnhancedContent : Type := { ec_ImageSearch : option GeminiImageSearch }.
Record GeminiGoogleSearch : Type := { gs_EnhancedContent : option GeminiEnhancedContent }.

Record GeminiToolDeclaration : Type := {
  td_FunctionDeclarations : list GeminiFunctionDecl;
  td_GoogleSearch : option GeminiGoogleSearch
}.

Record GeminiFunctionCallingConfig : Type := { fcc_Mode : string }.
Record GeminiToolConfig : Type := {
  tcfg_FunctionCallingConfig : option GeminiFunctionCallingConfig
}.

Record TransformOptions : Type := {
  opt_EnableIdentityPatch : bool;
  opt_IdentityPatch : string
}.

Definition DefaultTransformOptions : TransformOptions :=
  {| opt_EnableIdentityPatch := true; opt_IdentityPatch := "" |}.

(** ** Parts *)

Definition textPart (text : string) : GeminiPart :=
  {| part_Text := text; part_Thought := false; part_ThoughtSignature := "";
     part_InlineData := None; part_FunctionCall := None;
     part_FunctionResponse := None |}.

(** [dummyThoughtSignature] *)
Definition dummyThoughtSignature : string := "skip_thought_signature_validator".

(** The part that [buildContents] puts in front of a pre-filled final
    assistant message. *)
Definition dummyThoughtPart : GeminiPart :=
  {| part_Text := "Thinking..."; part_Thought := true;
     part_ThoughtSignature := dummyThoughtSignature;
     part_InlineData := None; part_FunctionCall := None;
     part_FunctionResponse := None |}.

Definition newline : string := String (ascii_of_nat 10) EmptyString.

Definition noOutputText (isError : bool) : string :=
  if isError then "Tool execution failed with no output."
  else "Command executed successfully.".

(** [item["text"].(string)] for every item that has one. *)
Fixpoint itemTexts (arr : list (gmap string json)) : list string :=
  match arr with
  | [] => []
  | item :: rest =>
      match item !! "text" with
      | Some (JStr text) => text :: itemTexts rest
      | _ => itemTexts rest
      end
  end.

(** [parseToolResultContent] *)
Definition parseToolResultContent (content : ToolResultContent) (isError : bool)
  : string :=
  match content with
  | ResultAbsent => noOutputText isError
  | ResultString str => if isBlank str then noOutputText isError else str
  | ResultArray arr =>
      let result := Join (itemTexts arr) newline in
      if isBlank result then noOutputText isError else result
  | ResultRaw raw => raw
  end.

(** The state of one transformation: the map [toolIDToName]. *)
Abbreviation ToolIdentityMap := (gmap string string).

(** One iteration of the [for _, block := range blocks] loop of
    [buildParts]: the parts appended, whether a thinking block was
    downgraded, and the map after the iteration. *)
Definition buildBlock (allowDummyThought : bool) (block : ContentBlock)
  (toolIDToName : ToolIdentityMap) : list GeminiPart * bool * ToolIdentityMap :=
  if String.eqb (cb_Type block) "text" then
    if negb (String.eqb (cb_Text block) "(no content)")
       && negb (isBlank (cb_Text block))
    then ([textPart (cb_Text block)], false, toolIDToName)
    else ([], false, toolIDToName)
  else if String.eqb (cb_Type block) "thinking" then
    let part sig :=
      {| part_Text := cb_Thinking block; part_Thought := true;
         part_ThoughtSignature := sig;
         part_InlineData := None; part_FunctionCall := None;
         part_FunctionResponse := None |} in
    if negb (String.eqb (cb_Signature block) "") then
      ([part (cb_Signature block)], false, toolIDToName)
    else if negb allowDummyThought then
      (if negb (isBlank (cb_Thinking block))
       then [textPart (cb_Thinking block)] else [],
       true, toolIDToName)
    else ([part dummyThoughtSignature], false, toolIDToName)
  else if String.eqb (cb_Type block) "image" then
    match cb_Source block with
    | Some source =>
        if String.eqb (src_Type source) "base64" then
          ([ {| part_Text := ""; part_Thought := false;
                part_ThoughtSignature := "";
                part_InlineData :=
                  Some {| inline_MimeType := src_MediaType source;
                          inline_Data := src_Data source |};
                part_FunctionCall := None;
                part_FunctionResponse := None |} ],
           false, toolIDToName)
        else ([], false, toolIDToName)
    | None => ([], false, toolIDToName)
    end
  else if String.eqb (cb_Type block) "tool_use" then
    let toolIDToName' :=
      if negb (String.eqb (cb_ID block) "")
         && negb (String.eqb (cb_Name block) "")
      then <[cb_ID block := cb_Name block]> toolIDToName
      else toolIDToName in
    let sig :=
      if allowDummyThought then dummyThoughtSignature
      else if negb (String.eqb (cb_Signature block) "")
              && negb (String.eqb (cb_Signature block) dummyThoughtSignature)
           then cb_Signature block
           else "" in
    ([ {| part_Text := ""; part_Thought := false;
          part_ThoughtSignature := sig;
          part_InlineData := None;
          part_FunctionCall :=
            Some {| fc_Name := cb_Name block; fc_Args := cb_Input block;
                    fc_ID := cb_ID block |};
          part_FunctionResponse := None |} ],
     false, toolIDToName')
  else if String.eqb (cb_Type block) "tool_result" then
    let funcName :=
      if String.eqb (cb_Name block) "" then
        match toolIDToName !! cb_ToolUseID block with
        | Some name => name
        | None => cb_ToolUseID block
        end
      else cb_Name block in
    let resultContent :=
      parseToolResultContent (cb_Content block) (cb_IsError block) in
    ([ {| part_Text := ""; part_Thought := false;
          part_ThoughtSignature := "";
          part_InlineData := None; part_FunctionCall := None;
          part_FunctionResponse :=
            Some {| fr_Name := funcName;
                    fr_Response := {[ "result" := JStr resultContent ]};
                    fr_ID := cb_ToolUseID block |} |} ],
     false, toolIDToName)
  else ([], false, toolIDToName).

(** The block loop of [buildParts]. *)
Fixpoint buildBlocks (allowDummyThought : bool) (blocks : list ContentBlock)
  (toolIDToName : ToolIdentityMap) : list GeminiPart * bool * ToolIdentityMap :=
  match blocks with
  | [] => ([], false, toolIDToName)
  | block :: rest =>
      let '(parts, stripped, toolIDToName1) :=
        buildBlock allowDummyThought block toolIDToName in
      let '(parts', stripped', toolIDToName2) :=
        buildBlocks allowDummyThought rest toolIDToName1 in
      ((parts ++ parts')%list, stripped || stripped', toolIDToName2)
  end.

(** [buildParts] *)
Definition buildParts (content : MessageContent) (toolIDToName : ToolIdentityMap)
  (allowDummyThought : bool)
  : res (list GeminiPart * bool * ToolIdentityMap) :=
  match content with
  | ContentString textContent =>
      if negb (String.eqb textContent "(no content)")
         && negb (isBlank textContent)
      then Ok ([textPart (TrimSpace textContent)], false, toolIDToName)
      else Ok ([], false, toolIDToName)
  | ContentBlocks blocks => Ok (buildBlocks allowDummyThought blocks toolIDToName)
  | ContentInvalid => Err ErrParseContentBlocks
  end.

(** ** Contents *)

Definition hasThoughtPart (parts : list GeminiPart) : bool :=
  existsb part_Thought parts.

Definition targetRole (role : string) : string :=
  if String.eqb role "assistant" then "model" else role.

(** The pre-fill workaround inside the message loop: message [i] of [n]. *)
Definition addDummyThought (isThinkingEnabled allowDummyThought : bool)
  (n i : nat) (role : string) (parts : list GeminiPart) : list GeminiPart :=
  if allowDummyThought && String.eqb role "model" && isThinkingEnabled
     && (i =? n - 1)%nat
  then
    if negb (hasThoughtPart parts) && (0 <? length parts)%nat
    then dummyThoughtPart :: parts
    else parts
  else parts.

(** The message loop of [buildContents], from message [i] on; [n] is
    [len(messages)]. *)
Fixpoint buildContentsFrom (isThinkingEnabled allowDummyThought : bool)
  (n i : nat) (messages : list ClaudeMessage) (toolIDToName : ToolIdentityMap)
  : res (list GeminiContent * bool * ToolIdentityMap) :=
  match messages with
  | [] => Ok ([], false, toolIDToName)
  | msg :: rest =>
      let role := targetRole (msg_Role msg) in
      match buildParts (msg_Content msg) toolIDToName allowDummyThought with
      | Err e => Err (ErrBuildParts i e)
      | Ok (parts, strippedThisMsg, toolIDToName1) =>
          let parts :=
            addDummyThought isThinkingEnabled allowDummyThought n i role parts in
          match buildContentsFrom isThinkingEnabled allowDummyThought
                  n (S i) rest toolIDToName1 with
          | Err e => Err e
          | Ok (contents, strippedThinking, toolIDToName2) =>
              Ok (match parts with
                  | [] => contents
                  | _ => {| content_Role := role; content_Parts := parts |}
                         :: contents
                  end,
                  strippedThisMsg || strippedThinking,
                  toolIDToName2)
          end
      end
  end.

(** [buildContents] *)
Definition buildContents (messages : list ClaudeMessage)
  (toolIDToName : ToolIdentityMap) (isThinkingEnabled allowDummyThought : bool)
  : res (list GeminiContent * bool * ToolIdentityMap) :=
  buildContentsFrom isThinkingEnabled allowDummyThought
    (length messages) 0 messages toolIDToName.

(** A block that contributes no part: a [text] block with the sentinel or
    only white space, an [image] whose source is not base64, a block of an
    unrecognized type. *)
Definition blockReducesToNothing (block : ContentBlock) : bool :=
  if String.eqb (cb_Type block) "text" then
    String.eqb (cb_Text block) "(no content)" || isBlank (cb_Text block)
  else if String.eqb (cb_Type block) "thinking" then false
  else if String.eqb (cb_Type block) "image" then
    match cb_Source block with
    | Some source => negb (String.eqb (src_Type source) "base64")
    | None => true
    end
  else if String.eqb (cb_Type block) "tool_use" then false
  else if String.eqb (cb_Type block) "tool_result" then false
  else true.

(** A message content all of whose blocks reduce to nothing. *)
Definition contentReducesToNothing (content : MessageContent) : bool :=
  match content with
  | ContentString textContent =>
      String.eqb textContent "(no content)" || isBlank textContent
  | ContentBlocks blocks => forallb blockReducesToNothing blocks
  | ContentInvalid => false
  end.

(** The entry of a message whose parts are [parts]: none when there are no
    parts. *)
Definition contentEntry (role : string) (parts : list GeminiPart)
  : list GeminiContent :=
  match parts with
  | [] => []
  | _ => [ {| content_Role := targetRole role; content_Parts := parts |} ]
  end.

(** ** System instruction *)

(** [defaultIdentityPatch] *)
Definition defaultIdentityPatch (modelName : string) : string :=
  "<identity>\nYou are Antigravity, a powerful agentic AI coding assistant designed by the Google Deepmind team working on Advanced Agentic Coding.\nYou are pair programming with a USER to solve their coding task. The task may require creating a new codebase, modifying or debugging an existing codebase, or simply answering a question.\nThe USER will send you requests, which you must always prioritize addressing. Along with each USER request, we will attach additional metadata about their current state, such as what files they have open and where their cursor is.\nThis information may or may not be relevant to the coding task, it is up for you to decide.\n</identity>\n\n<tool_calling>\nCall tools as you normally would. The following list provides additional guidance to help you avoid errors:\n  - **Absolute paths only**. When using tools that accept file path arguments, ALWAYS use the absolute file path.\n</tool_calling>\n\n<web_application_development>\n## Technology Stack,\nYour web applications should be built using the following technologies:,\n1. **Core**: Use HTML for structure and Javascript for logic.\n2. **Styling (CSS)**: Use Vanilla CSS for maximum flexibility and control. Avoid using TailwindCSS unless the USER explicitly requests it; in this case, first confirm which TailwindCSS version to use.\n3. **Web App**: If the USER specifies that they want a more complex web app, use a framework like Next.js or Vite. Only do this if the USER explicitly requests a web app.\n4. **New Project Creation**: If you need to use a framework for a new app, use `npx` with the appropriate script, but there are some rules to follow:,\n   - Use `npx -y` to automatically install the script and its dependencies\n   - You MUST run the command with `--help` flag to see all available options first, \n   - Initialize the app in the current directory with `./` (example: `npx -y create-vite-app@latest ./`),\n   - You should run in non-interactive mode so that the user doesn't need to input anything,\n5. **Running Locally**: When running locally, use `npm run dev` or equivalent dev server. Only build the production bundle if the USER explicitly requests it or you are validating the code for correctness.\n\n# Design Aesthetics,\n1. **Use Rich Aesthetics**: The USER should be wowed at first glance by the design. Use best practices in modern web design (e.g. vibrant colors, dark modes, glassmorphism, and dynamic animations) to create a stunning first impression. Failure to do this is UNACCEPTABLE.\n2. **Prioritize Visual Excellence**: Implement designs that will WOW the user and feel extremely premium:\n\t\t- Avoid generic colors (plain red, blue, green). Use curated, harmonious color palettes (e.g., HSL tailored colors, sleek dark modes).\n   - Using modern typography (e.g., from Google Fonts like Inter, Roboto, or Outfit) instead of browser defaults.\n\t\t- Use smooth gradients,\n\t\t- Add subtle micro-animations for enhanced user experience,\n3. **Use a Dynamic Design**: An interface that feels responsive and alive encourages interaction. Achieve this with hover effects and interactive elements. Micro-animations, in particular, are highly effective for improving user engagement.\n4. **Premium Designs**. Make a design that feels premium and state of the art. Avoid creating simple minimum viable products.\n4. **Don't use placeholders**. If you need an image, use your generate_image tool to create a working demonstration.,\n\n## Implementation Workflow,\nFollow this systematic approach when building web applications:,\n1. **Plan and Understand**:,\n\t\t- Fully understand the user's requirements,\n\t\t- Draw inspiration from modern, beautiful, and dynamic web designs,\n\t\t- Outline the features needed for the initial version,\n2. **Build the Foundation**:,\n\t\t- Start by creating/modifying `index.css`,\n\t\t- Implement the core design system with all tokens and utilities,\n3. **Create Components**:,\n\t\t- Build necessary components using your design system,\n\t\t- Ensure all components use predefined styles, not ad-hoc utilities,\n\t\t- Keep components focused and reusable,\n4. **Assemble Pages**:,\n\t\t- Update the main application to incorporate your design and components,\n\t\t- Ensure proper routing and navigation,\n\t\t- Implement responsive layouts,\n5. **Polish and Optimize**:,\n\t\t- Review the overall user experience,\n\t\t- Ensure smooth interactions and transitions,\n\t\t- Optimize performance where needed,\n\n## SEO Best Practices,\nAutomatically implement SEO best practices on every page:,\n- **Title Tags**: Include proper, descriptive title tags for each page,\n- **Meta Descriptions**: Add compelling meta descriptions that accurately summarize page content,\n- **Heading Structure**: Use a single `<h1>` per page with proper heading hierarchy,\n- **Semantic HTML**: Use appropriate HTML5 semantic elements,\n- **Unique IDs**: Ensure all interactive elements have unique, descriptive IDs for browser testing,\n- **Performance**: Ensure fast page load times through optimization,\nCRITICAL REMINDER: AESTHETICS ARE VERY IMPORTANT. If your web app looks simple and basic then you have FAILED!\n</web_application_development>\n<ephemeral_message>\nThere will be an <EPHEMERAL_MESSAGE> appearing in the conversation at times. This is not coming from the user, but instead injected by the system as important information to pay attention to. \nDo not respond to nor acknowledge those messages, but do follow them strictly.\n</ephemeral_message>\n\n\n<communication_style>\n- **Formatting**. Format your responses in github-style markdown to make your responses easier for the USER to parse. For example, use headers to organize your responses and bolded or italicized text to highlight important keywords. Use backticks to format file, directory, function, and class names. If providing a URL to the user, format this in markdown as well, for example `[label](example.com)`.\n- **Proactiveness**. As an agent, you are allowed to be proactive, but only in the course of completing the user's task. For example, if the user asks you to add a new component, you can edit the code, verify build and test statuses, and take any other obvious follow-up actions, such as performing additional research. However, avoid surprising the user. For example, if the user asks HOW to approach something, you should answer their question and instead of jumping into editing a file.\n- **Helpfulness**. Respond like a helpful software engineer who is explaining your work to a friendly collaborator on the project. Acknowledge mistakes or any backtracking you do as a result of new information.\n- **Ask for clarification**. If you are unsure about the USER's intent, always ask for clarification rather than making assumptions.\n</communication_style>".

Fixpoint systemBlockParts (sysBlocks : list SystemBlock) : list GeminiPart :=
  match sysBlocks with
  | [] => []
  | block :: rest =>
      if String.eqb (sb_Type block) "text" && negb (isBlank (sb_Text block))
      then textPart (sb_Text block) :: systemBlockParts rest
      else systemBlockParts rest
  end.

(** [buildSystemInstruction] *)
Definition buildSystemInstruction (system : SystemPrompt) (modelName : string)
  (opts : TransformOptions) : option GeminiContent :=
  let parts :=
    if opt_EnableIdentityPatch opts then
      let identityPatch := TrimSpace (opt_IdentityPatch opts) in
      [textPart (if String.eqb identityPatch ""
                 then defaultIdentityPatch modelName else identityPatch)]
    else [] in
  let parts :=
    (parts ++
    match system with
    | SystemAbsent => []
    | SystemString sysStr =>
        if negb (isBlank sysStr) then [textPart sysStr] else []
    | SystemBlocks sysBlocks => systemBlockParts sysBlocks
    | SystemInvalid => []
    end)%list in
  match parts with
  | [] => None
  | _ => Some {| content_Role := "user"; content_Parts := parts |}
  end.

(** ** Tools *)

Definition hasWebSearch (tools : list ClaudeTool) : bool :=
  existsb (fun tool => String.eqb (tool_Name tool) "web_search") tools.

(** The function declaration of one tool, or [None] when it is skipped. *)
Definition buildFunctionDecl (tool : ClaudeTool) : option GeminiFunctionDecl :=
  if isBlank (tool_Name tool) then None
  else
    let source :=
      if String.eqb (tool_Type tool) "custom" then
        match tool_Custom tool with
        | Some custom =>
            match custom_InputSchema custom with
            | Some inputSchema =>
                Some (custom_Description custom, Some inputSchema)
            | None => None
            end
        | None => None
        end
      else Some (tool_Description tool, tool_InputSchema tool) in
    match source with
    | None => None
    | Some (description, inputSchema) =>
        let params :=
          match cleanJSONSchema inputSchema with
          | Some params => params
          | None => <[ "type" := JStr "OBJECT" ]> {[ "properties" := JObj ∅ ]}
          end in
        Some {| fd_Name := tool_Name tool; fd_Description := description;
                fd_Parameters := params |}
    end.

Fixpoint buildFunctionDecls (tools : list ClaudeTool) : list GeminiFunctionDecl :=
  match tools with
  | [] => []
  | tool :: rest =>
      match buildFunctionDecl tool with
      | Some decl => decl :: buildFunctionDecls rest
      | None => buildFunctionDecls rest
      end
  end.

(** [buildTools] *)
Definition buildTools (tools : list ClaudeTool) : list GeminiToolDeclaration :=
  match tools with
  | [] => []
  | _ =>
      if hasWebSearch tools then
        [ {| td_FunctionDeclarations := [];
             td_GoogleSearch :=
               Some {| gs_EnhancedContent :=
                         Some {| ec_ImageSearch :=
                                   Some {| is_MaxResultCount := 5 |} |} |} |} ]
      else
        match buildFunctionDecls tools with
        | [] => []
        | funcDecls =>
            [ {| td_FunctionDeclarations := funcDecls;
                 td_GoogleSearch := None |} ]
        end
  end.

(** ** Generation config and the whole request

    [DefaultStopSequences] and [DefaultSafetySettings] are package constants
    declared outside this development. *)

Section Request.
Variable SafetySetting : Type.
Variable DefaultStopSequences : list string.
Variable DefaultSafetySettings : list SafetySetting.

Record GeminiRequest : Type := {
  greq_Contents : list GeminiContent;
  greq_SystemInstruction : option GeminiContent;
  greq_GenerationConfig : option GeminiGenerationConfig;
  greq_Tools : list GeminiToolDeclaration;
  greq_ToolConfig : option GeminiToolConfig;
  greq_SessionID : string;
  greq_SafetySettings : list SafetySetting
}.

Record V1InternalRequest : Type := {
  v1_Model : string;
  v1_Request : GeminiRequest
}.

Definition isThinkingEnabled (req : ClaudeRequest) : bool :=
  match req_Thinking req with
  | Some thinking => String.eqb (th_Type thinking) "enabled"
  | None => false
  end.

(** [buildGenerationConfig] *)
Definition buildGenerationConfig (req : ClaudeRequest) : GeminiGenerationConfig :=
  {| gc_MaxOutputTokens := 64000;
     gc_StopSequences := DefaultStopSequences;
     gc_ThinkingConfig :=
       match req_Thinking req with
       | Some thinking =>
           if String.eqb (th_Type thinking) "enabled" then
             Some {| tc_IncludeThoughts := true;
                     tc_ThinkingBudget :=
                       if (0 <? th_BudgetTokens thinking)%Z then
                         let budget := th_BudgetTokens thinking in
                         if Contains (req_Model req) "gemini-2.5-flash"
                            && (24576 <? budget)%Z
                         then 24576%Z else budget
                       else 0%Z |}
           else None
       | None => None
       end;
     gc_Temperature := req_Temperature req;
     gc_TopP := req_TopP req;
     gc_TopK := req_TopK req |}.

(** [reqCopy := *claudeReq; reqCopy.Thinking = nil] *)
Definition withoutThinking (req : ClaudeRequest) : ClaudeRequest :=
  {| req_Model := req_Model req;
     req_Messages := req_Messages req;
     req_System := req_System req;
     req_Tools := req_Tools req;
     req_Thinking := None;
     req_Temperature := req_Temperature req;
     req_TopP := req_TopP req;
     req_TopK := req_TopK req;
     req_Metadata := req_Metadata req;
     req_Stream := req_Stream req |}.

(** [TransformClaudeToGeminiWithOptions]; the result is the
    [V1InternalRequest] that the source marshals. *)
Definition TransformClaudeToGeminiWithOptions (claudeReq : ClaudeRequest)
  (projectID mappedModel : string) (opts : TransformOptions)
  : res V1InternalRequest :=
  let toolIDToName : ToolIdentityMap := ∅ in
  let isThinkingEnabled := isThinkingEnabled claudeReq in
  let allowDummyThought := HasPrefix mappedModel "gemini-" in
  match buildContents (req_Messages claudeReq) toolIDToName
          isThinkingEnabled allowDummyThought with
  | Err e => Err (ErrBuildContents e)
  | Ok (contents, strippedThinking, _) =>
      let systemInstruction :=
        buildSystemInstruction (req_System claudeReq) (req_Model claudeReq) opts in
      let reqForConfig :=
        if strippedThinking then withoutThinking claudeReq else claudeReq in
      let generationConfig := buildGenerationConfig reqForConfig in
      let tools := buildTools (req_Tools claudeReq) in
      Ok {| v1_Model := mappedModel;
            v1_Request :=
              {| greq_Contents := contents;
                 greq_SystemInstruction := systemInstruction;
                 greq_GenerationConfig := Some generationConfig;
                 greq_Tools := tools;
                 greq_ToolConfig :=
                   match tools with
                   | [] => None
                   | _ => Some {| tcfg_FunctionCallingConfig :=
                                    Some {| fcc_Mode := "VALIDATED" |} |}
                   end;
                 greq_SessionID :=
                   match req_Metadata claudeReq with
                   | Some metadata => meta_UserID metadata
                   | None => ""
                   end;
                 greq_SafetySettings := DefaultSafetySettings |} |}
  end.

(** [TransformClaudeToGemini] *)
Definition TransformClaudeToGemini (claudeReq : ClaudeRequest)
  (projectID mappedModel : string) : res V1InternalRequest :=
  TransformClaudeToGeminiWithOptions claudeReq projectID mappedModel
    DefaultTransformOptions.

End Request.

Arguments greq_Contents {SafetySetting} _.
Arguments greq_GenerationConfig {SafetySetting} _.
Arguments v1_Model {SafetySetting} _.
Arguments v1_Request {SafetySetting} _.

(** ** Notions used in the statements about the transformer *)

(** Does [buildTools] declare the tool? It has a name, and as a custom tool
    it has a spec with an input schema. *)
Definition isDeclarable (tool : ClaudeTool) : bool :=
  negb (isBlank (tool_Name tool)) &&
  (if String.eqb (tool_Type tool) "custom" then
     match tool_Custom tool with
     | Some custom =>
         match custom_InputSchema custom with Some _ => true | None => false end
     | None => false
     end
   else true).

(** The part of a [tool_result]. *)
Definition functionResponsePart (name result id : string) : GeminiPart :=
  {| part_Text := ""; part_Thought := false; part_ThoughtSignature := "";
     part_InlineData := None; part_FunctionCall := None;
     part_FunctionResponse :=
       Some {| fr_Name := name;
               fr_Response := {[ "result" := JStr result ]};
               fr_ID := id |} |}.

(** What a block adds to the map of tool names. *)
Definition recordToolUse (toolIDToName : ToolIdentityMap) (block : ContentBlock)
  : ToolIdentityMap :=
  if String.eqb (cb_Type block) "tool_use"
     && negb (String.eqb (cb_ID block) "")
     && negb (String.eqb (cb_Name block) "")
  then <[cb_ID block := cb_Name block]> toolIDToName
  else toolIDToName.

(** The same for the blocks of a message and for a list of messages. *)
Definition recordMessage (toolIDToName : ToolIdentityMap) (msg : ClaudeMessage)
  : ToolIdentityMap :=
  match msg_Content msg with
  | ContentBlocks blocks => fold_left recordToolUse blocks toolIDToName
  | _ => toolIDToName
  end.

(** Is the block a [tool_use] that records a name for [id]? *)
Definition recordsID (id : string) (block : ContentBlock) : bool :=
  String.eqb (cb_Type block) "tool_use"
  && negb (String.eqb (cb_ID block) "")
  && negb (String.eqb (cb_Name block) "")
  && String.eqb (cb_ID block) id.

(** Is the content of the message decodable? *)
Definition isDecodable (msg : ClaudeMessage) : bool :=
  match msg_Content msg with
  | ContentInvalid => false
  | _ => true
  end.

(** Is the part a plain text part? *)
Definition isTextPart (part : GeminiPart) : bool :=
  negb (part_Thought part)
  && String.eqb (part_ThoughtSignature part) ""
  && match part_InlineData part, part_FunctionCall part,
           part_FunctionResponse part with
     | None, None, None => true
     | _, _, _ => false
     end.

(** The one declaration of the native search tool. *)
Definition googleSearchDeclaration : GeminiToolDeclaration :=
  {| td_FunctionDeclarations := [];
     td_GoogleSearch :=
       Some {| gs_EnhancedContent :=
                 Some {| ec_ImageSearch :=
                           Some {| is_MaxResultCount := 5 |} |} |} |}.

(** The text parts that the system prompt of the caller contributes. *)
Definition callerSystemParts (system : SystemPrompt) : list GeminiPart :=
  match system with
  | SystemString sysStr => if negb (isBlank sysStr) then [textPart sysStr] else []
  | SystemBlocks sysBlocks => systemBlockParts sysBlocks
  | _ => []
  end.

(** ** Sample inputs *)

Definition emptyBlock : ContentBlock :=
  {| cb_Type := ""; cb_Text := ""; cb_Thinking := ""; cb_Signature := "";
     cb_Source := None; cb_ID := ""; cb_Name := ""; cb_Input := JNull;
     cb_ToolUseID := ""; cb_Content := ResultAbsent; cb_IsError := false |}.

Definition textBlock (text : string) : ContentBlock :=
  {| cb_Type := "text"; cb_Text := text; cb_Thinking := ""; cb_Signature := "";
     cb_Source := None; cb_ID := ""; cb_Name := ""; cb_Input := JNull;
     cb_ToolUseID := ""; cb_Content := ResultAbsent; cb_IsError := false |}.

(** A [thinking] block without signature. *)
Definition unsignedThinking (thinking : string) : ContentBlock :=
  {| cb_Type := "thinking"; cb_Text := ""; cb_Thinking := thinking;
     cb_Signature := "";
     cb_Source := None; cb_ID := ""; cb_Name := ""; cb_Input := JNull;
     cb_ToolUseID := ""; cb_Content := ResultAbsent; cb_IsError := false |}.

Definition userSays (text : string) : ClaudeMessage :=
  {| msg_Role := "user"; msg_Content := ContentString text |}.

Definition assistantSays (text : string) : ClaudeMessage :=
  {| msg_Role := "assistant"; msg_Content := ContentString text |}.

Definition assistantBlocks (blocks : list ContentBlock) : ClaudeMessage :=
  {| msg_Role := "assistant"; msg_Content := ContentBlocks blocks |}.

(** A request for [model] with the given messages and thinking budget. *)
Definition thinkingRequest (model : string) (messages : list ClaudeMessage)
  (budget : Z) : ClaudeRequest :=
  {| req_Model := model; req_Messages := messages;
     req_System := SystemAbsent; req_Tools := [];
     req_Thinking := Some {| th_Type := "enabled"; th_BudgetTokens := budget |};
     req_Temperature := None; req_TopP := None; req_TopK := None;
     req_Metadata := None; req_Stream := false |}.

(** A [thinking] block with a signature. *)
Definition signedThinking (thinking signature : string) : ContentBlock :=
  {| cb_Type := "thinking"; cb_Text := ""; cb_Thinking := thinking;
     cb_Signature := signature;
     cb_Source := None; cb_ID := ""; cb_Name := ""; cb_Input := JNull;
     cb_ToolUseID := ""; cb_Content := ResultAbsent; cb_IsError := false |}.

Definition toolUseBlock (id name : string) : ContentBlock :=
  {| cb_Type := "tool_use"; cb_Text := ""; cb_Thinking := ""; cb_Signature := "";
     cb_Source := None; cb_ID := id; cb_Name := name; cb_Input := JNull;
     cb_ToolUseID := ""; cb_Content := ResultAbsent; cb_IsError := false |}.

Definition toolResultBlock (id : string) : ContentBlock :=
  {| cb_Type := "tool_result"; cb_Text := ""; cb_Thinking := ""; cb_Signature := "";
     cb_Source := None; cb_ID := ""; cb_Name := ""; cb_Input := JNull;
     cb_ToolUseID := id; cb_Content := ResultAbsent; cb_IsError := false |}.

Definition userBlocks (blocks : list ContentBlock) : ClaudeMessage :=
  {| msg_Role := "user"; msg_Content := ContentBlocks blocks |}.

(** A message whose content is a number. *)
Definition undecodableMessage : ClaudeMessage :=
  {| msg_Role := "user"; msg_Content := ContentInvalid |}.

Definition plainTool (name description : string) : ClaudeTool :=
  {| tool_Type := ""; tool_Name := name; tool_Description := description;
     tool_InputSchema := None; tool_Custom := None |}.

(** A custom tool that came without its spec. *)
Definition brokenCustomTool (name : string) : ClaudeTool :=
  {| tool_Type := "custom"; tool_Name := name; tool_Description := "";
     tool_InputSchema := None; tool_Custom := None |}.

Definition listFilesDecl : GeminiFunctionDecl :=
  {| fd_Name := "ls"; fd_Description := "list files";
     fd_Parameters :=
       <[ "type" := JStr "OBJECT" ]> {[ "properties" := JObj ∅ ]} |}.

Definition listFilesDeclaration : GeminiToolDeclaration :=
  {| td_FunctionDeclarations := [listFilesDecl]; td_GoogleSearch := None |}.

Definition signedThoughtPart (text signature : string) : GeminiPart :=
  {| part_Text := text; part_Thought := true;
     part_ThoughtSignature := signature;
     part_InlineData := None; part_FunctionCall := None;
     part_FunctionResponse := None |}.

End Transformer.

(* ===================================================================== *)
(** * Antigravity gateway service: forwarding and retry engine *)
(* ===================================================================== *)

Module Gateway.
Import GoStrings Schema Transformer.

(** ** Constants and model tables *)

Definition antigravityMaxRetries : nat := 5.

(** [antigravitySupportedModels] *)
Definition antigravitySupportedModels : gset string :=
  list_to_set
    [ "claude-opus-4-5-thinking"; "claude-sonnet-4-5";
      "claude-sonnet-4-5-thinking";
      "gemini-2.5-flash"; "gemini-2.5-flash-lite"; "gemini-2.5-flash-thinking";
      "gemini-3-flash"; "gemini-3-pro-low"; "gemini-3-pro-high";
      "gemini-3-pro-preview"; "gemini-3-pro-image" ].

(** [antigravityModelMapping] *)
Definition antigravityModelMapping : gmap string string :=
  list_to_map
    [ ("claude-3-5-sonnet-20241022", "claude-sonnet-4-5");
      ("claude-3-5-sonnet-20240620", "claude-sonnet-4-5");
      ("claude-sonnet-4-5-20250929", "claude-sonnet-4-5-thinking");
      ("claude-opus-4", "claude-opus-4-5-thinking");
      ("claude-opus-4-5-20251101", "claude-opus-4-5-thinking");
      ("claude-haiku-4", "gemini-3-flash");
      ("claude-haiku-4-5", "gemini-3-flash");
      ("claude-3-haiku-20240307", "gemini-3-flash");
      ("claude-haiku-4-5-20251001", "gemini-3-flash") ].

(** ** Collaborators

    [Account], [ClaudeUsage], [ForwardResult], [UpstreamFailoverError] and
    the HTTP types are declared outside this development; the records list
    what the engine reads and writes. *)

Record Account : Type := {
  acc_ID : Z;
  acc_Name : string;
  acc_GetMappedModel : string -> string;  (* account-level model override *)
  acc_GetCredential : string -> string;
  acc_ProxyURL : string
}.

Record ClaudeUsage : Type := {
  InputTokens : Z;
  OutputTokens : Z;
  CacheCreationInputTokens : Z;
  CacheReadInputTokens : Z
}.

Definition zeroUsage : ClaudeUsage :=
  {| InputTokens := 0; OutputTokens := 0;
     CacheCreationInputTokens := 0; CacheReadInputTokens := 0 |}.

Record ForwardResult : Type := {
  fwd_RequestID : string;
  fwd_Usage : ClaudeUsage;
  fwd_Model : string;
  fwd_Stream : bool;
  fwd_FirstTokenMs : option Z
}.

(** An upstream response: status, the two headers that are read, body. *)
Record Response : Type := {
  resp_StatusCode : Z;
  resp_RequestID : string;     (* Header.Get("x-request-id") *)
  resp_ContentType : string;   (* Header.Get("Content-Type") *)
  resp_Body : string
}.

(** What [httpUpstream.Do] returns. *)
Inductive UpstreamReply : Type :=
| TransportError
| Reply (resp : Response).

Record AntigravityGatewayService : Type := {
  (** [None]: no provider; the provider returns [None] on error *)
  tokenProvider : option (Account -> option string);
  (** is [rateLimitService] non-nil? *)
  rateLimitService : bool;
  (** the reply of the upstream to the k-th call of [Do], k = 1, 2, ... *)
  httpUpstream : nat -> UpstreamReply
}.

(** Bodies written to the client. *)
Inductive ClientBody : Type :=
| ClaudeErrorBody (errType message : string)
| GoogleErrorBody (code : Z) (message status : string)
| TotalTokensBody (totalTokens : Z).

(** What is written to the client through the gin context. *)
Inductive ClientWrite : Type :=
| WriteJSON (status : Z) (body : ClientBody)            (* c.JSON *)
| WriteData (status : Z) (contentType body : string)    (* c.Data *)
| WriteHeader (key value : string)                      (* c.Header *)
| WriteStream (bytes : string).                         (* c.Writer.Write *)

(** The observable effects of the engine, in order. *)
Inductive Event : Type :=
| EvUpstreamCall (attempt : nat) (url : string)  (* httpUpstream.Do *)
| EvBackoff (attempt : nat)                      (* sleepAntigravityBackoff *)
| EvRateLimit (statusCode : Z)     (* rateLimitService.HandleUpstreamError *)
| EvClient (w : ClientWrite).

Inductive ForwardError : Type :=
| ErrParseClaudeRequest
| ErrMissingModel
| ErrTokenProviderNotConfigured
| ErrGetAccessToken
| ErrProjectIDNotFound
| ErrTransformRequest (e : TransformError)
| ErrWrapRequest
| ErrMessage (message : string)          (* fmt.Errorf("%s", message) *)
| ErrUpstreamFailover (statusCode : Z)   (* &UpstreamFailoverError{...} *)
| ErrUpstream (statusCode : Z)           (* "upstream error: %d" *)
| ErrAntigravityUpstream (statusCode : Z)
| ErrResponseHandler (message : string).

(** ** Model resolution *)

(** [getMappedModel] *)
Definition getMappedModel (account : Account) (requestedModel : string) : string :=
  let mapped := acc_GetMappedModel account requestedModel in
  if negb (String.eqb mapped requestedModel) then mapped
  else
    match antigravityModelMapping !! requestedModel with
    | Some mapped => mapped
    | None =>
        if HasPrefix requestedModel "gemini-" then requestedModel
        else if bool_decide (requestedModel ∈ antigravitySupportedModels)
             then requestedModel
             else "claude-sonnet-4-5"
    end.

(** [IsModelSupported] *)
Definition IsModelSupported (requestedModel : string) : bool :=
  if bool_decide (requestedModel ∈ antigravitySupportedModels) then true
  else if bool_decide (is_Some (antigravityModelMapping !! requestedModel))
       then true
  else if HasPrefix requestedModel "gemini-" then true
  else if HasPrefix requestedModel "claude-" then true
  else false.

(** ** Status classification *)

(** [shouldRetryUpstreamError] *)
Definition shouldRetryUpstreamError (statusCode : Z) : bool :=
  (statusCode =? 429)%Z || (statusCode =? 500)%Z || (statusCode =? 502)%Z
  || (statusCode =? 503)%Z || (statusCode =? 504)%Z || (statusCode =? 529)%Z.

(** [shouldFailoverUpstreamError] *)
Definition shouldFailoverUpstreamError (statusCode : Z) : bool :=
  if (statusCode =? 401)%Z || (statusCode =? 403)%Z || (statusCode =? 429)%Z
     || (statusCode =? 529)%Z
  then true
  else (500 <=? statusCode)%Z.

(** [handleUpstreamError] *)
Definition handleUpstreamError (s : AntigravityGatewayService) (statusCode : Z)
  : list Event :=
  if rateLimitService s then [EvRateLimit statusCode] else [].

(** ** Error envelopes *)

(** [writeClaudeError] *)
Definition writeClaudeError (status : Z) (errType message : string)
  : list Event * ForwardError :=
  ([EvClient (WriteJSON status (ClaudeErrorBody errType message))], ErrMessage message).

(** [writeMappedClaudeError] *)
Definition writeMappedClaudeError (upstreamStatus : Z) : list Event * ForwardError :=
  let '(statusCode, errType, errMsg) :=
    if (upstreamStatus =? 400)%Z then
      (400%Z, "invalid_request_error", "Invalid request")
    else if (upstreamStatus =? 401)%Z then
      (502%Z, "authentication_error", "Upstream authentication failed")
    else if (upstreamStatus =? 403)%Z then
      (502%Z, "permission_error", "Upstream access forbidden")
    else if (upstreamStatus =? 429)%Z then
      (429%Z, "rate_limit_error", "Upstream rate limit exceeded")
    else if (upstreamStatus =? 529)%Z then
      (503%Z, "overloaded_error", "Upstream service overloaded")
    else (502%Z, "upstream_error", "Upstream request failed") in
  ([EvClient (WriteJSON statusCode (ClaudeErrorBody errType errMsg))],
   ErrUpstream upstreamStatus).

(** [writeGoogleError] *)
Definition writeGoogleError (status : Z) (message : string)
  : list Event * ForwardError :=
  let statusStr :=
    if (status =? 400)%Z then "INVALID_ARGUMENT"
    else if (status =? 404)%Z then "NOT_FOUND"
    else if (status =? 429)%Z then "RESOURCE_EXHAUSTED"
    else if (status =? 500)%Z then "INTERNAL"
    else if (status =? 502)%Z || (status =? 503)%Z then "UNAVAILABLE"
    else "UNKNOWN" in
  ([EvClient (WriteJSON status (GoogleErrorBody status message statusStr))],
   ErrMessage message).

(** ** Streaming usage accumulation *)

(** The two anonymous structs that [parseClaudeSSEUsage] decodes the event
    into. *)
Record MsgStart : Type := {
  ms_Type : string;
  ms_Message_Usage : ClaudeUsage
}.

Record MsgDelta : Type := {
  md_Type : string;
  md_Usage : ClaudeUsage
}.

(** The payload of a data event, as the results of the two calls of
    [json.Unmarshal] on it ([None]: the call returns an error). *)
Record SSEData : Type := {
  asMsgStart : option MsgStart;
  asMsgDelta : option MsgDelta
}.

(** [parseClaudeSSEUsage]; the updated [*usage] is returned. *)
Definition parseClaudeSSEUsage (data : SSEData) (usage : ClaudeUsage) : ClaudeUsage :=
  let usage :=
    match asMsgStart data with
    | Some msgStart =>
        if String.eqb (ms_Type msgStart) "message_start" then
          {| InputTokens := InputTokens (ms_Message_Usage msgStart);
             OutputTokens := OutputTokens usage;
             CacheCreationInputTokens :=
               CacheCreationInputTokens (ms_Message_Usage msgStart);
             CacheReadInputTokens :=
               CacheReadInputTokens (ms_Message_Usage msgStart) |}
        else usage
    | None => usage
    end in
  match asMsgDelta data with
  | Some msgDelta =>
      if String.eqb (md_Type msgDelta) "message_delta" then
        {| InputTokens :=
             if (InputTokens usage =? 0)%Z
             then InputTokens (md_Usage msgDelta) else InputTokens usage;
           OutputTokens := OutputTokens (md_Usage msgDelta);
           CacheCreationInputTokens :=
             if (CacheCreationInputTokens usage =? 0)%Z
             then CacheCreationInputTokens (md_Usage msgDelta)
             else CacheCreationInputTokens usage;
           CacheReadInputTokens :=
             if (CacheReadInputTokens usage =? 0)%Z
             then CacheReadInputTokens (md_Usage msgDelta)
             else CacheReadInputTokens usage |}
      else usage
  | None => usage
  end.

(** A line of the upstream stream after [unwrapSSELine], by the tests that
    [handleStreamingResponse] makes on it. *)
Inductive SSELine : Type :=
| OtherLine (line : string)   (* no prefix "data: " *)
| DataEmpty                   (* "data: " with nothing behind *)
| DataDone                    (* "data: [DONE]" *)
| DataEvent (data : SSEData). (* "data: " followed by a payload *)

(** The usage bookkeeping of one iteration of [handleStreamingResponse]. *)
Definition usageStep (usage : ClaudeUsage) (line : SSELine) : ClaudeUsage :=
  match line with
  | DataEvent data => parseClaudeSSEUsage data usage
  | _ => usage
  end.



(** The usage that [handleStreamingResponse] returns for a stream whose
    lines are all written to the client: [usage := &ClaudeUsage{}], then one
    step per line. *)
Definition streamUsage (lines : list SSELine) : ClaudeUsage :=
  fold_left usageStep lines zeroUsage.

(** ** Forwarding

    Every iteration of a retry loop builds the same request and hands it to
    [httpUpstream.Do]; building it ([http.NewRequestWithContext] on a fixed
    method and URL) is taken to succeed. *)

(** Does the loop go on after this reply, as long as attempts are left? *)
Definition isRetriedReply (reply : UpstreamReply) : bool :=
  match reply with
  | TransportError => true
  | Reply resp =>
      (400 <=? resp_StatusCode resp)%Z
      && shouldRetryUpstreamError (resp_StatusCode resp)
  end.

(** Is the reply a response with this status? *)
Definition hasStatus (statusCode : Z) (reply : UpstreamReply) : bool :=
  match reply with
  | TransportError => false
  | Reply resp => (resp_StatusCode resp =? statusCode)%Z
  end.

Section Engine.
Variable SafetySetting : Type.
Variable DefaultStopSequences : list string.
Variable DefaultSafetySettings : list SafetySetting.
(** [antigravity.BaseURL] *)
Variable BaseURL : string.
(** [estimateGeminiCountTokens], declared outside this development. *)
Variable estimateGeminiCountTokens : string -> Z.
(** The response paths: what they write and what they return.  Their
    collaborators (the streaming processor, the response transformer, the
    usage extractor) are outside this development. *)
Variable handleClaudeStreamingResponse :
  Response -> string -> list ClientWrite * (ForwardError + ClaudeUsage * option Z).
Variable handleClaudeNonStreamingResponse :
  Response -> string -> list ClientWrite * (ForwardError + ClaudeUsage).
Variable handleGeminiStreamingResponse :
  Response -> list ClientWrite * (ForwardError + option ClaudeUsage * option Z).
Variable handleGeminiNonStreamingResponse :
  Response -> list ClientWrite * (ForwardError + option ClaudeUsage).
(** [json.Unmarshal] into [any] ([None]: error) and [json.Marshal]. *)
Variable jsonUnmarshal : string -> option json.
Variable jsonMarshal : json -> string.

(** [unwrapV1InternalResponse]; [None] is the error of [json.Unmarshal]. *)
Definition unwrapV1InternalResponse (body : string) : option string :=
  match jsonUnmarshal body with
  | Some (JObj outer) =>
      match outer !! "response" with
      | Some resp => Some (jsonMarshal resp)
      | None => Some body
      end
  | Some JNull => Some body
  | _ => None
  end.

(** How a retry loop is left. *)
Inductive LoopExit : Type :=
| LoopReturn (r : ForwardError + ForwardResult)  (* [return] inside the loop *)
| LoopBreak (resp : Response)                    (* [break] with [resp] *)
| LoopExhausted.  (* the condition [attempt <= antigravityMaxRetries] fails *)

(** The retry loop of [Forward] from [attempt] on; [fuel] bounds the number
    of iterations, [antigravityMaxRetries + 1 - attempt] of them exist. *)
Fixpoint forwardLoop (s : AntigravityGatewayService) (fullURL : string)
  (fuel attempt : nat) : list Event * LoopExit :=
  match fuel with
  | O => ([], LoopExhausted)
  | S fuel =>
      let call := EvUpstreamCall attempt fullURL in
      match httpUpstream s attempt with
      | TransportError =>
          if (attempt <? antigravityMaxRetries)%nat then
            let '(events, exit) := forwardLoop s fullURL fuel (S attempt) in
            (call :: EvBackoff attempt :: events, exit)
          else
            let '(events, err) :=
              writeClaudeError 502 "upstream_error"
                "Upstream request failed after retries" in
            (call :: events, LoopReturn (inl err))
      | Reply resp =>
          if (400 <=? resp_StatusCode resp)%Z
             && shouldRetryUpstreamError (resp_StatusCode resp)
          then
            if (attempt <? antigravityMaxRetries)%nat then
              let '(events, exit) := forwardLoop s fullURL fuel (S attempt) in
              (call :: EvBackoff attempt :: events, exit)
            else
              (call ::
                 (if (resp_StatusCode resp =? 429)%Z
                  then handleUpstreamError s (resp_StatusCode resp)
                  else []),
               LoopBreak resp)
          else ([call], LoopBreak resp)
      end
  end.

(** The decoded body of [Forward]: [None] when [json.Unmarshal] fails. *)
Definition Forward (s : AntigravityGatewayService) (account : Account)
  (body : option ClaudeRequest) : list Event * (ForwardError + ForwardResult) :=
  match body with
  | None => ([], inl ErrParseClaudeRequest)
  | Some claudeReq =>
  if isBlank (req_Model claudeReq) then ([], inl ErrMissingModel) else
  let originalModel := req_Model claudeReq in
  let mappedModel := getMappedModel account (req_Model claudeReq) in
  match tokenProvider s with
  | None => ([], inl ErrTokenProviderNotConfigured)
  | Some provider =>
  match provider account with
  | None => ([], inl ErrGetAccessToken)
  | Some accessToken =>
  let projectID := TrimSpace (acc_GetCredential account "project_id") in
  if String.eqb projectID "" then ([], inl ErrProjectIDNotFound) else
  match TransformClaudeToGemini SafetySetting DefaultStopSequences
          DefaultSafetySettings claudeReq projectID mappedModel with
  | Err e => ([], inl (ErrTransformRequest e))
  | Ok geminiBody =>
  let action :=
    if req_Stream claudeReq then "streamGenerateContent" else "generateContent" in
  let fullURL :=
    (BaseURL ++ "/v1internal:" ++ action
     ++ (if req_Stream claudeReq then "?alt=sse" else ""))%string in
  match forwardLoop s fullURL antigravityMaxRetries 1 with
  | (events, LoopReturn r) => (events, r)
  | (events, LoopExhausted) =>
      (* not reached: the last iteration leaves the loop by itself *)
      (events, inl (ErrMessage "nil response"))
  | (events, LoopBreak resp) =>
      if (400 <=? resp_StatusCode resp)%Z then
        let notified := handleUpstreamError s (resp_StatusCode resp) in
        if shouldFailoverUpstreamError (resp_StatusCode resp) then
          ((events ++ notified)%list,
           inl (ErrUpstreamFailover (resp_StatusCode resp)))
        else
          let '(written, err) := writeMappedClaudeError (resp_StatusCode resp) in
          ((events ++ notified ++ written)%list, inl err)
      else
        let requestID := resp_RequestID resp in
        let header :=
          if negb (String.eqb requestID "")
          then [EvClient (WriteHeader "x-request-id" requestID)] else [] in
        if req_Stream claudeReq then
          match handleClaudeStreamingResponse resp originalModel with
          | (written, inl err) => ((events ++ header ++ map EvClient written)%list, inl err)
          | (written, inr (usage, firstTokenMs)) =>
              ((events ++ header ++ map EvClient written)%list,
               inr {| fwd_RequestID := requestID; fwd_Usage := usage;
                      fwd_Model := originalModel;
                      fwd_Stream := req_Stream claudeReq;
                      fwd_FirstTokenMs := firstTokenMs |})
          end
        else
          match handleClaudeNonStreamingResponse resp originalModel with
          | (written, inl err) => ((events ++ header ++ map EvClient written)%list, inl err)
          | (written, inr usage) =>
              ((events ++ header ++ map EvClient written)%list,
               inr {| fwd_RequestID := requestID; fwd_Usage := usage;
                      fwd_Model := originalModel;
                      fwd_Stream := req_Stream claudeReq;
                      fwd_FirstTokenMs := None |})
          end
  end
  end
  end
  end
  end.

(** The preconditions of the retry loop of [Forward]: a model name, an
    access token, a project id, and a request that can be transformed. *)
Definition forwardReady (s : AntigravityGatewayService) (account : Account)
  (claudeReq : ClaudeRequest) : Prop :=
  isBlank (req_Model claudeReq) = false /\
  (exists provider accessToken,
      tokenProvider s = Some provider /\ provider account = Some accessToken) /\
  String.eqb (TrimSpace (acc_GetCredential account "project_id")) "" = false /\
  (exists geminiBody,
      TransformClaudeToGemini SafetySetting DefaultStopSequences
        DefaultSafetySettings claudeReq
        (TrimSpace (acc_GetCredential account "project_id"))
        (getMappedModel account (req_Model claudeReq)) = Ok geminiBody).

(** The URL that [Forward] posts to. *)
Definition claudeURL (claudeReq : ClaudeRequest) : string :=
  (BaseURL ++ "/v1internal:"
   ++ (if req_Stream claudeReq then "streamGenerateContent" else "generateContent")
   ++ (if req_Stream claudeReq then "?alt=sse" else ""))%string.

(** The degraded answer of [countTokens]: a local estimate with status 200. *)
Definition countTokensFallback (originalModel requestID body : string)
  : list Event * (ForwardError + ForwardResult) :=
  ([EvClient (WriteJSON 200 (TotalTokensBody (estimateGeminiCountTokens body)))],
   inr {| fwd_RequestID := requestID; fwd_Usage := zeroUsage;
          fwd_Model := originalModel; fwd_Stream := false;
          fwd_FirstTokenMs := None |}).

(** The retry loop of [ForwardGemini]. *)
Fixpoint forwardGeminiLoop (s : AntigravityGatewayService) (fullURL : string)
  (originalModel action body : string) (fuel attempt : nat)
  : list Event * LoopExit :=
  match fuel with
  | O => ([], LoopExhausted)
  | S fuel =>
      let call := EvUpstreamCall attempt fullURL in
      match httpUpstream s attempt with
      | TransportError =>
          if (attempt <? antigravityMaxRetries)%nat then
            let '(events, exit) :=
              forwardGeminiLoop s fullURL originalModel action body
                fuel (S attempt) in
            (call :: EvBackoff attempt :: events, exit)
          else if String.eqb action "countTokens" then
            let '(events, r) := countTokensFallback originalModel "" body in
            (call :: events, LoopReturn r)
          else
            let '(events, err) :=
              writeGoogleError 502 "Upstream request failed after retries" in
            (call :: events, LoopReturn (inl err))
      | Reply resp =>
          if (400 <=? resp_StatusCode resp)%Z
             && shouldRetryUpstreamError (resp_StatusCode resp)
          then
            let notified :=
              if (resp_StatusCode resp =? 429)%Z
              then handleUpstreamError s (resp_StatusCode resp) else [] in
            if (attempt <? antigravityMaxRetries)%nat then
              let '(events, exit) :=
                forwardGeminiLoop s fullURL originalModel action body
                  fuel (S attempt) in
              ((call :: notified ++ EvBackoff attempt :: events)%list, exit)
            else if String.eqb action "countTokens" then
              let '(events, r) := countTokensFallback originalModel "" body in
              ((call :: notified ++ events)%list, LoopReturn r)
            else ((call :: notified)%list, LoopBreak resp)
          else ([call], LoopBreak resp)
      end
  end.

(** The preconditions of the retry loop of [ForwardGemini], for an action
    that is supported. *)
Definition geminiReady (s : AntigravityGatewayService) (account : Account)
  (originalModel body : string) : Prop :=
  isBlank originalModel = false /\
  String.eqb body "" = false /\
  (exists provider accessToken,
      tokenProvider s = Some provider /\ provider account = Some accessToken) /\
  String.eqb (TrimSpace (acc_GetCredential account "project_id")) "" = false /\
  (exists request, jsonUnmarshal body = Some request).

(** The result that [ForwardGemini] returns next to the estimate. *)
Definition estimateResult (originalModel requestID : string) : ForwardResult :=
  {| fwd_RequestID := requestID; fwd_Usage := zeroUsage;
     fwd_Model := originalModel; fwd_Stream := false;
     fwd_FirstTokenMs := None |}.

(** The write of the estimate: status 200 and [{"totalTokens": n}]. *)
Definition estimateWrite (body : string) : Event :=
  EvClient (WriteJSON 200 (TotalTokensBody (estimateGeminiCountTokens body))).

(** [ForwardGemini] *)
Definition ForwardGemini (s : AntigravityGatewayService) (account : Account)
  (originalModel action : string) (stream : bool) (body : string)
  : list Event * (ForwardError + ForwardResult) :=
  let fail '(events, err) : list Event * (ForwardError + ForwardResult) :=
    (events, inl err) in
  if isBlank originalModel then fail (writeGoogleError 400 "Missing model in URL")
  else if isBlank action then fail (writeGoogleError 400 "Missing action in URL")
  else if String.eqb body "" then
    fail (writeGoogleError 400 "Request body is empty")
  else if negb (String.eqb action "generateContent"
                || String.eqb action "streamGenerateContent"
                || String.eqb action "countTokens")
  then fail (writeGoogleError 404 ("Unsupported action: " ++ action)%string)
  else
  let mappedModel := getMappedModel account originalModel in
  match tokenProvider s with
  | None => ([], inl ErrTokenProviderNotConfigured)
  | Some provider =>
  match provider account with
  | None => ([], inl ErrGetAccessToken)
  | Some accessToken =>
  let projectID := TrimSpace (acc_GetCredential account "project_id") in
  if String.eqb projectID "" then ([], inl ErrProjectIDNotFound) else
  match jsonUnmarshal body with   (* wrapV1InternalRequest *)
  | None => ([], inl ErrWrapRequest)
  | Some request =>
  let upstreamAction :=
    if String.eqb action "generateContent" && stream
    then "streamGenerateContent" else action in
  let sse := stream || String.eqb upstreamAction "streamGenerateContent" in
  let fullURL :=
    (BaseURL ++ "/v1internal:" ++ upstreamAction
     ++ (if sse then "?alt=sse" else ""))%string in
  match forwardGeminiLoop s fullURL originalModel action body
          antigravityMaxRetries 1 with
  | (events, LoopReturn r) => (events, r)
  | (events, LoopExhausted) => (events, inl (ErrMessage "nil response"))
  | (events, LoopBreak resp) =>
      let requestID := resp_RequestID resp in
      let header :=
        if negb (String.eqb requestID "")
        then [EvClient (WriteHeader "x-request-id" requestID)] else [] in
      if (400 <=? resp_StatusCode resp)%Z then
        let notified := handleUpstreamError s (resp_StatusCode resp) in
        if String.eqb action "countTokens" then
          let '(written, r) :=
            countTokensFallback originalModel requestID body in
          ((events ++ header ++ notified ++ written)%list, r)
        else if shouldFailoverUpstreamError (resp_StatusCode resp) then
          ((events ++ header ++ notified)%list,
           inl (ErrUpstreamFailover (resp_StatusCode resp)))
        else
          let unwrapped := default "" (unwrapV1InternalResponse (resp_Body resp)) in
          let contentType :=
            if String.eqb (resp_ContentType resp) ""
            then "application/json" else resp_ContentType resp in
          ((events ++ header ++ notified
            ++ [EvClient (WriteData (resp_StatusCode resp) contentType unwrapped)])%list,
           inl (ErrAntigravityUpstream (resp_StatusCode resp)))
      else if sse then
        match handleGeminiStreamingResponse resp with
        | (written, inl err) => ((events ++ header ++ map EvClient written)%list, inl err)
        | (written, inr (usage, firstTokenMs)) =>
            ((events ++ header ++ map EvClient written)%list,
             inr {| fwd_RequestID := requestID;
                    fwd_Usage := default zeroUsage usage;
                    fwd_Model := originalModel; fwd_Stream := stream;
                    fwd_FirstTokenMs := firstTokenMs |})
        end
      else
        match handleGeminiNonStreamingResponse resp with
        | (written, inl err) => ((events ++ header ++ map EvClient written)%list, inl err)
        | (written, inr usage) =>
            ((events ++ header ++ map EvClient written)%list,
             inr {| fwd_RequestID := requestID;
                    fwd_Usage := default zeroUsage usage;
                    fwd_Model := originalModel; fwd_Stream := stream;
                    fwd_FirstTokenMs := None |})
        end
  end
  end
  end
  end.

(** The URL that [ForwardGemini] posts to. *)
Definition geminiURL (action : string) (stream : bool) : string :=
  (BaseURL ++ "/v1internal:"
   ++ (if String.eqb action "generateContent" && stream
       then "streamGenerateContent" else action)
   ++ (if stream
          || String.eqb (if String.eqb action "generateContent" && stream
                         then "streamGenerateContent" else action)
               "streamGenerateContent"
       then "?alt=sse" else ""))%string.

End Engine.

(** The actions that the [switch] of [ForwardGemini] lets through. *)
Definition supportedAction (action : string) : bool :=
  String.eqb action "generateContent"
  || String.eqb action "streamGenerateContent"
  || String.eqb action "countTokens".

(** ** The streaming response path *)

(** What [handleStreamingResponse] does to the gin context. *)
Inductive StreamWrite : Type :=
| SetHeader (key value : string)  (* c.Header *)
| SetStatus (status : Z)          (* c.Status *)
| WriteLine (bytes : string)      (* fmt.Fprintf(c.Writer, ...), succeeding *)
| Flush.                          (* flusher.Flush *)

Inductive StreamError : Type :=
| ErrStreamingNotSupported
| ErrStreamRead
| ErrStreamWrite.

(** What [reader.ReadString] returns once the complete lines are read. *)
Inductive ReadEnd : Type :=
| ReadEOF (line : string)  (* the rest of the body, with [io.EOF] *)
| ReadFailure.             (* an error other than [io.EOF] *)

Record antigravityStreamResult : Type := {
  sr_usage : ClaudeUsage;
  sr_firstTokenMs : option Z
}.

(** The bytes ["\r\n"]. *)
Definition crlf : string :=
  String (ascii_of_nat 13) (String (ascii_of_nat 10) EmptyString).

Section Streaming.
(** [json.Unmarshal] into a map ([None]: error) and [json.Marshal], which
    does not fail on a decoded value. *)
Variable jsonUnmarshal : string -> option json.
Variable jsonMarshal : json -> string.
(** The two decodings of a payload that [parseClaudeSSEUsage] makes. *)
Variable decodeSSE : string -> SSEData.
(** [time.Since(startTime).Milliseconds()] when read number [k] returns. *)
Variable elapsedMs : nat -> Z.

(** [unwrapSSELine] *)
Definition unwrapSSELine (line : string) : string :=
  if negb (HasPrefix line "data: ") then line else
  let data := TrimPrefix line "data: " in
  if String.eqb data "" || String.eqb data "[DONE]" then line else
  match jsonUnmarshal data with
  | Some (JObj outer) =>
      match outer !! "response" with
      | Some resp => ("data: " ++ jsonMarshal resp)%string
      | None => line
      end
  | _ => line
  end.

(** The body of the loop of [handleStreamingResponse] up to the write, for
    a line that is not empty: the line to write and the updated result. *)
Definition streamRead (k : nat) (line : string) (res : antigravityStreamResult)
  : string * antigravityStreamResult :=
  let unwrapped := unwrapSSELine (TrimRight line crlf) in
  let res :=
    if HasPrefix unwrapped "data: " then
      let data := TrimPrefix unwrapped "data: " in
      if negb (String.eqb data "") && negb (String.eqb data "[DONE]") then
        {| sr_usage := parseClaudeSSEUsage (decodeSSE data) (sr_usage res);
           sr_firstTokenMs :=
             match sr_firstTokenMs res with
             | None => Some (elapsedMs k)
             | Some ms => Some ms
             end |}
      else res
    else res in
  (unwrapped, res).

(** The loop of [handleStreamingResponse]: [reads] are the lines that
    [ReadString] returns without an error, [last] is its final return;
    [clientWrites w] tells whether write number [w] succeeds. *)
Fixpoint streamLoop (clientWrites : nat -> bool) (reads : list string)
  (last : ReadEnd) (k w : nat) (res : antigravityStreamResult)
  : list StreamWrite * (option antigravityStreamResult * option StreamError) :=
  match reads with
  | line :: reads =>
      if String.eqb line "" then streamLoop clientWrites reads last (S k) w res
      else
        let '(unwrapped, res) := streamRead k line res in
        if clientWrites w then
          let '(events, r) :=
            streamLoop clientWrites reads last (S k) (S w) res in
          (WriteLine (unwrapped ++ newline) :: Flush :: events, r)
        else ([], (Some res, Some ErrStreamWrite))
  | [] =>
      match last with
      | ReadFailure => ([], (None, Some ErrStreamRead))
      | ReadEOF line =>
          if String.eqb line "" then ([], (Some res, None))
          else
            let '(unwrapped, res) := streamRead k line res in
            if clientWrites w then
              ([WriteLine (unwrapped ++ newline); Flush], (Some res, None))
            else ([], (Some res, Some ErrStreamWrite))
      end
  end.

Definition streamHeaders : list StreamWrite :=
  [ SetHeader "Content-Type" "text/event-stream";
    SetHeader "Cache-Control" "no-cache";
    SetHeader "Connection" "keep-alive";
    SetHeader "X-Accel-Buffering" "no";
    SetStatus 200 ].

(** [handleStreamingResponse]; [canFlush]: is the writer an
    [http.Flusher]? *)
Definition handleStreamingResponse (canFlush : bool) (clientWrites : nat -> bool)
  (reads : list string) (last : ReadEnd)
  : list StreamWrite * (option antigravityStreamResult * option StreamError) :=
  if negb canFlush then (streamHeaders, (None, Some ErrStreamingNotSupported))
  else
    let '(events, r) :=
      streamLoop clientWrites reads last 0 0
        {| sr_usage := zeroUsage; sr_firstTokenMs := None |} in
    ((streamHeaders ++ events)%list, r).

(** *** Notions used in the statements *)

(** The line that is written for a line that was read. *)
Definition unwrappedLine (line : string) : string :=
  unwrapSSELine (TrimRight line crlf).

(** A written line by the tests that the loop makes on it. *)
Definition classifyLine (unwrapped : string) : SSELine :=
  if HasPrefix unwrapped "data: " then
    let data := TrimPrefix unwrapped "data: " in
    if String.eqb data "" then DataEmpty
    else if String.eqb data "[DONE]" then DataDone
    else DataEvent (decodeSSE data)
  else OtherLine unwrapped.

(** The writes of the loop for lines that all reach the client. *)
Definition lineWrites (lines : list string) : list StreamWrite :=
  flat_map (fun line => [WriteLine (unwrappedLine line ++ newline); Flush]) lines.

(** The line that was read, as the usage bookkeeping sees it. *)
Definition sseLine (line : string) : SSELine :=
  classifyLine (unwrappedLine line).

(** The number of the first read, counted from [k], that is not empty and
    holds a payload. *)
Fixpoint firstPayload (k : nat) (lines : list string) : option nat :=
  match lines with
  | [] => None
  | line :: lines =>
      if negb (String.eqb line "")
         && match sseLine line with DataEvent _ => true | _ => false end
      then Some k else firstPayload (S k) lines
  end.

(** The result after the lines read from number [k] on. *)
Fixpoint streamResult (k : nat) (lines : list string)
  (res : antigravityStreamResult) : antigravityStreamResult :=
  match lines with
  | [] => res
  | line :: lines =>
      streamResult (S k) lines
        (if String.eqb line "" then res else snd (streamRead k line res))
  end.

End Streaming.

Definition nonEmptyLine (line : string) : bool := negb (String.eqb line "").

(** The lines of a body: the complete ones and the rest before [io.EOF]. *)
Definition linesRead (reads : list string) (last : ReadEnd) : list string :=
  match last with
  | ReadEOF line => (reads ++ [line])%list
  | ReadFailure => reads
  end.

(** ** Traces *)

(** Does the event write a status and a body to the client? *)
Definition isBodyWrite (e : Event) : bool :=
  match e with
  | EvClient (WriteJSON _ _) | EvClient (WriteData _ _ _)
  | EvClient (WriteStream _) => true
  | _ => false
  end.

Definition noBodyWrite (events : list Event) : bool :=
  forallb (fun e => negb (isBodyWrite e)) events.

(** The events of [k] attempts that are retried without any notification. *)
Fixpoint silentRetries (fullURL : string) (attempt k : nat) : list Event :=
  match k with
  | O => []
  | S k =>
      EvUpstreamCall attempt fullURL :: EvBackoff attempt
      :: silentRetries fullURL (S attempt) k
  end.

Definition isUpstreamCall (e : Event) : bool :=
  match e with EvUpstreamCall _ _ => true | _ => false end.

(** Number of upstream HTTP requests in a trace. *)
Definition upstreamCalls (events : list Event) : nat :=
  length (List.filter isUpstreamCall events).

(** The status codes reported to the rate-limit collaborator, in order. *)
Fixpoint rateLimitNotifications (events : list Event) : list Z :=
  match events with
  | [] => []
  | EvRateLimit statusCode :: rest => statusCode :: rateLimitNotifications rest
  | _ :: rest => rateLimitNotifications rest
  end.

Definition isBackoff (e : Event) : bool :=
  match e with EvBackoff _ => true | _ => false end.

(** Number of back-off sleeps in a trace. *)
Definition backoffs (events : list Event) : nat :=
  length (List.filter isBackoff events).

(** The upstream requests of a trace, in order. *)
Definition upstreamRequests (events : list Event) : list Event :=
  List.filter isUpstreamCall events.

(** Requests number 1 to [n] to one URL. *)
Definition requestsTo (url : string) (n : nat) : list Event :=
  map (fun attempt => EvUpstreamCall attempt url) (seq 1 n).

(** Are the replies to the first [n] requests all retried? *)
Definition retriedUpTo (s : AntigravityGatewayService) (n : nat) : bool :=
  forallb (fun attempt => isRetriedReply (httpUpstream s attempt)) (seq 1 n).

(** The events of [k] attempts of [ForwardGemini] that are retried: a 429
    is reported before the sleep. *)
Fixpoint geminiRetries (s : AntigravityGatewayService) (fullURL : string)
  (attempt k : nat) : list Event :=
  match k with
  | O => []
  | S k =>
      (EvUpstreamCall attempt fullURL
       :: (if hasStatus 429 (httpUpstream s attempt)
           then handleUpstreamError s 429 else [])
       ++ EvBackoff attempt :: geminiRetries s fullURL (S attempt) k)%list
  end.

(** How many of the attempts [attempt], ..., [attempt + k - 1] are answered
    with status 429. *)
Definition count429 (s : AntigravityGatewayService) (attempt k : nat) : nat :=
  length (List.filter (fun j => hasStatus 429 (httpUpstream s j)) (seq attempt k)).

(** Neither a request nor a sleep. *)
Definition isAfterCalls (e : Event) : bool :=
  negb (isUpstreamCall e) && negb (isBackoff e).

(** The errors of [Forward] that precede any upstream request. *)
Definition isPreconditionError (e : ForwardError) : bool :=
  match e with
  | ErrParseClaudeRequest | ErrMissingModel | ErrTokenProviderNotConfigured
  | ErrGetAccessToken | ErrProjectIDNotFound | ErrTransformRequest _ => true
  | _ => false
  end.

(** ** Sample inputs *)

Definition usageOf (input output : Z) : ClaudeUsage :=
  {| InputTokens := input; OutputTokens := output;
     CacheCreationInputTokens := 0; CacheReadInputTokens := 0 |}.

(** [{"type": "message_start", "message": {"usage": {"input_tokens": n}}}] *)
Definition startMsg (input : Z) : MsgStart :=
  {| ms_Type := "message_start"; ms_Message_Usage := usageOf input 0 |}.

Definition startData (input : Z) : SSEData :=
  {| asMsgStart := Some (startMsg input);
     asMsgDelta := Some {| md_Type := "message_start";
                           md_Usage := zeroUsage |} |}.





(** [{"type": "message_delta", "usage": {"output_tokens": n}}] *)
Definition deltaMsg (output : Z) : MsgDelta :=
  {| md_Type := "message_delta"; md_Usage := usageOf 0 output |}.

Definition deltaData (output : Z) : SSEData :=
  {| asMsgStart := Some {| ms_Type := "message_delta";
                           ms_Message_Usage := zeroUsage |};
     asMsgDelta := Some (deltaMsg output) |}.


Definition responseWith (statusCode : Z) : Response :=
  {| resp_StatusCode := statusCode; resp_RequestID := "";
     resp_ContentType := "application/json"; resp_Body := "{}" |}.

(** An upstream that answers the calls with the statuses of a list, and
    fails at transport level afterwards. *)
Definition upstreamOf (statuses : list Z) (attempt : nat) : UpstreamReply :=
  match nth_error statuses (attempt - 1) with
  | Some statusCode => Reply (responseWith statusCode)
  | None => TransportError
  end.

Definition sampleAccount : Account :=
  {| acc_ID := 1; acc_Name := "a1";
     acc_GetMappedModel := fun requestedModel => requestedModel;
     acc_GetCredential :=
       fun key => if String.eqb key "project_id" then "project-1" else "";
     acc_ProxyURL := "" |}.

(** An account whose own mapping sends a Claude name to a flash model. *)
Definition flashAccount : Account :=
  {| acc_ID := 2; acc_Name := "a2";
     acc_GetMappedModel :=
       fun requestedModel =>
         if String.eqb requestedModel "claude-haiku-4-5"
         then "gemini-2.5-flash" else requestedModel;
     acc_GetCredential :=
       fun key => if String.eqb key "project_id" then "project-1" else "";
     acc_ProxyURL := "" |}.

Definition sampleService (statuses : list Z) : AntigravityGatewayService :=
  {| tokenProvider := Some (fun _ => Some "token");
     rateLimitService := true;
     httpUpstream := upstreamOf statuses |}.

(** Response paths that pass the body on and report no usage. *)
Definition echoClaudeStreaming (resp : Response) (originalModel : string)
  : list ClientWrite * (ForwardError + ClaudeUsage * option Z) :=
  ([WriteStream (resp_Body resp)], inr (zeroUsage, None)).

Definition echoClaudeNonStreaming (resp : Response) (originalModel : string)
  : list ClientWrite * (ForwardError + ClaudeUsage) :=
  ([WriteData 200 "application/json" (resp_Body resp)], inr zeroUsage).

Definition echoGeminiStreaming (resp : Response)
  : list ClientWrite * (ForwardError + option ClaudeUsage * option Z) :=
  ([WriteStream (resp_Body resp)], inr (None, None)).

Definition echoGeminiNonStreaming (resp : Response)
  : list ClientWrite * (ForwardError + option ClaudeUsage) :=
  ([WriteData (resp_StatusCode resp) "application/json" (resp_Body resp)],
   inr None).

(** Stand-ins for [encoding/json] and the token estimate. *)
Definition sampleUnmarshal (body : string) : option json := Some (JObj ∅).
Definition sampleMarshal (value : json) : string := "{}".
Definition sampleEstimate (body : string) : Z := Z.of_nat (String.length body).

(** A decoder of payloads that knows two events, and a clock. *)
Definition sampleDecodeSSE (data : string) : SSEData :=
  if String.eqb data "start" then startData 10
  else if String.eqb data "delta" then deltaData 12
  else {| asMsgStart := None; asMsgDelta := None |}.

Definition sampleClock (k : nat) : Z := 100 * Z.of_nat (S k).

Definition sampleStream :=
  handleStreamingResponse sampleUnmarshal sampleMarshal sampleDecodeSSE
    sampleClock.

(** A request without thinking. *)
Definition plainRequest (model : string) (messages : list ClaudeMessage)
  : ClaudeRequest :=
  {| req_Model := model; req_Messages := messages;
     req_System := SystemAbsent; req_Tools := [];
     req_Thinking := None;
     req_Temperature := None; req_TopP := None; req_TopK := None;
     req_Metadata := None; req_Stream := false |}.

(** [Forward] and [ForwardGemini] with the stand-ins. *)
Definition sampleForward :=
  Forward unit [] [] "https://upstream"
    echoClaudeStreaming echoClaudeNonStreaming.

Definition sampleForwardGemini :=
  ForwardGemini "https://upstream" sampleEstimate
    echoGeminiStreaming echoGeminiNonStreaming sampleUnmarshal sampleMarshal.

Definition sampleRequest : ClaudeRequest :=
  plainRequest "claude-sonnet-4-5" [userSays "hi"].

End Gateway.
(* ===================================================================== *)
(** * Facts about the schema sanitizer *)
(* ===================================================================== *)

Section SchemaFacts.
Import GoStrings Schema.

(** ** The functions on small inputs *)

Example TrimSpace_sample :
  TrimSpace (String (ascii_of_nat 9) "  a b  ") = "a b".
Proof. reflexivity. Qed.

Example isBlank_sample : isBlank "   " = true /\ isBlank " x " = false.
Proof. split; reflexivity. Qed.

Example ToUpper_sample : ToUpper "date-Time9" = "DATE-TIME9".
Proof. reflexivity. Qed.

Example Contains_sample :
  Contains "models/gemini-2.5-flash-lite" "gemini-2.5-flash" = true /\
  Contains "gemini-3-flash" "gemini-2.5-flash" = false.
Proof. split; reflexivity. Qed.

Example cleanTypeValue_sample :
  cleanTypeValue (JArr [JStr "null"; JStr "integer"]) = JStr "INTEGER" /\
  cleanTypeValue (JArr [JStr "null"]) = JStr "STRING" /\
  cleanTypeValue (JNum 3%float) = JNum 3%float.
Proof. repeat split; reflexivity. Qed.

Example cleanJSONSchema_sample :
  cleanJSONSchema (Some clientSchema) = Some clientSchemaCleaned.
Proof. vm_compute. reflexivity. Qed.

Example cleanJSONSchema_nil : cleanJSONSchema None = None.
Proof. reflexivity. Qed.

Lemma upperAscii_idem (c : ascii) : upperAscii (upperAscii c) = upperAscii c.
Proof. destruct c as [[] [] [] [] [] [] [] []]; reflexivity. Qed.

Lemma ToUpper_idem (s : string) : ToUpper (ToUpper s) = ToUpper s.
Proof.
  induction s as [|c s IH]; cbn [ToUpper]; [reflexivity|].
  now rewrite upperAscii_idem, IH.
Qed.

Lemma cleanTypeValue_idem (v : json) :
  cleanTypeValue (cleanTypeValue v) = cleanTypeValue v.
Proof.
  destruct v as [| | | s | l | m]; cbn [cleanTypeValue]; try reflexivity.
  - now rewrite ToUpper_idem.
  - destruct (firstNonNullType l); cbn [cleanTypeValue];
      [now rewrite ToUpper_idem | reflexivity].
Qed.

(** ** Induction on JSON trees *)

Lemma jsize_arr (l : list json) :
  jsize (JArr l) = S (foldr (fun x acc => jsize x + acc)%nat 0%nat l).
Proof. reflexivity. Qed.

Lemma jsize_obj (m : gmap string json) :
  jsize (JObj m) = S (map_fold (fun _ x acc => jsize x + acc)%nat 0%nat m).
Proof. reflexivity. Qed.

Lemma jsize_elem (l : list json) (x : json) :
  In x l -> (jsize x < jsize (JArr l))%nat.
Proof.
  rewrite jsize_arr. induction l as [|y l IH]; cbn [foldr In]; [tauto|].
  intros [->|Hin]; [lia|]. specialize (IH Hin). lia.
Qed.

Lemma jsize_lookup (m : gmap string json) (k : string) (x : json) :
  m !! k = Some x -> (jsize x < jsize (JObj m))%nat.
Proof.
  rewrite jsize_obj. intros Hk.
  enough (jsize x <= map_fold (fun _ y acc => jsize y + acc) 0 m)%nat by lia.
  revert k x Hk.
  apply (map_fold_weak_ind
           (fun r (m : gmap string json) =>
              forall k x, m !! k = Some x -> (jsize x <= r)%nat)).
  - intros k x Hk. now rewrite lookup_empty in Hk.
  - intros i y m' r Hi IH k x Hk.
    destruct (decide (i = k)) as [->|Hne].
    + rewrite lookup_insert_eq in Hk. injection Hk as ->. lia.
    + rewrite lookup_insert_ne in Hk by assumption.
      specialize (IH k x Hk). lia.
Qed.

Lemma json_tree_ind (P : json -> Prop) :
  P JNull ->
  (forall b, P (JBool b)) ->
  (forall n, P (JNum n)) ->
  (forall s, P (JStr s)) ->
  (forall l, Forall P l -> P (JArr l)) ->
  (forall m, map_Forall (fun _ => P) m -> P (JObj m)) ->
  forall j, P j.
Proof.
  intros Hnull Hbool Hnum Hstr Harr Hobj j.
  remember (jsize j) as n eqn:Hn. revert j Hn.
  induction n as [n IH] using lt_wf_ind. intros j ->.
  destruct j as [| b | x | s | l | m]; auto.
  - apply Harr, Forall_forall. intros x Hx.
    apply list_elem_of_In in Hx.
    eapply IH; [apply jsize_elem; eassumption | reflexivity].
  - apply Hobj. intros k x Hk.
    eapply IH; [eapply jsize_lookup; eassumption | reflexivity].
Qed.

(** ** Idempotence of the recursive cleaner *)

Lemma cleanSchemaValue_obj (v : gmap string json) :
  cleanSchemaValue (JObj v) = JObj (map_imap (cleanSchemaEntry cleanSchemaValue) v).
Proof. reflexivity. Qed.

Lemma cleanSchemaValue_arr (v : list json) :
  cleanSchemaValue (JArr v) = JArr (map cleanSchemaValue v).
Proof. reflexivity. Qed.

(** What one loop iteration stores is stored unchanged by a second run. *)
Lemma cleanSchemaEntry_stable (k : string) (v w : json) :
  cleanSchemaValue (cleanSchemaValue v) = cleanSchemaValue v ->
  cleanSchemaEntry cleanSchemaValue k v = Some w ->
  cleanSchemaEntry cleanSchemaValue k w = Some w.
Proof.
  intros IH. unfold cleanSchemaEntry.
  destruct (isExcluded k); [discriminate|].
  destruct (String.eqb k "type").
  { intros [= <-]. now rewrite cleanTypeValue_idem. }
  destruct (String.eqb k "format").
  { destruct v as [| | | s | |]; try discriminate.
    destruct (isAllowedFormat s) eqn:Hs; [|discriminate].
    intros [= <-]. now rewrite Hs. }
  destruct (String.eqb k "additionalProperties").
  { destruct v; intros [= <-]; reflexivity. }
  intros [= <-]. now rewrite IH.
Qed.

Lemma cleanSchemaValue_idem (j : json) :
  cleanSchemaValue (cleanSchemaValue j) = cleanSchemaValue j.
Proof.
  induction j as [| b | n | s | l IH | m IH] using json_tree_ind;
    try reflexivity.
  - rewrite !cleanSchemaValue_arr. f_equal.
    rewrite map_map. apply map_ext_in. intros x Hx.
    rewrite Forall_forall in IH. apply IH. now apply list_elem_of_In.
  - rewrite !cleanSchemaValue_obj. f_equal.
    apply map_eq. intros k. rewrite !map_lookup_imap.
    destruct (m !! k) as [v|] eqn:Hk; [|reflexivity]. cbn.
    destruct (cleanSchemaEntry cleanSchemaValue k v) as [w|] eqn:Hw;
      [|reflexivity].
    cbn. eapply cleanSchemaEntry_stable; [|eassumption].
    exact (IH k v Hk).
Qed.

(** ** Maps that the cleaner leaves alone *)

Lemma cleanFixed_imap (m : gmap string json) :
  cleanFixed m -> map_imap (cleanSchemaEntry cleanSchemaValue) m = m.
Proof.
  intros Hfix. apply map_eq. intros k. rewrite map_lookup_imap.
  destruct (m !! k) as [v|] eqn:Hk; [|reflexivity]. cbn. now apply Hfix.
Qed.

Lemma cleanFixed_cleaned (m : gmap string json) :
  cleanFixed (map_imap (cleanSchemaEntry cleanSchemaValue) m).
Proof.
  intros k w. rewrite map_lookup_imap.
  destruct (m !! k) as [v|] eqn:Hk; [|discriminate]. cbn.
  apply cleanSchemaEntry_stable, cleanSchemaValue_idem.
Qed.

Lemma cleanFixed_insert (m : gmap string json) (k : string) (v : json) :
  cleanSchemaEntry cleanSchemaValue k v = Some v ->
  cleanFixed m -> cleanFixed (<[k := v]> m).
Proof.
  intros Hv Hm k' v'. destruct (decide (k = k')) as [<-|Hne].
  - rewrite lookup_insert_eq. now intros [= <-].
  - rewrite lookup_insert_ne by assumption. apply Hm.
Qed.

Lemma cleanFixed_delete (m : gmap string json) (k : string) :
  cleanFixed m -> cleanFixed (delete k m).
Proof.
  intros Hm k' v'. destruct (decide (k = k')) as [<-|Hne].
  - now rewrite lookup_delete_eq.
  - rewrite lookup_delete_ne by assumption. apply Hm.
Qed.

Lemma cleanFixed_ensureType (m : gmap string json) :
  cleanFixed m -> cleanFixed (ensureType m).
Proof.
  intros Hm. unfold ensureType. destruct (m !! "type"); [assumption|].
  now apply cleanFixed_insert.
Qed.

Lemma cleanFixed_ensureProperties (m : gmap string json) :
  cleanFixed m -> cleanFixed (ensureProperties m).
Proof.
  intros Hm. unfold ensureProperties.
  destruct (m !! "properties"); [assumption|].
  apply cleanFixed_insert; [|assumption].
  unfold cleanSchemaEntry. cbn -[cleanSchemaValue].
  rewrite cleanSchemaValue_obj, map_imap_empty. reflexivity.
Qed.

Lemma isValidRequired_str (props : gmap string json) (r : json) :
  isValidRequired props r = true -> exists reqName, r = JStr reqName.
Proof. destruct r; try discriminate. eauto. Qed.

Lemma map_clean_validRequired (props : gmap string json) (required : list json) :
  map cleanSchemaValue (List.filter (isValidRequired props) required)
  = List.filter (isValidRequired props) required.
Proof.
  induction required as [|r required IH]; [reflexivity|]. cbn [List.filter].
  destruct (isValidRequired props r) eqn:Hr; [|assumption].
  cbn [map]. rewrite IH. f_equal.
  destruct (isValidRequired_str _ _ Hr) as [n ->]. reflexivity.
Qed.

Lemma cleanFixed_repairRequired (m : gmap string json) :
  cleanFixed m -> cleanFixed (repairRequired m).
Proof.
  intros Hm. unfold repairRequired.
  destruct (m !! "required") as [[| | | | required |]|]; try assumption.
  destruct (m !! "properties") as [[| | | | | props]|]; try assumption.
  destruct (0 <? _)%nat.
  - apply cleanFixed_insert; [|assumption].
    unfold cleanSchemaEntry. cbn -[cleanSchemaValue List.filter].
    rewrite cleanSchemaValue_arr. now rewrite map_clean_validRequired.
  - now apply cleanFixed_delete.
Qed.

(** ** The top-level post-pass *)

Lemma repairRequired_lookup_ne (m : gmap string json) (k : string) :
  k <> "required" -> repairRequired m !! k = m !! k.
Proof.
  intros Hk. unfold repairRequired.
  destruct (m !! "required") as [[| | | | required |]|]; try reflexivity.
  destruct (m !! "properties") as [[| | | | | props]|]; try reflexivity.
  destruct (0 <? _)%nat.
  - now rewrite lookup_insert_ne.
  - now rewrite lookup_delete_ne.
Qed.

Lemma filter_validRequired_idem (props : gmap string json) (l : list json) :
  List.filter (isValidRequired props) (List.filter (isValidRequired props) l)
  = List.filter (isValidRequired props) l.
Proof.
  induction l as [|r l IH]; [reflexivity|]. cbn [List.filter].
  destruct (isValidRequired props r) eqn:Hr; [|assumption].
  cbn [List.filter]. now rewrite Hr, IH.
Qed.

Lemma repairRequired_idem (m : gmap string json) :
  repairRequired (repairRequired m) = repairRequired m.
Proof.
  unfold repairRequired at 2 3.
  destruct (m !! "required") as [[| | | | required |]|] eqn:Hreq;
    try (unfold repairRequired; now rewrite Hreq).
  destruct (m !! "properties") as [[| | | | | props]|] eqn:Hprops;
    try (unfold repairRequired; now rewrite Hreq, Hprops).
  destruct (0 <? length (List.filter (isValidRequired props) required))%nat
    eqn:Hlen; unfold repairRequired.
  - rewrite lookup_insert_eq, lookup_insert_ne, Hprops by discriminate.
    rewrite filter_validRequired_idem, Hlen. apply insert_insert_eq.
  - now rewrite lookup_delete_eq.
Qed.

Lemma ensureType_present (m : gmap string json) :
  is_Some (ensureType m !! "type").
Proof.
  unfold ensureType. destruct (m !! "type") eqn:Ht.
  - rewrite Ht. eauto.
  - rewrite lookup_insert_eq. eauto.
Qed.

Lemma ensureProperties_present (m : gmap string json) :
  is_Some (ensureProperties m !! "properties").
Proof.
  unfold ensureProperties. destruct (m !! "properties") eqn:Ht.
  - rewrite Ht. eauto.
  - rewrite lookup_insert_eq. eauto.
Qed.

Lemma ensureProperties_lookup_ne (m : gmap string json) (k : string) :
  k <> "properties" -> ensureProperties m !! k = m !! k.
Proof.
  intros Hk. unfold ensureProperties.
  destruct (m !! "properties"); [reflexivity|]. now rewrite lookup_insert_ne.
Qed.

Lemma ensureType_id (m : gmap string json) :
  is_Some (m !! "type") -> ensureType m = m.
Proof. intros [v Hv]. unfold ensureType. now rewrite Hv. Qed.

Lemma ensureProperties_id (m : gmap string json) :
  is_Some (m !! "properties") -> ensureProperties m = m.
Proof. intros [v Hv]. unfold ensureProperties. now rewrite Hv. Qed.

Lemma postPass_idem (m : gmap string json) :
  postPass (postPass m) = postPass m.
Proof.
  unfold postPass.
  rewrite (ensureType_id (repairRequired _)).
  2:{ rewrite repairRequired_lookup_ne, ensureProperties_lookup_ne
        by discriminate. apply ensureType_present. }
  rewrite (ensureProperties_id (repairRequired _)).
  2:{ rewrite repairRequired_lookup_ne by discriminate.
      apply ensureProperties_present. }
  apply repairRequired_idem.
Qed.

Lemma cleanFixed_postPass (m : gmap string json) :
  cleanFixed m -> cleanFixed (postPass m).
Proof.
  intros Hm. unfold postPass.
  now apply cleanFixed_repairRequired, cleanFixed_ensureProperties,
    cleanFixed_ensureType.
Qed.

Lemma cleanJSONSchema_some (s : gmap string json) :
  cleanJSONSchema (Some s)
  = Some (postPass (map_imap (cleanSchemaEntry cleanSchemaValue) s)).
Proof. reflexivity. Qed.

(** ** Idempotence *)

(** C8. The schema sanitizer is idempotent: for every input schema [s]
    (the nil map included), cleaning the cleaned schema returns the cleaned
    schema, [cleanJSONSchema (cleanJSONSchema s) = cleanJSONSchema s]. *)
Theorem C8_cleanJSONSchema_idempotent (s : option (gmap string json)) :
  cleanJSONSchema (cleanJSONSchema s) = cleanJSONSchema s.
Proof.
  destruct s as [s|]; [|reflexivity].
  rewrite !cleanJSONSchema_some. f_equal.
  rewrite cleanFixed_imap.
  - apply postPass_idem.
  - apply cleanFixed_postPass, cleanFixed_cleaned.
Qed.

(** ** The [required] array *)

(** C3, as stated, fails below the top level: the cleaned
    [nestedRequiredSchema] still carries, in the schema of property ["a"],
    the array [required = ["x"]] next to an empty [properties] map. *)
Lemma C3_nested_required_counterexample :
  exists result props inner,
    cleanJSONSchema (Some nestedRequiredSchema) = Some result /\
    result !! "properties" = Some (JObj props) /\
    props !! "a" = Some (JObj inner) /\
    inner !! "required" = Some (JArr [JStr "x"]) /\
    inner !! "properties" = Some (JObj ∅) /\
    requiredOKEverywhere (JObj result) = false.
Proof.
  eexists _, _, _. repeat split; vm_compute; reflexivity.
Qed.

(** C3, amended. At the top level of a cleaned schema whose [properties]
    is an object, a [required] array is never empty and every entry of it
    is a string naming a key of that [properties] object. *)
Theorem C3_top_level_required_names_properties
  (s result props : gmap string json) (required : list json) :
  cleanJSONSchema (Some s) = Some result ->
  result !! "properties" = Some (JObj props) ->
  result !! "required" = Some (JArr required) ->
  required <> [] /\
  Forall (fun r => exists reqName,
              r = JStr reqName /\ is_Some (props !! reqName)) required.
Proof.
  rewrite cleanJSONSchema_some. intros [= <-]. unfold postPass.
  set (x := ensureProperties (ensureType _)). unfold repairRequired.
  destruct (x !! "required") as [[| | | | required0 |]|] eqn:Hreq;
    try (intros _; rewrite Hreq; discriminate).
  destruct (x !! "properties") as [[| | | | | props0]|] eqn:Hprops;
    try (rewrite Hprops; discriminate).
  destruct (0 <? length (List.filter (isValidRequired props0) required0))%nat
    eqn:Hlen.
  - rewrite lookup_insert_ne, Hprops, lookup_insert_eq by discriminate.
    intros [= <-] [= <-]. split.
    + intros Hnil. rewrite Hnil in Hlen. discriminate.
    + apply Forall_forall. intros r Hr.
      apply list_elem_of_In, filter_In in Hr. destruct Hr as [_ Hr].
      destruct r as [| | | reqName | |]; try discriminate.
      exists reqName. split; [reflexivity|].
      cbn in Hr. now apply bool_decide_eq_true in Hr.
  - intros _. now rewrite lookup_delete_eq.
Qed.

Lemma C3_top_level_required_witness :
  [JStr "a"] <> [] /\
  Forall (fun r => exists reqName,
              r = JStr reqName /\
              is_Some (({[ "a" := JObj ∅ ]} : gmap string json) !! reqName))
    [JStr "a"].
Proof.
  apply (C3_top_level_required_names_properties
           partlyRequiredSchema partlyRequiredCleaned
           {[ "a" := JObj ∅ ]} [JStr "a"]);
    vm_compute; reflexivity.
Defined.

End SchemaFacts.

(* ===================================================================== *)
(** * Facts about the request transformer *)
(* ===================================================================== *)

Section TransformerFacts.
Import GoStrings Schema Transformer.

Local Open Scope list_scope.

(** ** The functions on small inputs *)

Example parseToolResultContent_sample :
  parseToolResultContent ResultAbsent false = "Command executed successfully." /\
  parseToolResultContent (ResultString "  ") true
  = "Tool execution failed with no output." /\
  parseToolResultContent
    (ResultArray [ {[ "text" := JStr "a" ]}; {[ "type" := JStr "image" ]};
                   {[ "text" := JStr "b" ]} ]) false
  = ("a" ++ newline ++ "b")%string.
Proof. repeat split; reflexivity. Qed.

Example tool_result_name_sample :
  fst (fst (buildBlocks false
              [ {| cb_Type := "tool_use"; cb_Text := ""; cb_Thinking := "";
                   cb_Signature := ""; cb_Source := None; cb_ID := "t1";
                   cb_Name := "ls"; cb_Input := JNull; cb_ToolUseID := "";
                   cb_Content := ResultAbsent; cb_IsError := false |};
                {| cb_Type := "tool_result"; cb_Text := ""; cb_Thinking := "";
                   cb_Signature := ""; cb_Source := None; cb_ID := "";
                   cb_Name := ""; cb_Input := JNull; cb_ToolUseID := "t1";
                   cb_Content := ResultAbsent; cb_IsError := true |} ] ∅))
  = [ {| part_Text := ""; part_Thought := false; part_ThoughtSignature := "";
         part_InlineData := None;
         part_FunctionCall :=
           Some {| fc_Name := "ls"; fc_Args := JNull; fc_ID := "t1" |};
         part_FunctionResponse := None |};
      {| part_Text := ""; part_Thought := false; part_ThoughtSignature := "";
         part_InlineData := None; part_FunctionCall := None;
         part_FunctionResponse :=
           Some {| fr_Name := "ls";
                   fr_Response :=
                     {[ "result" :=
                          JStr "Tool execution failed with no output." ]};
                   fr_ID := "t1" |} |} ].
Proof. vm_compute. reflexivity. Qed.

(** ** The message loop over a concatenation *)

Lemma buildContentsFrom_app (think allow : bool) (n : nat)
  (l1 l2 : list ClaudeMessage) :
  forall (i : nat) (tm : ToolIdentityMap),
    buildContentsFrom think allow n i (l1 ++ l2) tm =
    match buildContentsFrom think allow n i l1 tm with
    | Err e => Err e
    | Ok (c1, s1, t1) =>
        match buildContentsFrom think allow n (i + length l1) l2 t1 with
        | Err e => Err e
        | Ok (c2, s2, t2) => Ok (c1 ++ c2, s1 || s2, t2)
        end
    end.
Proof.
  induction l1 as [|m l1 IH]; intros i tm.
  - cbn [app buildContentsFrom length]. rewrite Nat.add_0_r.
    destruct (buildContentsFrom think allow n i l2 tm) as [[[c2 s2] t2]|e];
      reflexivity.
  - cbn [app buildContentsFrom length].
    destruct (buildParts (msg_Content m) tm allow) as [[[ps sm] t0]|e];
      [|reflexivity].
    rewrite IH, Nat.add_succ_r. cbn [Nat.add].
    destruct (buildContentsFrom think allow n (S i) l1 t0)
      as [[[c1 s1] t1]|e]; [|reflexivity].
    destruct (buildContentsFrom think allow n (S (i + length l1)) l2 t1)
      as [[[c2 s2] t2]|e]; [|reflexivity].
    rewrite orb_assoc.
    destruct (addDummyThought think allow n i (targetRole (msg_Role m)) ps);
      reflexivity.
Qed.

(** One message, in terms of [contentEntry]. *)
Lemma buildContentsFrom_cons (think allow : bool) (n i : nat)
  (m : ClaudeMessage) (rest : list ClaudeMessage) (tm : ToolIdentityMap) :
  buildContentsFrom think allow n i (m :: rest) tm =
  match buildParts (msg_Content m) tm allow with
  | Err e => Err (ErrBuildParts i e)
  | Ok (ps, sm, t0) =>
      match buildContentsFrom think allow n (S i) rest t0 with
      | Err e => Err e
      | Ok (c, s, t1) =>
          Ok (contentEntry (msg_Role m)
                (addDummyThought think allow n i (targetRole (msg_Role m)) ps)
              ++ c, sm || s, t1)
      end
  end.
Proof.
  cbn [buildContentsFrom].
  destruct (buildParts (msg_Content m) tm allow) as [[[ps sm] t0]|e];
    [|reflexivity].
  destruct (buildContentsFrom think allow n (S i) rest t0)
    as [[[c s] t1]|e]; [|reflexivity].
  unfold contentEntry.
  destruct (addDummyThought think allow n i (targetRole (msg_Role m)) ps);
    reflexivity.
Qed.

Lemma addDummyThought_not_last (think allow : bool) (n i : nat)
  (role : string) (ps : list GeminiPart) :
  i <> (n - 1)%nat -> addDummyThought think allow n i role ps = ps.
Proof.
  intros Hi. unfold addDummyThought.
  apply Nat.eqb_neq in Hi. rewrite Hi, andb_false_r. reflexivity.
Qed.

Lemma addDummyThought_nil (think allow : bool) (n i : nat) (role : string) :
  addDummyThought think allow n i role [] = [].
Proof.
  unfold addDummyThought.
  destruct (allow && String.eqb role "model" && think && (i =? n - 1)%nat);
    reflexivity.
Qed.

Lemma addDummyThought_nonempty (think allow : bool) (n i : nat)
  (role : string) (ps : list GeminiPart) :
  ps <> [] -> addDummyThought think allow n i role ps <> [].
Proof.
  intros Hps. unfold addDummyThought.
  destruct (allow && String.eqb role "model" && think && (i =? n - 1)%nat);
    [|assumption].
  destruct (negb (hasThoughtPart ps) && (0 <? length ps)%nat);
    [discriminate|assumption].
Qed.

(** ** C10: no entry without parts *)

Lemma contentEntry_nonempty (role : string) (ps : list GeminiPart) :
  Forall (fun c => content_Parts c <> []) (contentEntry role ps).
Proof.
  destruct ps as [|p ps]; cbn [contentEntry]; [constructor|].
  constructor; [discriminate|constructor].
Qed.

Lemma buildContentsFrom_nonempty (think allow : bool) (n : nat)
  (messages : list ClaudeMessage) :
  forall (i : nat) (tm : ToolIdentityMap) contents stripped tm',
    buildContentsFrom think allow n i messages tm = Ok (contents, stripped, tm') ->
    Forall (fun c => content_Parts c <> []) contents.
Proof.
  induction messages as [|m rest IH]; intros i tm contents stripped tm'.
  - cbn [buildContentsFrom]. intros [= <- _ _]. constructor.
  - rewrite buildContentsFrom_cons.
    destruct (buildParts (msg_Content m) tm allow) as [[[ps sm] t0]|e];
      [|discriminate].
    destruct (buildContentsFrom think allow n (S i) rest t0)
      as [[[c s] t1]|e] eqn:Hrest; [|discriminate].
    intros [= <- _ _]. apply Forall_app. split.
    + apply contentEntry_nonempty.
    + eapply IH. eassumption.
Qed.

Lemma buildBlock_nothing (allow : bool) (block : ContentBlock)
  (tm : ToolIdentityMap) :
  blockReducesToNothing block = true ->
  buildBlock allow block tm = ([], false, tm).
Proof.
  unfold blockReducesToNothing, buildBlock.
  destruct (String.eqb (cb_Type block) "text").
  { intros H. apply orb_true_iff in H.
    destruct H as [-> | ->]; [reflexivity|]. now rewrite andb_false_r. }
  destruct (String.eqb (cb_Type block) "thinking"); [discriminate|].
  destruct (String.eqb (cb_Type block) "image").
  { destruct (cb_Source block) as [source|]; [|reflexivity].
    intros H. apply negb_true_iff in H. now rewrite H. }
  destruct (String.eqb (cb_Type block) "tool_use"); [discriminate|].
  destruct (String.eqb (cb_Type block) "tool_result"); [discriminate|].
  reflexivity.
Qed.

Lemma buildBlocks_nothing (allow : bool) (blocks : list ContentBlock)
  (tm : ToolIdentityMap) :
  forallb blockReducesToNothing blocks = true ->
  buildBlocks allow blocks tm = ([], false, tm).
Proof.
  induction blocks as [|b blocks IH]; [reflexivity|].
  cbn [forallb buildBlocks]. intros H. apply andb_true_iff in H.
  destruct H as [Hb Hrest].
  rewrite (buildBlock_nothing _ _ _ Hb), (IH Hrest). reflexivity.
Qed.

Lemma buildParts_nothing (allow : bool) (content : MessageContent)
  (tm : ToolIdentityMap) :
  contentReducesToNothing content = true ->
  buildParts content tm allow = Ok ([], false, tm).
Proof.
  destruct content as [text | blocks |]; cbn [contentReducesToNothing buildParts].
  - intros H. apply orb_true_iff in H.
    destruct H as [-> | ->]; [reflexivity|]. now rewrite andb_false_r.
  - intros H. now rewrite buildBlocks_nothing.
  - discriminate.
Qed.

(** C10. Every entry that [buildContents] emits has at least one part, and
    a message whose content reduces to nothing (sentinel or blank text,
    images that are not base64, unrecognized block types) is passed over:
    the loop continues with the next message, with the same state and
    without an entry for it. *)
Theorem C10_contents_entries_have_parts :
  (forall (messages : list ClaudeMessage) (tm : ToolIdentityMap)
          (think allow : bool) contents stripped tm',
      buildContents messages tm think allow = Ok (contents, stripped, tm') ->
      Forall (fun c => content_Parts c <> []) contents) /\
  (forall (think allow : bool) (n i : nat) (m : ClaudeMessage)
          (rest : list ClaudeMessage) (tm : ToolIdentityMap),
      contentReducesToNothing (msg_Content m) = true ->
      buildContentsFrom think allow n i (m :: rest) tm
      = buildContentsFrom think allow n (S i) rest tm).
Proof.
  split.
  - intros messages tm think allow contents stripped tm'.
    unfold buildContents. apply buildContentsFrom_nonempty.
  - intros think allow n i m rest tm Hm.
    rewrite buildContentsFrom_cons, (buildParts_nothing _ _ _ Hm).
    rewrite addDummyThought_nil. cbn [contentEntry app orb].
    destruct (buildContentsFrom think allow n (S i) rest tm)
      as [[[c s] t1]|e]; reflexivity.
Qed.

(** The theorem at a conversation whose middle message is the sentinel. *)
Lemma C10_contents_entries_witness :
  Forall (fun c => content_Parts c <> [])
    [ {| content_Role := "user"; content_Parts := [textPart "hi"] |};
      {| content_Role := "user"; content_Parts := [textPart "more"] |} ] /\
  buildContentsFrom true true 3 1
    [assistantSays "(no content)"; userSays "more"] ∅
  = buildContentsFrom true true 3 2 [userSays "more"] ∅.
Proof.
  split.
  - apply (proj1 C10_contents_entries_have_parts
             [userSays "hi"; assistantSays "(no content)"; userSays "more"]
             ∅ true true _ false ∅).
    vm_compute. reflexivity.
  - apply (proj2 C10_contents_entries_have_parts). vm_compute. reflexivity.
Defined.

(** ** C4: the synthetic thought part *)

Section WithPackageConstants.
Variable SafetySetting : Type.
Variable DefaultStopSequences : list string.
Variable DefaultSafetySettings : list SafetySetting.

Abbreviation Transform :=
  (TransformClaudeToGeminiWithOptions SafetySetting DefaultStopSequences
     DefaultSafetySettings).

(** What a successful transformation says about the message loop. *)
Lemma Transform_contents (claudeReq : ClaudeRequest)
  (projectID mappedModel : string) (opts : TransformOptions)
  (out : V1InternalRequest SafetySetting) :
  Transform claudeReq projectID mappedModel opts = Ok out ->
  exists stripped tm',
    buildContents (req_Messages claudeReq) ∅ (isThinkingEnabled claudeReq)
      (HasPrefix mappedModel "gemini-")
    = Ok (greq_Contents (v1_Request out), stripped, tm') /\
    greq_GenerationConfig (v1_Request out)
    = Some (buildGenerationConfig DefaultStopSequences
              (if stripped then withoutThinking claudeReq else claudeReq)).
Proof.
  unfold TransformClaudeToGeminiWithOptions.
  destruct (buildContents _ _ _ _) as [[[contents stripped] tm']|e];
    [|discriminate].
  intros [= <-]. exists stripped, tm'. split; reflexivity.
Qed.

Lemma filter_no_thought (parts : list GeminiPart) :
  hasThoughtPart parts = false -> List.filter part_Thought parts = [].
Proof.
  unfold hasThoughtPart. induction parts as [|p parts IH]; [reflexivity|].
  cbn [existsb List.filter]. intros H. apply orb_false_iff in H.
  destruct H as [-> H]. auto.
Qed.

(** C4, amended. Under the synthetic-signature policy (the resolved model
    has the prefix [gemini-]) with thinking requested:
    - when the last message is an assistant message whose blocks yield at
      least one part and no thought part, its entry is the one synthetic
      thought part with the dummy signature followed by those parts (so the
      entry has exactly one thought part, in front);
    - the entry of every message before the last consists of exactly the
      parts that [buildParts] yields for it: nothing is put in front. *)
Theorem C4_dummy_thought_only_before_final_parts
  (claudeReq : ClaudeRequest) (projectID mappedModel : string)
  (opts : TransformOptions) (out : V1InternalRequest SafetySetting) :
  HasPrefix mappedModel "gemini-" = true ->
  isThinkingEnabled claudeReq = true ->
  Transform claudeReq projectID mappedModel opts = Ok out ->
  let messages := req_Messages claudeReq in
  let contents := greq_Contents (v1_Request out) in
  (forall pre last,
      messages = pre ++ [last] ->
      msg_Role last = "assistant" ->
      exists contents0 stripped0 tm0 parts stripped1 tm1,
        buildContentsFrom true true (length messages) 0 pre ∅
        = Ok (contents0, stripped0, tm0) /\
        buildParts (msg_Content last) tm0 true = Ok (parts, stripped1, tm1) /\
        (hasThoughtPart parts = false -> parts <> [] ->
         contents = contents0 ++
                    [ {| content_Role := "model";
                         content_Parts := dummyThoughtPart :: parts |} ] /\
         List.filter part_Thought (dummyThoughtPart :: parts)
         = [dummyThoughtPart])) /\
  (forall pre m post,
      messages = pre ++ m :: post ->
      post <> [] ->
      exists contents0 stripped0 tm0 parts stripped1 tm1 contents1 stripped2 tm2,
        buildContentsFrom true true (length messages) 0 pre ∅
        = Ok (contents0, stripped0, tm0) /\
        buildParts (msg_Content m) tm0 true = Ok (parts, stripped1, tm1) /\
        buildContentsFrom true true (length messages) (S (length pre)) post tm1
        = Ok (contents1, stripped2, tm2) /\
        contents = contents0 ++ contentEntry (msg_Role m) parts ++ contents1).
Proof.
  intros Hallow Hthink Hout messages contents.
  destruct (Transform_contents _ _ _ _ _ Hout) as (stripped & tm' & Hc & _).
  rewrite Hallow, Hthink in Hc. unfold buildContents in Hc.
  fold messages contents in Hc. split.
  - intros pre last Hsplit Hrole.
    rewrite Hsplit in Hc at 2. rewrite buildContentsFrom_app in Hc.
    destruct (buildContentsFrom true true (length messages) 0 pre ∅)
      as [[[c0 s0] t0]|e] eqn:Hpre; [|discriminate].
    rewrite buildContentsFrom_cons in Hc.
    destruct (buildParts (msg_Content last) t0 true) as [[[ps s1] t1]|e]
      eqn:Hparts; [|discriminate].
    cbn [buildContentsFrom] in Hc.
    exists c0, s0, t0, ps, s1, t1. do 2 (split; [first [reflexivity|assumption]|]).
    intros Hno Hne. split.
    + injection Hc as Hc _ _. rewrite <- Hc, app_nil_r. f_equal.
      unfold addDummyThought.
      assert (Hlast : (length pre =? length messages - 1)%nat = true).
      { apply Nat.eqb_eq. rewrite Hsplit, length_app. cbn. lia. }
      rewrite Hlast, Hrole, Hno.
      destruct ps; [congruence|reflexivity].
    + cbn [List.filter dummyThoughtPart part_Thought].
      now rewrite filter_no_thought.
  - intros pre m post Hsplit Hpost.
    rewrite Hsplit in Hc at 2. rewrite buildContentsFrom_app in Hc.
    destruct (buildContentsFrom true true (length messages) 0 pre ∅)
      as [[[c0 s0] t0]|e] eqn:Hpre; [|discriminate].
    rewrite buildContentsFrom_cons in Hc.
    destruct (buildParts (msg_Content m) t0 true) as [[[ps s1] t1]|e]
      eqn:Hparts; [|discriminate].
    cbn [Nat.add] in Hc.
    destruct (buildContentsFrom true true (length messages) (S (length pre))
                post t1) as [[[c1 s2] t2]|e] eqn:Hpost'; [|discriminate].
    exists c0, s0, t0, ps, s1, t1, c1, s2, t2.
    do 3 (split; [first [reflexivity|assumption]|]).
    injection Hc as Hc _ _. rewrite <- Hc.
    rewrite addDummyThought_not_last; [reflexivity|].
    rewrite Hsplit, length_app. destruct post; [congruence|]. cbn. lia.
Qed.

(** ** The budget of the thinking config *)

(** The cap of [buildGenerationConfig] follows the model name of the
    request it is given. *)
Lemma buildGenerationConfig_budget (req : ClaudeRequest) (budget : Z) :
  req_Thinking req
  = Some {| th_Type := "enabled"; th_BudgetTokens := budget |} ->
  (0 < budget)%Z ->
  gc_ThinkingConfig (buildGenerationConfig DefaultStopSequences req)
  = Some {| tc_IncludeThoughts := true;
            tc_ThinkingBudget :=
              if Contains (req_Model req) "gemini-2.5-flash"
                 && (24576 <? budget)%Z
              then 24576%Z else budget |}.
Proof.
  intros Hthinking Hpos. unfold buildGenerationConfig.
  rewrite Hthinking. cbn [th_Type th_BudgetTokens gc_ThinkingConfig].
  apply Z.ltb_lt in Hpos. now rewrite Hpos.
Qed.

(** ** C5: thinking blocks without signature under the genuine policy *)






End WithPackageConstants.

(** ** C4, C5: concrete conversations *)

(** C4 as stated fails when the final assistant message yields no part at
    all: with thinking requested and a [gemini-] model, the pre-fill
    ["(no content)"] has no thought part, and the message gets no entry, so
    no synthetic thought part either. *)
Lemma C4_empty_final_message_counterexample :
  HasPrefix "gemini-3-flash" "gemini-" = true /\
  isThinkingEnabled
    (thinkingRequest "gemini-3-flash"
       [userSays "hi"; assistantSays "(no content)"] 1024) = true /\
  buildParts (msg_Content (assistantSays "(no content)")) ∅ true
  = Ok ([], false, ∅) /\
  exists out,
    TransformClaudeToGemini unit [] []
      (thinkingRequest "gemini-3-flash"
         [userSays "hi"; assistantSays "(no content)"] 1024)
      "project" "gemini-3-flash" = Ok out /\
    greq_Contents (v1_Request out)
    = [ {| content_Role := "user"; content_Parts := [textPart "hi"] |} ].
Proof.
  repeat split; try reflexivity.
  eexists. split; vm_compute; reflexivity.
Qed.

(** The theorem at a two-message conversation with a pre-filled answer. *)
Lemma C4_dummy_thought_witness :
  exists out,
    TransformClaudeToGemini unit [] []
      (thinkingRequest "gemini-3-flash"
         [userSays "hi"; assistantSays "Sure,"] 1024)
      "project" "gemini-3-flash" = Ok out /\
    greq_Contents (v1_Request out)
    = [ {| content_Role := "user"; content_Parts := [textPart "hi"] |} ] ++
      [ {| content_Role := "model";
           content_Parts := dummyThoughtPart :: [textPart "Sure,"] |} ].
Proof.
  destruct (TransformClaudeToGemini unit [] []
              (thinkingRequest "gemini-3-flash"
                 [userSays "hi"; assistantSays "Sure,"] 1024)
              "project" "gemini-3-flash") as [out|e] eqn:Hout;
    [|vm_compute in Hout; discriminate Hout].
  exists out. split; [reflexivity|].
  destruct (C4_dummy_thought_only_before_final_parts unit [] []
              (thinkingRequest "gemini-3-flash"
                 [userSays "hi"; assistantSays "Sure,"] 1024)
              "project" "gemini-3-flash" DefaultTransformOptions out
              eq_refl eq_refl Hout) as [Hfinal _].
  destruct (Hfinal [userSays "hi"] (assistantSays "Sure,") eq_refl eq_refl)
    as (c0 & s0 & t0 & ps & s1 & t1 & Hpre & Hparts & Hlast).
  vm_compute in Hpre. injection Hpre as <- _ _.
  vm_compute in Hparts. injection Hparts as <- _ _.
  apply Hlast; [reflexivity|discriminate].
Defined.



End TransformerFacts.

(* ===================================================================== *)
(** * Facts about the gateway service *)
(* ===================================================================== *)

Section UsageFacts.
Import GoStrings Schema Transformer Gateway.
Local Open Scope list_scope.
Local Open Scope Z_scope.

(** ** C1: streaming usage accumulation *)










End UsageFacts.

Section EngineFacts.
Import GoStrings Schema Transformer Gateway.
Local Open Scope list_scope.

Variable SafetySetting : Type.
Variable DefaultStopSequences : list string.
Variable DefaultSafetySettings : list SafetySetting.
Variable BaseURL : string.
Variable estimateGeminiCountTokens : string -> Z.
Variable handleClaudeStreamingResponse :
  Response -> string -> list ClientWrite * (ForwardError + ClaudeUsage * option Z).
Variable handleClaudeNonStreamingResponse :
  Response -> string -> list ClientWrite * (ForwardError + ClaudeUsage).
Variable handleGeminiStreamingResponse :
  Response -> list ClientWrite * (ForwardError + option ClaudeUsage * option Z).
Variable handleGeminiNonStreamingResponse :
  Response -> list ClientWrite * (ForwardError + option ClaudeUsage).
Variable jsonUnmarshal : string -> option json.
Variable jsonMarshal : json -> string.

Abbreviation Fwd :=
  (Forward SafetySetting DefaultStopSequences DefaultSafetySettings BaseURL
     handleClaudeStreamingResponse handleClaudeNonStreamingResponse).

Abbreviation Ready :=
  (forwardReady SafetySetting DefaultStopSequences DefaultSafetySettings).

Abbreviation FwdGemini :=
  (ForwardGemini BaseURL estimateGeminiCountTokens
     handleGeminiStreamingResponse handleGeminiNonStreamingResponse
     jsonUnmarshal jsonMarshal).

(** ** Counting in traces *)

Lemma upstreamCalls_app (e1 e2 : list Event) :
  upstreamCalls (e1 ++ e2) = (upstreamCalls e1 + upstreamCalls e2)%nat.
Proof. unfold upstreamCalls. now rewrite List.filter_app, length_app. Qed.

Lemma upstreamCalls_client (written : list ClientWrite) :
  upstreamCalls (map EvClient written) = 0%nat.
Proof. induction written as [|w written IH]; [reflexivity|exact IH]. Qed.

Lemma upstreamCalls_notified (s : AntigravityGatewayService) (statusCode : Z) :
  upstreamCalls (handleUpstreamError s statusCode) = 0%nat.
Proof. unfold handleUpstreamError. destruct (rateLimitService s); reflexivity. Qed.

Lemma upstreamCalls_silentRetries (url : string) (k : nat) :
  forall attempt, upstreamCalls (silentRetries url attempt k) = k.
Proof.
  induction k as [|k IH]; intros attempt; [reflexivity|].
  cbn [silentRetries]. change (upstreamCalls (EvUpstreamCall attempt url
    :: EvBackoff attempt :: silentRetries url (S attempt) k))
    with (S (upstreamCalls (silentRetries url (S attempt) k))).
  now rewrite IH.
Qed.

Lemma notifications_app (e1 e2 : list Event) :
  rateLimitNotifications (e1 ++ e2)
  = rateLimitNotifications e1 ++ rateLimitNotifications e2.
Proof.
  induction e1 as [|e e1 IH]; [reflexivity|].
  destruct e; cbn [app rateLimitNotifications]; now rewrite IH.
Qed.

Lemma notifications_client (written : list ClientWrite) :
  rateLimitNotifications (map EvClient written) = [].
Proof. induction written as [|w written IH]; [reflexivity|exact IH]. Qed.

Lemma notifications_silentRetries (url : string) (k : nat) :
  forall attempt, rateLimitNotifications (silentRetries url attempt k) = [].
Proof.
  induction k as [|k IH]; intros attempt; [reflexivity|].
  cbn [silentRetries rateLimitNotifications]. apply IH.
Qed.

(** ** The retry loop of [Forward] *)

Lemma hasStatus_reply (statusCode : Z) (reply : UpstreamReply) :
  hasStatus statusCode reply = true ->
  exists resp, reply = Reply resp /\ resp_StatusCode resp = statusCode.
Proof.
  destruct reply as [|resp]; [discriminate|]. cbn [hasStatus].
  intros H. apply Z.eqb_eq in H. eauto.
Qed.

(** An attempt before the last whose reply is a transport error or a
    retryable status: the loop sleeps and goes on, nothing else happens. *)
Lemma forwardLoop_retry (s : AntigravityGatewayService) (url : string)
  (fuel attempt : nat) :
  (attempt < antigravityMaxRetries)%nat ->
  isRetriedReply (httpUpstream s attempt) = true ->
  forwardLoop s url (S fuel) attempt =
  (EvUpstreamCall attempt url :: EvBackoff attempt
   :: fst (forwardLoop s url fuel (S attempt)),
   snd (forwardLoop s url fuel (S attempt))).
Proof.
  intros Hlt Hretry. cbn [forwardLoop].
  apply Nat.ltb_lt in Hlt. rewrite Hlt.
  destruct (httpUpstream s attempt) as [|resp].
  - destruct (forwardLoop s url fuel (S attempt)); reflexivity.
  - cbn [isRetriedReply] in Hretry. rewrite Hretry.
    destruct (forwardLoop s url fuel (S attempt)); reflexivity.
Qed.

Lemma forwardLoop_retries (s : AntigravityGatewayService) (url : string)
  (k : nat) :
  forall fuel attempt,
    (attempt + k <= antigravityMaxRetries)%nat ->
    (forall j, (attempt <= j < attempt + k)%nat ->
               isRetriedReply (httpUpstream s j) = true) ->
    forwardLoop s url (k + fuel) attempt =
    (silentRetries url attempt k ++ fst (forwardLoop s url fuel (attempt + k)),
     snd (forwardLoop s url fuel (attempt + k))).
Proof.
  induction k as [|k IH]; intros fuel attempt Hle Hretry.
  - cbn [Nat.add silentRetries app]. rewrite Nat.add_0_r.
    destruct (forwardLoop s url fuel attempt); reflexivity.
  - cbn [Nat.add]. rewrite forwardLoop_retry; [|lia|apply Hretry; lia].
    rewrite IH; [|lia|intros j Hj; apply Hretry; lia].
    cbn [fst snd silentRetries app].
    now replace (S attempt + k)%nat with (attempt + S k)%nat by lia.
Qed.

(** The last attempt with a retryable status: the loop is left with the
    response; only a 429 is reported to the rate-limit collaborator. *)
Lemma forwardLoop_last_retryable (s : AntigravityGatewayService) (url : string)
  (fuel : nat) (resp : Response) :
  httpUpstream s antigravityMaxRetries = Reply resp ->
  isRetriedReply (Reply resp) = true ->
  forwardLoop s url (S fuel) antigravityMaxRetries =
  (EvUpstreamCall antigravityMaxRetries url
   :: (if (resp_StatusCode resp =? 429)%Z
       then handleUpstreamError s (resp_StatusCode resp) else []),
   LoopBreak resp).
Proof.
  intros Hup Hretry. cbn [forwardLoop]. rewrite Hup.
  cbn [isRetriedReply] in Hretry. rewrite Hretry. reflexivity.
Qed.

(** A reply that is not retried leaves the loop at once. *)
Lemma forwardLoop_break (s : AntigravityGatewayService) (url : string)
  (fuel attempt : nat) (resp : Response) :
  httpUpstream s attempt = Reply resp ->
  isRetriedReply (Reply resp) = false ->
  forwardLoop s url (S fuel) attempt
  = ([EvUpstreamCall attempt url], LoopBreak resp).
Proof.
  intros Hup Hretry. cbn [forwardLoop]. rewrite Hup.
  cbn [isRetriedReply] in Hretry. rewrite Hretry. reflexivity.
Qed.

(** The loop is never left through its condition: the last iteration
    returns or breaks. *)
Lemma forwardLoop_never_exhausted (s : AntigravityGatewayService) (url : string)
  (fuel : nat) :
  forall attempt,
    (attempt + fuel = S antigravityMaxRetries)%nat ->
    (1 <= fuel)%nat ->
    snd (forwardLoop s url fuel attempt) <> LoopExhausted.
Proof.
  induction fuel as [|fuel IH]; intros attempt Hsum Hfuel; [lia|].
  cbn [forwardLoop].
  destruct (attempt <? antigravityMaxRetries)%nat eqn:Hlt.
  - apply Nat.ltb_lt in Hlt.
    assert (Hnext : snd (forwardLoop s url fuel (S attempt)) <> LoopExhausted)
      by (apply IH; lia).
    destruct (httpUpstream s attempt) as [|resp];
      [|destruct ((400 <=? resp_StatusCode resp)%Z
                  && shouldRetryUpstreamError (resp_StatusCode resp))];
      try (destruct (forwardLoop s url fuel (S attempt)); exact Hnext);
      discriminate.
  - destruct (httpUpstream s attempt) as [|resp];
      [|destruct ((400 <=? resp_StatusCode resp)%Z
                  && shouldRetryUpstreamError (resp_StatusCode resp))];
      discriminate.
Qed.

Lemma forwardLoop_four_retries (s : AntigravityGatewayService) (url : string) :
  (forall j, (1 <= j < antigravityMaxRetries)%nat ->
             isRetriedReply (httpUpstream s j) = true) ->
  forwardLoop s url antigravityMaxRetries 1 =
  (silentRetries url 1 4
   ++ fst (forwardLoop s url 1 antigravityMaxRetries),
   snd (forwardLoop s url 1 antigravityMaxRetries)).
Proof.
  intros Hretry.
  apply (forwardLoop_retries s url 4 1 1); [unfold antigravityMaxRetries; lia|].
  intros j Hj. apply Hretry. unfold antigravityMaxRetries. lia.
Qed.

Lemma forwardLoop_starts_with_call (s : AntigravityGatewayService)
  (url : string) (fuel attempt : nat) :
  exists rest,
    fst (forwardLoop s url (S fuel) attempt) = EvUpstreamCall attempt url :: rest.
Proof.
  cbn [forwardLoop].
  destruct (httpUpstream s attempt) as [|resp].
  - destruct (attempt <? antigravityMaxRetries)%nat.
    + destruct (forwardLoop s url fuel (S attempt)). cbn. eauto.
    + cbn. eauto.
  - destruct ((400 <=? resp_StatusCode resp)%Z
              && shouldRetryUpstreamError (resp_StatusCode resp)).
    + destruct (attempt <? antigravityMaxRetries)%nat.
      * destruct (forwardLoop s url fuel (S attempt)). cbn. eauto.
      * cbn. eauto.
    + cbn. eauto.
Qed.

Ltac forward_ready H :=
  destruct H as (Hmodel & (provider & accessToken & Hprovider & Htoken)
                 & Hproject & (geminiBody & Htransform));
  unfold Forward; rewrite Hmodel, Hprovider, Htoken, Hproject, Htransform;
  match goal with
  | |- context [req_Stream ?req] => fold (claudeURL BaseURL req)
  end.

(** The trace of [Forward] begins with the trace of its retry loop. *)
Lemma Forward_trace_prefix (s : AntigravityGatewayService) (account : Account)
  (claudeReq : ClaudeRequest) :
  Ready s account claudeReq ->
  exists tail,
    fst (Fwd s account (Some claudeReq)) =
    fst (forwardLoop s (claudeURL BaseURL claudeReq) antigravityMaxRetries 1) ++ tail.
Proof.
  intros Hready. forward_ready Hready.
  destruct (forwardLoop s (claudeURL BaseURL claudeReq) antigravityMaxRetries 1)
    as [events [r | resp |]]; cbn [fst].
  - exists []. now rewrite app_nil_r.
  - destruct (400 <=? resp_StatusCode resp)%Z.
    + destruct (shouldFailoverUpstreamError (resp_StatusCode resp)).
      * cbn [fst]. eauto.
      * destruct (writeMappedClaudeError (resp_StatusCode resp)). cbn [fst]. eauto.
    + destruct (req_Stream claudeReq).
      * destruct (handleClaudeStreamingResponse resp (req_Model claudeReq))
          as [written [err | [usage firstTokenMs]]]; cbn [fst]; eauto.
      * destruct (handleClaudeNonStreamingResponse resp (req_Model claudeReq))
          as [written [err | usage]]; cbn [fst]; eauto.
  - exists []. now rewrite app_nil_r.
Qed.

(** [Forward] when the retry loop is left with a response. *)
Lemma Forward_after_break (s : AntigravityGatewayService) (account : Account)
  (claudeReq : ClaudeRequest) (events : list Event) (resp : Response) :
  Ready s account claudeReq ->
  forwardLoop s (claudeURL BaseURL claudeReq) antigravityMaxRetries 1
  = (events, LoopBreak resp) ->
  ((400 <=? resp_StatusCode resp)%Z = true ->
   shouldFailoverUpstreamError (resp_StatusCode resp) = true ->
   Fwd s account (Some claudeReq)
   = (events ++ handleUpstreamError s (resp_StatusCode resp),
      inl (ErrUpstreamFailover (resp_StatusCode resp)))) /\
  ((400 <=? resp_StatusCode resp)%Z = false ->
   exists written,
     fst (Fwd s account (Some claudeReq)) = events ++ map EvClient written /\
     ((exists w usage firstTokenMs,
          req_Stream claudeReq = true /\
          handleClaudeStreamingResponse resp (req_Model claudeReq)
          = (w, inr (usage, firstTokenMs))) \/
      (exists w usage,
          req_Stream claudeReq = false /\
          handleClaudeNonStreamingResponse resp (req_Model claudeReq)
          = (w, inr usage)) ->
      exists result, snd (Fwd s account (Some claudeReq)) = inr result)).
Proof.
  intros Hready Hloop. forward_ready Hready. rewrite Hloop. split.
  - intros Hge Hfail. now rewrite Hge, Hfail.
  - intros Hlt. rewrite Hlt.
    set (header := if negb (String.eqb (resp_RequestID resp) "")
                   then [EvClient (WriteHeader "x-request-id" (resp_RequestID resp))]
                   else []).
    assert (Hheader : exists w, header = map EvClient w).
    { subst header. destruct (negb _);
        [exists [WriteHeader "x-request-id" (resp_RequestID resp)]|exists []];
        reflexivity. }
    destruct Hheader as [hw Hhw]. rewrite Hhw.
    destruct (req_Stream claudeReq).
    + destruct (handleClaudeStreamingResponse resp (req_Model claudeReq))
        as [written [err | [usage firstTokenMs]]]; cbn [fst snd];
        (exists (hw ++ written); split; [now rewrite map_app|]);
        intros [(w & u & f & _ & H) | (w & u & H & _)];
        try discriminate; eauto.
    + destruct (handleClaudeNonStreamingResponse resp (req_Model claudeReq))
        as [written [err | usage]]; cbn [fst snd];
        (exists (hw ++ written); split; [now rewrite map_app|]);
        intros [(w & u & f & H & _) | (w & u & _ & H)];
        try discriminate; eauto.
Qed.

Lemma status503_retried (reply : UpstreamReply) :
  hasStatus 503 reply = true -> isRetriedReply reply = true.
Proof.
  intros H. destruct (hasStatus_reply _ _ H) as (resp & -> & Hs).
  cbn [isRetriedReply]. now rewrite Hs.
Qed.

(** ** C2: retrying a 503 *)

(** C2. With the maximum attempt count [antigravityMaxRetries] = 5 and the
    preconditions of the loop met: when the upstream answers 503 to the
    first four requests and 200 to the fifth, and the response path accepts
    that response, [Forward] returns a result and has issued exactly five
    upstream requests; when the upstream answers 503 to all five, [Forward]
    has issued exactly five requests and returns the failover error, which
    is a different error from the one of the mapped (terminal) errors. *)
Theorem C2_forward_retries_503
  (s : AntigravityGatewayService) (account : Account) (claudeReq : ClaudeRequest) :
  Ready s account claudeReq ->
  (forall resp,
      (forall k, (1 <= k < antigravityMaxRetries)%nat ->
                 hasStatus 503 (httpUpstream s k) = true) ->
      httpUpstream s antigravityMaxRetries = Reply resp ->
      resp_StatusCode resp = 200%Z ->
      ((exists w usage firstTokenMs,
           req_Stream claudeReq = true /\
           handleClaudeStreamingResponse resp (req_Model claudeReq)
           = (w, inr (usage, firstTokenMs))) \/
       (exists w usage,
           req_Stream claudeReq = false /\
           handleClaudeNonStreamingResponse resp (req_Model claudeReq)
           = (w, inr usage))) ->
      (exists result, snd (Fwd s account (Some claudeReq)) = inr result) /\
      upstreamCalls (fst (Fwd s account (Some claudeReq)))
      = antigravityMaxRetries) /\
  ((forall k, (1 <= k <= antigravityMaxRetries)%nat ->
              hasStatus 503 (httpUpstream s k) = true) ->
   snd (Fwd s account (Some claudeReq)) = inl (ErrUpstreamFailover 503) /\
   upstreamCalls (fst (Fwd s account (Some claudeReq))) = antigravityMaxRetries /\
   (forall upstreamStatus,
       snd (writeMappedClaudeError upstreamStatus) <> ErrUpstreamFailover 503)).
Proof.
  intros Hready. split.
  - intros resp H503 H200 Hstatus Hhandler.
    assert (Hloop : forwardLoop s (claudeURL BaseURL claudeReq)
                      antigravityMaxRetries 1
                    = (silentRetries (claudeURL BaseURL claudeReq) 1 4
                       ++ [EvUpstreamCall antigravityMaxRetries
                             (claudeURL BaseURL claudeReq)],
                       LoopBreak resp)).
    { rewrite forwardLoop_four_retries
        by (intros k Hk; apply status503_retried, H503, Hk).
      rewrite (forwardLoop_break s _ 0 _ resp H200); [reflexivity|].
      cbn [isRetriedReply]. now rewrite Hstatus. }
    destruct (Forward_after_break s account claudeReq _ resp Hready Hloop)
      as [_ Hok].
    destruct Hok as (written & Htrace & Hresult); [now rewrite Hstatus|].
    split; [now apply Hresult|].
    rewrite Htrace, !upstreamCalls_app, upstreamCalls_silentRetries,
      upstreamCalls_client. reflexivity.
  - intros H503.
    destruct (hasStatus_reply _ _ (H503 antigravityMaxRetries
                                     ltac:(unfold antigravityMaxRetries; lia)))
      as (resp & Hlast & Hstatus).
    assert (Hloop : forwardLoop s (claudeURL BaseURL claudeReq)
                      antigravityMaxRetries 1
                    = (silentRetries (claudeURL BaseURL claudeReq) 1 4
                       ++ [EvUpstreamCall antigravityMaxRetries
                             (claudeURL BaseURL claudeReq)],
                       LoopBreak resp)).
    { rewrite forwardLoop_four_retries
        by (intros k Hk; apply status503_retried, H503; lia).
      rewrite (forwardLoop_last_retryable s _ 0 resp Hlast).
      - now rewrite Hstatus.
      - cbn [isRetriedReply]. now rewrite Hstatus. }
    destruct (Forward_after_break s account claudeReq _ resp Hready Hloop)
      as [Hfail _].
    rewrite Hfail by now rewrite Hstatus. rewrite Hstatus. cbn [fst snd].
    split; [reflexivity|]. split.
    + rewrite !upstreamCalls_app, upstreamCalls_silentRetries,
        upstreamCalls_notified. reflexivity.
    + intros upstreamStatus. unfold writeMappedClaudeError.
      repeat match goal with
             | |- context [if ?b then _ else _] => destruct b
             end; discriminate.
Qed.

(** ** C7: notifications of the rate-limit collaborator *)

(** C7, amended. In [Forward], with a rate-limit collaborator configured:
    an attempt that is retried (a transport error or any retryable status,
    429 included) causes no notification: up to the next upstream request
    the trace holds only requests and back-off sleeps.  The collaborator is
    notified when the retry budget is exhausted: for the status of the last
    response, after the loop, and for a 429 also inside the loop. *)
Theorem C7_forward_notifies_on_exhaustion_only
  (s : AntigravityGatewayService) (account : Account) (claudeReq : ClaudeRequest) :
  Ready s account claudeReq ->
  rateLimitService s = true ->
  (forall k,
      (k < antigravityMaxRetries)%nat ->
      (forall j, (1 <= j <= k)%nat -> isRetriedReply (httpUpstream s j) = true) ->
      exists rest,
        fst (Fwd s account (Some claudeReq))
        = silentRetries (claudeURL BaseURL claudeReq) 1 k
          ++ EvUpstreamCall (S k) (claudeURL BaseURL claudeReq) :: rest /\
        rateLimitNotifications
          (silentRetries (claudeURL BaseURL claudeReq) 1 k
           ++ [EvUpstreamCall (S k) (claudeURL BaseURL claudeReq)]) = []) /\
  (forall resp,
      (forall j, (1 <= j < antigravityMaxRetries)%nat ->
                 isRetriedReply (httpUpstream s j) = true) ->
      httpUpstream s antigravityMaxRetries = Reply resp ->
      isRetriedReply (Reply resp) = true ->
      rateLimitNotifications (fst (Fwd s account (Some claudeReq)))
      = (if (resp_StatusCode resp =? 429)%Z then [resp_StatusCode resp] else [])
        ++ [resp_StatusCode resp]).
Proof.
  intros Hready Hservice. split.
  - intros k Hk Hretry.
    destruct (Forward_trace_prefix s account claudeReq Hready) as [tail Htail].
    assert (Hsplit : antigravityMaxRetries
                     = (k + S (antigravityMaxRetries - S k))%nat) by lia.
    rewrite Hsplit in Htail at 1.
    rewrite forwardLoop_retries in Htail;
      [|lia|intros j Hj; apply Hretry; lia].
    destruct (forwardLoop_starts_with_call s (claudeURL BaseURL claudeReq)
                (antigravityMaxRetries - S k) (1 + k)) as [rest Hrest].
    cbn [fst] in Htail. rewrite Hrest in Htail.
    exists (rest ++ tail). split.
    + rewrite Htail, <- app_assoc. reflexivity.
    + rewrite notifications_app, notifications_silentRetries. reflexivity.
  - intros resp Hretry Hlast Hlastretry.
    assert (Hloop : forwardLoop s (claudeURL BaseURL claudeReq)
                      antigravityMaxRetries 1
                    = (silentRetries (claudeURL BaseURL claudeReq) 1 4
                       ++ EvUpstreamCall antigravityMaxRetries
                            (claudeURL BaseURL claudeReq)
                          :: (if (resp_StatusCode resp =? 429)%Z
                              then handleUpstreamError s (resp_StatusCode resp)
                              else []),
                       LoopBreak resp)).
    { rewrite forwardLoop_four_retries by assumption.
      now rewrite (forwardLoop_last_retryable s _ 0 resp Hlast Hlastretry). }
    destruct (Forward_after_break s account claudeReq _ resp Hready Hloop)
      as [Hfail _].
    cbn [isRetriedReply] in Hlastretry.
    apply andb_true_iff in Hlastretry. destruct Hlastretry as [Hge Hre].
    rewrite Hfail; [|assumption|].
    + cbn [fst]. rewrite !notifications_app, notifications_silentRetries.
      unfold handleUpstreamError. rewrite Hservice.
      destruct (resp_StatusCode resp =? 429)%Z; reflexivity.
    + unfold shouldRetryUpstreamError in Hre.
      repeat (apply orb_true_iff in Hre; destruct Hre as [Hre|Hre]);
        apply Z.eqb_eq in Hre; rewrite Hre; reflexivity.
Qed.

(** ** C9: [countTokens] degrades to a local estimate *)

Abbreviation geminiLoop := (forwardGeminiLoop estimateGeminiCountTokens).

Lemma forwardGeminiLoop_retry (s : AntigravityGatewayService)
  (url originalModel action body : string) (fuel attempt : nat) :
  (attempt < antigravityMaxRetries)%nat ->
  isRetriedReply (httpUpstream s attempt) = true ->
  exists prefix,
    noBodyWrite prefix = true /\
    geminiLoop s url originalModel action body (S fuel) attempt =
    (prefix ++ fst (geminiLoop s url originalModel action body fuel (S attempt)),
     snd (geminiLoop s url originalModel action body fuel (S attempt))).
Proof.
  intros Hlt Hretry. cbn [forwardGeminiLoop].
  apply Nat.ltb_lt in Hlt. rewrite Hlt.
  destruct (httpUpstream s attempt) as [|resp].
  - exists [EvUpstreamCall attempt url; EvBackoff attempt].
    split; [reflexivity|].
    destruct (geminiLoop s url originalModel action body fuel (S attempt));
      reflexivity.
  - cbn [isRetriedReply] in Hretry. rewrite Hretry.
    exists (EvUpstreamCall attempt url
            :: (if (resp_StatusCode resp =? 429)%Z
                then handleUpstreamError s (resp_StatusCode resp) else [])
            ++ [EvBackoff attempt]).
    split.
    + unfold handleUpstreamError.
      destruct (resp_StatusCode resp =? 429)%Z, (rateLimitService s);
        reflexivity.
    + destruct (geminiLoop s url originalModel action body fuel (S attempt)).
      cbn [fst snd app]. now rewrite <- app_assoc.
Qed.

Lemma noBodyWrite_app (e1 e2 : list Event) :
  noBodyWrite (e1 ++ e2) = noBodyWrite e1 && noBodyWrite e2.
Proof. unfold noBodyWrite. apply forallb_app. Qed.

Lemma noBodyWrite_notified (s : AntigravityGatewayService) (statusCode : Z) :
  noBodyWrite (handleUpstreamError s statusCode) = true.
Proof. unfold handleUpstreamError. destruct (rateLimitService s); reflexivity. Qed.

Lemma forwardGeminiLoop_retries (s : AntigravityGatewayService)
  (url originalModel action body : string) (k : nat) :
  forall fuel attempt,
    (attempt + k <= antigravityMaxRetries)%nat ->
    (forall j, (attempt <= j < attempt + k)%nat ->
               isRetriedReply (httpUpstream s j) = true) ->
    exists prefix,
      noBodyWrite prefix = true /\
      geminiLoop s url originalModel action body (k + fuel) attempt =
      (prefix
       ++ fst (geminiLoop s url originalModel action body fuel (attempt + k)),
       snd (geminiLoop s url originalModel action body fuel (attempt + k))).
Proof.
  induction k as [|k IH]; intros fuel attempt Hle Hretry.
  - exists []. split; [reflexivity|]. cbn [Nat.add app]. rewrite Nat.add_0_r.
    destruct (geminiLoop s url originalModel action body fuel attempt);
      reflexivity.
  - destruct (forwardGeminiLoop_retry s url originalModel action body
                (k + fuel) attempt) as (p1 & Hn1 & Hp1);
      [lia|apply Hretry; lia|].
    destruct (IH fuel (S attempt)) as (p2 & Hn2 & Hp2);
      [lia|intros j Hj; apply Hretry; lia|].
    exists (p1 ++ p2). split; [now rewrite noBodyWrite_app, Hn1, Hn2|].
    cbn [Nat.add]. rewrite Hp1, Hp2. cbn [fst snd].
    replace (S attempt + k)%nat with (attempt + S k)%nat by lia.
    now rewrite app_assoc.
Qed.

(** C9. For a [countTokens] request that reaches the retry loop of
    [ForwardGemini]: when the attempts before attempt [k] are all retried
    and attempt [k] ends the exchange in failure (a transport error on the
    last attempt, or a status of 400 or more that is final because it is
    not retryable or because no attempt is left), the last thing written to
    the client is the local estimate with status 200, and [ForwardGemini]
    returns a result, not an error. *)
Theorem C9_countTokens_failure_yields_estimate
  (s : AntigravityGatewayService) (account : Account)
  (originalModel body : string) (stream : bool) (k : nat) :
  geminiReady jsonUnmarshal s account originalModel body ->
  (1 <= k <= antigravityMaxRetries)%nat ->
  (forall j, (1 <= j < k)%nat -> isRetriedReply (httpUpstream s j) = true) ->
  (k = antigravityMaxRetries /\ httpUpstream s k = TransportError) \/
  (exists resp,
      httpUpstream s k = Reply resp /\
      (400 <= resp_StatusCode resp)%Z /\
      (k = antigravityMaxRetries \/ isRetriedReply (Reply resp) = false)) ->
  exists events requestID,
    noBodyWrite events = true /\
    FwdGemini s account originalModel "countTokens" stream body
    = (events ++ [estimateWrite estimateGeminiCountTokens body],
       inr (estimateResult originalModel requestID)).
Proof.
  intros (Hmodel & Hbody & (provider & accessToken & Hprovider & Htoken)
          & Hproject & (request & Hrequest)) Hk Hretry Hfinal.
  unfold ForwardGemini.
  rewrite Hmodel, Hbody, Hprovider, Htoken, Hproject, Hrequest.
  change (isBlank "countTokens") with false.
  change (String.eqb "countTokens" "generateContent") with false.
  change (String.eqb "countTokens" "streamGenerateContent") with false.
  change (String.eqb "countTokens" "countTokens") with true.
  cbn [orb andb negb].
  set (url := (BaseURL ++ _)%string).
  destruct (forwardGeminiLoop_retries s url originalModel "countTokens" body
              (k - 1) (S (antigravityMaxRetries - k)) 1)
    as (prefix & Hquiet & Hprefix);
    [lia|intros j Hj; apply Hretry; lia|].
  replace (k - 1 + S (antigravityMaxRetries - k))%nat
    with antigravityMaxRetries in Hprefix by lia.
  replace (1 + (k - 1))%nat with k in Hprefix by lia.
  rewrite Hprefix. clear Hprefix.
  cbn [forwardGeminiLoop].
  change (String.eqb "countTokens" "countTokens") with true.
  destruct Hfinal as [[-> Hup] | (resp & Hup & Hge & Hlast)]; rewrite Hup.
  - cbn [Nat.ltb Nat.leb antigravityMaxRetries countTokensFallback fst snd].
    exists (prefix ++ [EvUpstreamCall 5 url]), "".
    split; [now rewrite noBodyWrite_app, Hquiet|].
    now rewrite <- app_assoc.
  - apply Z.leb_le in Hge.
    destruct (isRetriedReply (Reply resp)) eqn:Hretried;
      cbn [isRetriedReply] in Hretried; rewrite Hretried.
    + destruct Hlast as [-> | ?]; [|discriminate].
      cbn [Nat.ltb Nat.leb antigravityMaxRetries countTokensFallback fst snd].
      exists (prefix ++ EvUpstreamCall 5 url
                :: (if (resp_StatusCode resp =? 429)%Z
                    then handleUpstreamError s (resp_StatusCode resp)
                    else [])), "".
      split.
      { rewrite noBodyWrite_app, Hquiet. cbn [andb].
        destruct (resp_StatusCode resp =? 429)%Z; [|reflexivity].
        apply (noBodyWrite_notified s). }
      rewrite <- !app_assoc. reflexivity.
    + cbn [fst snd]. rewrite Hge. cbn [countTokensFallback].
      exists ((prefix ++ [EvUpstreamCall k url])
              ++ (if negb (String.eqb (resp_RequestID resp) "")
                  then [EvClient (WriteHeader "x-request-id" (resp_RequestID resp))]
                  else [])
              ++ handleUpstreamError s (resp_StatusCode resp)),
        (resp_RequestID resp).
      split.
      { rewrite !noBodyWrite_app, Hquiet, noBodyWrite_notified.
        destruct (negb (String.eqb (resp_RequestID resp) "")); reflexivity. }
      rewrite <- !app_assoc. reflexivity.
Qed.

End EngineFacts.

(** ** The engine against concrete upstreams *)

Section EngineSamples.
Import GoStrings Schema Transformer Gateway.
Local Open Scope list_scope.

Lemma sampleRequest_ready (statuses : list Z) :
  forwardReady unit [] [] (sampleService statuses) sampleAccount sampleRequest.
Proof.
  split; [reflexivity|]. split; [eexists _, _; split; reflexivity|].
  split; [reflexivity|]. eexists. vm_compute. reflexivity.
Qed.

Lemma sampleBody_ready (statuses : list Z) :
  geminiReady sampleUnmarshal (sampleService statuses) sampleAccount
    "gemini-2.5-flash" "{}".
Proof.
  split; [reflexivity|]. split; [reflexivity|].
  split; [eexists _, _; split; reflexivity|].
  split; [reflexivity|]. eexists. reflexivity.
Qed.

(** The theorem at an upstream that answers 503 four times and then 200,
    and at one that answers 503 five times. *)
Lemma C2_forward_retries_503_witness :
  ((exists result,
       snd (sampleForward (sampleService [503; 503; 503; 503; 200]%Z)
              sampleAccount (Some sampleRequest)) = inr result) /\
   upstreamCalls
     (fst (sampleForward (sampleService [503; 503; 503; 503; 200]%Z)
             sampleAccount (Some sampleRequest))) = 5%nat) /\
  (snd (sampleForward (sampleService [503; 503; 503; 503; 503]%Z)
          sampleAccount (Some sampleRequest))
   = inl (ErrUpstreamFailover 503) /\
   upstreamCalls
     (fst (sampleForward (sampleService [503; 503; 503; 503; 503]%Z)
             sampleAccount (Some sampleRequest))) = 5%nat).
Proof.
  split.
  - apply (proj1 (C2_forward_retries_503 unit [] [] "https://upstream"
                    echoClaudeStreaming echoClaudeNonStreaming
                    (sampleService [503; 503; 503; 503; 200]%Z)
                    sampleAccount sampleRequest (sampleRequest_ready _))
             (responseWith 200)).
    + intros k Hk. unfold antigravityMaxRetries in Hk.
      destruct k as [|[|[|[|[|k]]]]]; try lia; reflexivity.
    + reflexivity.
    + reflexivity.
    + right. eexists _, _. split; reflexivity.
  - destruct (proj2 (C2_forward_retries_503 unit [] [] "https://upstream"
                       echoClaudeStreaming echoClaudeNonStreaming
                       (sampleService [503; 503; 503; 503; 503]%Z)
                       sampleAccount sampleRequest (sampleRequest_ready _)))
      as (Herr & Hcalls & _).
    + intros k Hk. unfold antigravityMaxRetries in Hk.
      destruct k as [|[|[|[|[|[|k]]]]]]; try lia; reflexivity.
    + split; assumption.
Defined.

(** C7 as stated fails in [Forward]: a 429 on the first attempt, followed by
    a 200, is retried without any notification of the rate-limit
    collaborator.  ([ForwardGemini], on the same upstream, notifies.) *)
Lemma C7_retried_429_counterexample :
  rateLimitService (sampleService [429; 200]%Z) = true /\
  hasStatus 429 (httpUpstream (sampleService [429; 200]%Z) 1) = true /\
  fst (sampleForward (sampleService [429; 200]%Z) sampleAccount
         (Some sampleRequest))
  = [ EvUpstreamCall 1 "https://upstream/v1internal:generateContent";
      EvBackoff 1;
      EvUpstreamCall 2 "https://upstream/v1internal:generateContent";
      EvClient (WriteData 200 "application/json" "{}") ] /\
  rateLimitNotifications
    (fst (sampleForward (sampleService [429; 200]%Z) sampleAccount
            (Some sampleRequest))) = [] /\
  rateLimitNotifications
    (fst (sampleForwardGemini (sampleService [429; 200]%Z) sampleAccount
            "gemini-2.5-flash" "generateContent" false "{}")) = [429%Z].
Proof. repeat split; vm_compute; reflexivity. Qed.

(** The theorem at an upstream that answers 429 five times: no notification
    before the fifth request, two for the fifth response. *)
Lemma C7_forward_notifies_witness :
  (exists rest,
      fst (sampleForward (sampleService [429; 429; 429; 429; 429]%Z)
             sampleAccount (Some sampleRequest))
      = silentRetries (claudeURL "https://upstream" sampleRequest) 1 4
        ++ EvUpstreamCall 5 (claudeURL "https://upstream" sampleRequest)
           :: rest) /\
  rateLimitNotifications
    (fst (sampleForward (sampleService [429; 429; 429; 429; 429]%Z)
            sampleAccount (Some sampleRequest))) = [429; 429]%Z.
Proof.
  destruct (C7_forward_notifies_on_exhaustion_only unit [] []
              "https://upstream" echoClaudeStreaming echoClaudeNonStreaming
              (sampleService [429; 429; 429; 429; 429]%Z)
              sampleAccount sampleRequest (sampleRequest_ready _) eq_refl)
    as [Hsilent Hlast].
  split.
  - destruct (Hsilent 4%nat) as (rest & Htrace & _).
    + unfold antigravityMaxRetries. lia.
    + intros j Hj. destruct j as [|[|[|[|[|j]]]]]; try lia; reflexivity.
    + exists rest. exact Htrace.
  - apply (Hlast (responseWith 429)).
    + intros j Hj. unfold antigravityMaxRetries in Hj.
      destruct j as [|[|[|[|[|j]]]]]; try lia; reflexivity.
    + reflexivity.
    + reflexivity.
Defined.

(** The theorem at a [countTokens] request whose upstream answers 503 to
    every attempt, and at one whose upstream answers 400 at once. *)
Lemma C9_countTokens_witness :
  (exists events requestID,
      noBodyWrite events = true /\
      sampleForwardGemini (sampleService [503; 503; 503; 503; 503]%Z)
        sampleAccount "gemini-2.5-flash" "countTokens" false "{}"
      = (events ++ [estimateWrite sampleEstimate "{}"],
         inr (estimateResult "gemini-2.5-flash" requestID))) /\
  (exists events requestID,
      noBodyWrite events = true /\
      sampleForwardGemini (sampleService [400]%Z)
        sampleAccount "gemini-2.5-flash" "countTokens" false "{}"
      = (events ++ [estimateWrite sampleEstimate "{}"],
         inr (estimateResult "gemini-2.5-flash" requestID))).
Proof.
  split.
  - apply (C9_countTokens_failure_yields_estimate "https://upstream"
             sampleEstimate echoGeminiStreaming echoGeminiNonStreaming
             sampleUnmarshal sampleMarshal
             (sampleService [503; 503; 503; 503; 503]%Z) sampleAccount
             "gemini-2.5-flash" "{}" false 5 (sampleBody_ready _)).
    + unfold antigravityMaxRetries. lia.
    + intros j Hj. destruct j as [|[|[|[|[|j]]]]]; try lia; reflexivity.
    + right. exists (responseWith 503).
      split; [reflexivity|]. split; [cbn; lia|]. left. reflexivity.
  - apply (C9_countTokens_failure_yields_estimate "https://upstream"
             sampleEstimate echoGeminiStreaming echoGeminiNonStreaming
             sampleUnmarshal sampleMarshal
             (sampleService [400]%Z) sampleAccount
             "gemini-2.5-flash" "{}" false 1 (sampleBody_ready _)).
    + unfold antigravityMaxRetries. lia.
    + intros j Hj. lia.
    + right. exists (responseWith 400).
      split; [reflexivity|]. split; [cbn; lia|]. right. reflexivity.
Defined.

(** ** C6: the budget cap *)

(** C6, the code at the failing input. The cap of 24576 is decided on the
    requested model name, not on the resolved backend model: for an account
    that maps [claude-haiku-4-5] to [gemini-2.5-flash], a request with
    thinking enabled and budget 30000 is sent to [gemini-2.5-flash] with
    [includeThoughts] and the budget 30000, uncapped; requested under the
    name [gemini-2.5-flash] itself, the same budget is capped to 24576. *)
Lemma C6_budget_cap_tests_requested_model :
  getMappedModel flashAccount "claude-haiku-4-5" = "gemini-2.5-flash" /\
  (exists out,
      TransformClaudeToGemini unit [] []
        (thinkingRequest "claude-haiku-4-5" [userSays "hi"] 30000)
        "project-1" (getMappedModel flashAccount "claude-haiku-4-5") = Ok out /\
      v1_Model out = "gemini-2.5-flash" /\
      gc_ThinkingConfig <$> greq_GenerationConfig (v1_Request out)
      = Some (Some {| tc_IncludeThoughts := true;
                      tc_ThinkingBudget := 30000 |})) /\
  (exists out,
      TransformClaudeToGemini unit [] []
        (thinkingRequest "gemini-2.5-flash" [userSays "hi"] 30000)
        "project-1" (getMappedModel sampleAccount "gemini-2.5-flash") = Ok out /\
      v1_Model out = "gemini-2.5-flash" /\
      gc_ThinkingConfig <$> greq_GenerationConfig (v1_Request out)
      = Some (Some {| tc_IncludeThoughts := true;
                      tc_ThinkingBudget := 24576 |})).
Proof.
  split; [reflexivity|].
  split; eexists; (split; [vm_compute; reflexivity|]);
    split; vm_compute; reflexivity.
Qed.

End EngineSamples.

(* ===================================================================== *)
(** * More about the schema sanitizer *)
(* ===================================================================== *)

Section SchemaShape.
Import GoStrings Schema.

Lemma cleanTypeValue_shape (v : json) :
  (forall l, cleanTypeValue v <> JArr l) /\
  (forall s, cleanTypeValue v = JStr s -> ToUpper s = s).
Proof.
  destruct v as [| b | n | s0 | l0 | m]; cbn [cleanTypeValue];
    try (split; intros; discriminate).
  - split; [discriminate|]. intros s [= <-]. apply ToUpper_idem.
  - destruct (firstNonNullType l0) as [ts|].
    + split; [discriminate|]. intros s [= <-]. apply ToUpper_idem.
    + split; [discriminate|]. intros s [= <-]. reflexivity.
Qed.

(** What one iteration stores, read from the key. *)
Lemma cleanSchemaEntry_cases (rec : json -> json) (k : string) (v w : json) :
  cleanSchemaEntry rec k v = Some w ->
  isExcluded k = false /\
  (k = "type" -> w = cleanTypeValue v) /\
  (k = "format" ->
   exists formatStr, w = JStr formatStr /\ isAllowedFormat formatStr = true) /\
  (k = "additionalProperties" -> exists b, w = JBool b) /\
  (k <> "type" -> k <> "format" -> k <> "additionalProperties" -> w = rec v).
Proof.
  unfold cleanSchemaEntry.
  destruct (isExcluded k); [discriminate|].
  destruct (String.eqb_spec k "type") as [->|Htype].
  { intros [= <-]. repeat split; try discriminate; try congruence. }
  destruct (String.eqb_spec k "format") as [->|Hformat].
  { destruct v as [| | | s | |]; try discriminate.
    destruct (isAllowedFormat s) eqn:Hs; [|discriminate].
    intros [= <-]. repeat split; try discriminate; try congruence; eauto. }
  destruct (String.eqb_spec k "additionalProperties") as [->|Hadd].
  { destruct v; intros [= <-]; repeat split; try discriminate;
      try congruence; eauto. }
  intros [= <-]. repeat split; congruence.
Qed.

Lemma cleanSchemaValue_in_dialect (value : json) :
  InDialect (cleanSchemaValue value).
Proof.
  induction value as [| b | n | s | l IH | m IH] using json_tree_ind;
    [constructor|constructor|constructor|constructor| |].
  - rewrite cleanSchemaValue_arr. constructor.
    apply Forall_forall. intros x Hx.
    apply list_elem_of_In, in_map_iff in Hx. destruct Hx as (y & <- & Hy).
    rewrite Forall_forall in IH. apply IH. now apply list_elem_of_In.
  - rewrite cleanSchemaValue_obj. constructor.
    + intros k Hk. rewrite map_lookup_imap.
      destruct (m !! k) as [v|]; [|reflexivity]. cbn.
      unfold cleanSchemaEntry. now rewrite Hk.
    + intros w. rewrite map_lookup_imap.
      destruct (m !! "format") as [v|]; [|discriminate]. cbn.
      intros Hw. now apply (cleanSchemaEntry_cases _ _ _ _ Hw).
    + intros w. rewrite map_lookup_imap.
      destruct (m !! "additionalProperties") as [v|]; [|discriminate]. cbn.
      intros Hw. now apply (cleanSchemaEntry_cases _ _ _ _ Hw).
    + intros w. rewrite map_lookup_imap.
      destruct (m !! "type") as [v|]; [|discriminate]. cbn.
      intros Hw.
      destruct (cleanSchemaEntry_cases _ _ _ _ Hw) as (_ & Ht & _).
      rewrite (Ht eq_refl). apply cleanTypeValue_shape.
    + intros k w. rewrite map_lookup_imap.
      destruct (m !! k) as [v|] eqn:Hv; [|discriminate]. cbn.
      intros Hw H1 H2 H3.
      destruct (cleanSchemaEntry_cases _ _ _ _ Hw) as (_ & _ & _ & _ & Hrec).
      rewrite (Hrec H1 H2 H3). exact (IH k v Hv).
Qed.

(** Storing a value that fits its key keeps an object in the dialect. *)
Lemma InDialect_insert (m : gmap string json) (k : string) (v : json) :
  InDialect (JObj m) ->
  isExcluded k = false ->
  k <> "format" -> k <> "additionalProperties" ->
  (k = "type" -> (forall l, v <> JArr l) /\ (forall s, v = JStr s -> ToUpper s = s)) ->
  (k <> "type" -> InDialect v) ->
  InDialect (JObj (<[k := v]> m)).
Proof.
  intros Hm Hk Hformat Hadd Htype Hv.
  inversion Hm as [| | | | | m' Hex Hfmt Hap Hty Hrest]; subst.
  constructor.
  - intros k' Hk'. rewrite lookup_insert_ne by congruence. now apply Hex.
  - intros w. rewrite lookup_insert_ne by congruence. apply Hfmt.
  - intros w. rewrite lookup_insert_ne by congruence. apply Hap.
  - intros w. destruct (decide (k = "type")) as [->|Hne].
    + rewrite lookup_insert_eq. intros [= <-]. now apply Htype.
    + rewrite lookup_insert_ne by congruence. apply Hty.
  - intros k' w. destruct (decide (k = k')) as [<-|Hne].
    + rewrite lookup_insert_eq. intros [= <-] H1 _ _. now apply Hv.
    + rewrite lookup_insert_ne by congruence. apply Hrest.
Qed.

Lemma InDialect_delete (m : gmap string json) (k : string) :
  InDialect (JObj m) -> InDialect (JObj (delete k m)).
Proof.
  intros Hm.
  inversion Hm as [| | | | | m' Hex Hfmt Hap Hty Hrest]; subst.
  constructor.
  - intros k' Hk'. destruct (decide (k = k')) as [<-|Hne].
    + apply lookup_delete_eq.
    + rewrite lookup_delete_ne by congruence. now apply Hex.
  - intros w Hw. apply lookup_delete_Some in Hw. apply Hfmt, Hw.
  - intros w Hw. apply lookup_delete_Some in Hw. apply Hap, Hw.
  - intros w Hw. apply lookup_delete_Some in Hw. apply Hty, Hw.
  - intros k' w Hw. apply lookup_delete_Some in Hw. apply Hrest, Hw.
Qed.

Lemma InDialect_postPass (m : gmap string json) :
  InDialect (JObj m) -> InDialect (JObj (postPass m)).
Proof.
  intros Hm. unfold postPass.
  assert (H1 : InDialect (JObj (ensureType m))).
  { unfold ensureType. destruct (m !! "type"); [assumption|].
    apply InDialect_insert; try assumption; try discriminate;
      try reflexivity.
    - intros _. split; [discriminate|]. now intros s [= <-].
    - congruence. }
  assert (H2 : InDialect (JObj (ensureProperties (ensureType m)))).
  { unfold ensureProperties.
    destruct (ensureType m !! "properties"); [assumption|].
    apply InDialect_insert; try assumption; try discriminate;
      try reflexivity.
    intros _. constructor; intros; rewrite lookup_empty in *;
      try discriminate; reflexivity. }
  unfold repairRequired.
  destruct (_ !! "required") as [[| | | | required |]|]; try assumption.
  destruct (_ !! "properties") as [[| | | | | props]|]; try assumption.
  destruct (0 <? _)%nat.
  - apply InDialect_insert; try assumption; try discriminate;
      try reflexivity.
    intros _. constructor. apply Forall_forall. intros r Hr.
    apply list_elem_of_In, filter_In in Hr. destruct Hr as [_ Hr].
    destruct (isValidRequired_str _ _ Hr) as [n ->]. constructor.
  - now apply InDialect_delete.
Qed.

(** X1. Whatever tree is given to the cleaner, the tree it returns is in
    the dialect of the target: at every object that the cleaner walks
    through, no excluded key is left, [format] is one of [date-time],
    [date], [time], [additionalProperties] is a boolean, and [type] is no
    array and, when a string, in upper case.  This holds for the recursive
    [cleanSchemaValue] and for the result of [cleanJSONSchema], which is
    never nil for a schema that is not nil. *)
Theorem X1_cleaned_schema_in_dialect :
  (forall value, InDialect (cleanSchemaValue value)) /\
  (forall schema,
      exists result,
        cleanJSONSchema (Some schema) = Some result /\
        InDialect (JObj result)).
Proof.
  split; [exact cleanSchemaValue_in_dialect|].
  intros schema. rewrite cleanJSONSchema_some. eexists. split; [reflexivity|].
  apply InDialect_postPass. rewrite <- cleanSchemaValue_obj.
  apply cleanSchemaValue_in_dialect.
Qed.

(** ** What the top level of a cleaned schema holds *)

Lemma postPass_lookup_other (m : gmap string json) (k : string) :
  k <> "type" -> k <> "properties" -> k <> "required" ->
  postPass m !! k = m !! k.
Proof.
  intros H1 H2 H3. unfold postPass.
  rewrite repairRequired_lookup_ne, ensureProperties_lookup_ne by assumption.
  unfold ensureType. destruct (m !! "type"); [reflexivity|].
  now rewrite lookup_insert_ne.
Qed.

Lemma repairRequired_lookup_required (m : gmap string json) :
  is_Some (repairRequired m !! "required") -> is_Some (m !! "required").
Proof.
  unfold repairRequired.
  destruct (m !! "required") as [[| | | | required |]|] eqn:Hreq;
    try (intros _; now eauto); try (now rewrite Hreq).
Qed.

(** X2. For every schema that is not nil, the cleaned schema has a [type]
    and a [properties] entry, which are ["OBJECT"] and the empty object
    when the schema had none; it has no key that the schema did not have,
    apart from these two; and a key that the cleaner knows nothing about
    keeps its value, cleaned recursively. *)
Theorem X2_cleanJSONSchema_top_level (schema : gmap string json) :
  exists result,
    cleanJSONSchema (Some schema) = Some result /\
    is_Some (result !! "type") /\
    is_Some (result !! "properties") /\
    (schema !! "type" = None -> result !! "type" = Some (JStr "OBJECT")) /\
    (schema !! "properties" = None -> result !! "properties" = Some (JObj ∅)) /\
    (forall k, is_Some (result !! k) ->
               is_Some (schema !! k) \/ k = "type" \/ k = "properties") /\
    (forall k, isExcluded k = false ->
               k <> "type" -> k <> "format" -> k <> "additionalProperties" ->
               k <> "properties" -> k <> "required" ->
               result !! k = cleanSchemaValue <$> schema !! k).
Proof.
  rewrite cleanJSONSchema_some. eexists. split; [reflexivity|].
  set (c := map_imap (cleanSchemaEntry cleanSchemaValue) schema).
  assert (Hc : forall k, c !! k = schema !! k ≫= cleanSchemaEntry cleanSchemaValue k)
    by (intros k; apply map_lookup_imap).
  split; [|split; [|split; [|split; [|split]]]].
  - unfold postPass.
    rewrite repairRequired_lookup_ne, ensureProperties_lookup_ne by discriminate.
    apply ensureType_present.
  - unfold postPass. rewrite repairRequired_lookup_ne by discriminate.
    apply ensureProperties_present.
  - intros Hnone. unfold postPass.
    rewrite repairRequired_lookup_ne, ensureProperties_lookup_ne by discriminate.
    unfold ensureType. rewrite Hc, Hnone. cbn. apply lookup_insert_eq.
  - intros Hnone. unfold postPass. rewrite repairRequired_lookup_ne by discriminate.
    unfold ensureProperties.
    assert (Hp : ensureType c !! "properties" = None).
    { unfold ensureType. destruct (c !! "type");
        [|rewrite lookup_insert_ne by discriminate]; now rewrite Hc, Hnone. }
    rewrite Hp. apply lookup_insert_eq.
  - intros k Hk.
    destruct (decide (k = "type")) as [->|H1]; [tauto|].
    destruct (decide (k = "properties")) as [->|H2]; [tauto|].
    left. assert (Hck : is_Some (c !! k)).
    { destruct (decide (k = "required")) as [->|H3].
      - unfold postPass in Hk. apply repairRequired_lookup_required in Hk.
        rewrite ensureProperties_lookup_ne in Hk by discriminate.
        unfold ensureType in Hk. destruct (c !! "type");
          [|rewrite lookup_insert_ne in Hk by discriminate]; exact Hk.
      - now rewrite postPass_lookup_other in Hk. }
    rewrite Hc in Hck. destruct (schema !! k); [eauto|].
    destruct Hck as [? Hck]. discriminate.
  - intros k Hex H1 H2 H3 H4 H5.
    rewrite postPass_lookup_other, Hc by assumption.
    destruct (schema !! k) as [v|]; [|reflexivity]. cbn.
    unfold cleanSchemaEntry. rewrite Hex.
    apply String.eqb_neq in H1, H2, H3. now rewrite H1, H2, H3.
Qed.

End SchemaShape.

(* ===================================================================== *)
(** * More about the request transformer *)
(* ===================================================================== *)

Section TransformerMore.
Import GoStrings Schema Transformer.
Local Open Scope list_scope.

(** ** Tools *)

Lemma buildFunctionDecl_declarable (tool : ClaudeTool) :
  isDeclarable tool = true ->
  exists decl,
    buildFunctionDecl tool = Some decl /\
    fd_Name decl = tool_Name tool /\
    exists schema,
      fd_Parameters decl
      = match cleanJSONSchema schema with
        | Some params => params
        | None => <[ "type" := JStr "OBJECT" ]> {[ "properties" := JObj ∅ ]}
        end.
Proof.
  unfold isDeclarable, buildFunctionDecl. intros H.
  apply andb_true_iff in H. destruct H as [Hname Hspec].
  apply negb_true_iff in Hname. rewrite Hname.
  destruct (String.eqb (tool_Type tool) "custom").
  - destruct (tool_Custom tool) as [custom|]; [|discriminate].
    destruct (custom_InputSchema custom) as [inputSchema|]; [|discriminate].
    eexists. split; [reflexivity|]. split; [reflexivity|].
    exists (Some inputSchema). reflexivity.
  - eexists. split; [reflexivity|]. split; [reflexivity|].
    exists (tool_InputSchema tool). reflexivity.
Qed.

Lemma buildFunctionDecl_skipped (tool : ClaudeTool) :
  isDeclarable tool = false -> buildFunctionDecl tool = None.
Proof.
  unfold isDeclarable, buildFunctionDecl. intros H.
  destruct (isBlank (tool_Name tool)); [reflexivity|]. cbn [negb andb] in H.
  destruct (String.eqb (tool_Type tool) "custom"); [|discriminate].
  destruct (tool_Custom tool) as [custom|]; [|reflexivity].
  destruct (custom_InputSchema custom); [discriminate|reflexivity].
Qed.

Lemma buildFunctionDecls_names (tools : list ClaudeTool) :
  map fd_Name (buildFunctionDecls tools)
  = map tool_Name (List.filter isDeclarable tools).
Proof.
  induction tools as [|tool tools IH]; [reflexivity|].
  cbn [buildFunctionDecls List.filter].
  destruct (isDeclarable tool) eqn:Hd.
  - destruct (buildFunctionDecl_declarable tool Hd) as (decl & -> & Hn & _).
    cbn [map]. now rewrite IH, Hn.
  - now rewrite (buildFunctionDecl_skipped tool Hd).
Qed.

Lemma default_parameters_shape :
  let params : gmap string json :=
    <[ "type" := JStr "OBJECT" ]> {[ "properties" := JObj ∅ ]} in
  is_Some (params !! "type") /\ is_Some (params !! "properties") /\
  InDialect (JObj params).
Proof.
  cbn zeta. split; [|split].
  - rewrite lookup_insert_eq. eauto.
  - rewrite lookup_insert_ne, lookup_singleton_eq by discriminate. eauto.
  - apply InDialect_insert; try discriminate; try reflexivity.
    + apply InDialect_insert; try discriminate; try reflexivity.
      * constructor; intros; rewrite lookup_empty in *;
          try discriminate; reflexivity.
      * intros _. constructor; intros; rewrite lookup_empty in *;
          try discriminate; reflexivity.
    + intros _. split; [discriminate|]. now intros s [= <-].
    + congruence.
Qed.

Lemma cleaned_parameters_shape (schema : gmap string json) (params : gmap string json) :
  cleanJSONSchema (Some schema) = Some params ->
  is_Some (params !! "type") /\ is_Some (params !! "properties") /\
  InDialect (JObj params).
Proof.
  rewrite cleanJSONSchema_some. intros [= <-]. split; [|split].
  - unfold postPass.
    rewrite repairRequired_lookup_ne, ensureProperties_lookup_ne by discriminate.
    apply ensureType_present.
  - unfold postPass. rewrite repairRequired_lookup_ne by discriminate.
    apply ensureProperties_present.
  - apply InDialect_postPass. rewrite <- cleanSchemaValue_obj.
    apply cleanSchemaValue_in_dialect.
Qed.

Lemma buildFunctionDecl_shape (tool : ClaudeTool) (decl : GeminiFunctionDecl) :
  buildFunctionDecl tool = Some decl ->
  isBlank (fd_Name decl) = false /\
  is_Some (fd_Parameters decl !! "type") /\
  is_Some (fd_Parameters decl !! "properties") /\
  InDialect (JObj (fd_Parameters decl)).
Proof.
  intros Hdecl. destruct (isDeclarable tool) eqn:Hd.
  - destruct (buildFunctionDecl_declarable tool Hd)
      as (decl' & Hdecl' & Hn & schema & Hp).
    rewrite Hdecl in Hdecl'. injection Hdecl' as <-.
    split.
    { rewrite Hn. unfold isDeclarable in Hd. apply andb_true_iff in Hd.
      now apply negb_true_iff, Hd. }
    rewrite Hp. destruct schema as [schema|].
    + destruct (cleanJSONSchema (Some schema)) as [params|] eqn:Hc.
      * now apply (cleaned_parameters_shape schema).
      * apply default_parameters_shape.
    + apply default_parameters_shape.
  - now rewrite (buildFunctionDecl_skipped tool Hd) in Hdecl.
Qed.

Lemma buildFunctionDecls_In (tools : list ClaudeTool) (decl : GeminiFunctionDecl) :
  In decl (buildFunctionDecls tools) ->
  exists tool, In tool tools /\ buildFunctionDecl tool = Some decl.
Proof.
  induction tools as [|tool tools IH]; [intros []|].
  cbn [buildFunctionDecls].
  destruct (buildFunctionDecl tool) as [d|] eqn:Hd.
  - intros [<-|Hin].
    + exists tool. split; [now left|assumption].
    + destruct (IH Hin) as (t & Ht & Hdt). exists t. split; [now right|assumption].
  - intros Hin. destruct (IH Hin) as (t & Ht & Hdt).
    exists t. split; [now right|assumption].
Qed.

(** X3. [buildTools] returns at most one tool declaration. If a tool is
    named [web_search], it is the native search declaration alone and no
    function is declared, whatever other tools there are.  Otherwise the
    declaration, if any, has no search entry and declares, in the order of
    the request, exactly the tools that have a name and, as custom tools,
    a spec with an input schema; and there is no declaration at all when no
    tool is left. *)
Theorem X3_buildTools_declarations (tools : list ClaudeTool) :
  (length (buildTools tools) <= 1)%nat /\
  (hasWebSearch tools = true -> buildTools tools = [googleSearchDeclaration]) /\
  (hasWebSearch tools = false ->
   match List.filter isDeclarable tools with
   | [] => buildTools tools = []
   | declared =>
       exists funcDecls,
         buildTools tools
         = [ {| td_FunctionDeclarations := funcDecls;
                td_GoogleSearch := None |} ] /\
         map fd_Name funcDecls = map tool_Name declared
   end).
Proof.
  assert (Hweb : hasWebSearch tools = true ->
                 buildTools tools = [googleSearchDeclaration]).
  { intros H. unfold buildTools. rewrite H.
    destruct tools; [discriminate|reflexivity]. }
  assert (Hplain : hasWebSearch tools = false ->
                   buildTools tools
                   = match buildFunctionDecls tools with
                     | [] => []
                     | funcDecls =>
                         [ {| td_FunctionDeclarations := funcDecls;
                              td_GoogleSearch := None |} ]
                     end).
  { intros H. unfold buildTools. rewrite H. destruct tools; reflexivity. }
  split; [|split].
  - destruct (hasWebSearch tools) eqn:H.
    + rewrite Hweb by reflexivity. cbn. lia.
    + rewrite Hplain by reflexivity.
      destruct (buildFunctionDecls tools); cbn; lia.
  - exact Hweb.
  - intros H. rewrite (Hplain H).
    pose proof (buildFunctionDecls_names tools) as Hnames.
    destruct (List.filter isDeclarable tools) as [|t declared].
    + destruct (buildFunctionDecls tools); [reflexivity|discriminate].
    + destruct (buildFunctionDecls tools) as [|d funcDecls] eqn:Hdecls;
        [discriminate|].
      exists (d :: funcDecls). split; [reflexivity|assumption].
Qed.

(** X4. Every function that [buildTools] declares has a name that is not
    blank and a parameter schema with a [type] and a [properties] entry
    that is in the dialect of the target, also when the tool came without
    any input schema. *)
Theorem X4_declared_functions_well_formed
  (tools : list ClaudeTool) (declaration : GeminiToolDeclaration)
  (decl : GeminiFunctionDecl) :
  In declaration (buildTools tools) ->
  In decl (td_FunctionDeclarations declaration) ->
  isBlank (fd_Name decl) = false /\
  is_Some (fd_Parameters decl !! "type") /\
  is_Some (fd_Parameters decl !! "properties") /\
  InDialect (JObj (fd_Parameters decl)).
Proof.
  intros Hdeclaration Hdecl.
  assert (Hin : In decl (buildFunctionDecls tools)).
  { unfold buildTools in Hdeclaration.
    destruct tools as [|t tools]; [destruct Hdeclaration|].
    destruct (hasWebSearch (t :: tools)).
    - destruct Hdeclaration as [<-|[]]. destruct Hdecl.
    - destruct (buildFunctionDecls (t :: tools)) as [|d ds];
        [destruct Hdeclaration|].
      destruct Hdeclaration as [<-|[]]. exact Hdecl. }
  destruct (buildFunctionDecls_In tools decl Hin) as (tool & _ & Htool).
  exact (buildFunctionDecl_shape tool decl Htool).
Qed.

(** ** Tool results *)

Lemma noOutputText_not_blank (isError : bool) :
  isBlank (noOutputText isError) = false.
Proof. destruct isError; reflexivity. Qed.

(** X5. The result text of a [tool_result] is never blank when the content
    is absent, a string, or an array of objects: what is absent or reduces
    to white space is replaced by the fixed sentence for success or, with
    the error flag, for failure.  Only a content of another JSON kind is
    passed on as it is. *)
Theorem X5_tool_result_text_not_blank
  (content : ToolResultContent) (isError : bool) :
  match content with
  | ResultRaw raw => parseToolResultContent content isError = raw
  | _ => isBlank (parseToolResultContent content isError) = false
  end.
Proof.
  destruct content as [| str | arr | raw]; cbn [parseToolResultContent].
  - apply noOutputText_not_blank.
  - destruct (isBlank str) eqn:Hs; [apply noOutputText_not_blank|assumption].
  - destruct (isBlank (Join (itemTexts arr) newline)) eqn:Hs;
      [apply noOutputText_not_blank|assumption].
  - reflexivity.
Qed.

(** ** The map of tool names *)

Lemma buildBlock_toolmap (allow : bool) (block : ContentBlock)
  (tm : ToolIdentityMap) :
  snd (buildBlock allow block tm) = recordToolUse tm block.
Proof.
  unfold buildBlock, recordToolUse.
  destruct (String.eqb_spec (cb_Type block) "text") as [Ht|_].
  { rewrite Ht. cbn. destruct (_ && _); reflexivity. }
  destruct (String.eqb_spec (cb_Type block) "thinking") as [Ht|_].
  { rewrite Ht. cbn.
    destruct (negb (String.eqb (cb_Signature block) "")); [reflexivity|].
    destruct (negb allow); reflexivity. }
  destruct (String.eqb_spec (cb_Type block) "image") as [Ht|_].
  { rewrite Ht. cbn. destruct (cb_Source block) as [source|]; [|reflexivity].
    destruct (String.eqb (src_Type source) "base64"); reflexivity. }
  destruct (String.eqb (cb_Type block) "tool_use") eqn:Huse.
  { cbn [snd andb]. reflexivity. }
  cbn [andb].
  destruct (String.eqb (cb_Type block) "tool_result"); reflexivity.
Qed.

Lemma buildBlocks_toolmap (allow : bool) (blocks : list ContentBlock) :
  forall tm : ToolIdentityMap,
    snd (buildBlocks allow blocks tm) = fold_left recordToolUse blocks tm.
Proof.
  induction blocks as [|b blocks IH]; intros tm; [reflexivity|].
  cbn [buildBlocks fold_left].
  pose proof (buildBlock_toolmap allow b tm) as Hb.
  destruct (buildBlock allow b tm) as [[p0 s0] t0]. cbn [snd] in Hb. subst t0.
  specialize (IH (recordToolUse tm b)).
  destruct (buildBlocks allow blocks (recordToolUse tm b)) as [[p1 s1] t1].
  exact IH.
Qed.

Lemma buildContentsFrom_toolmap (think allow : bool) (n : nat)
  (messages : list ClaudeMessage) :
  forall (i : nat) (tm : ToolIdentityMap) contents stripped tm',
    buildContentsFrom think allow n i messages tm = Ok (contents, stripped, tm') ->
    tm' = fold_left recordMessage messages tm.
Proof.
  induction messages as [|m rest IH]; intros i tm contents stripped tm'.
  - cbn [buildContentsFrom fold_left]. now intros [= _ _ <-].
  - rewrite buildContentsFrom_cons. cbn [fold_left].
    destruct (buildParts (msg_Content m) tm allow) as [[[ps sm] t0]|e] eqn:Hm;
      [|discriminate].
    destruct (buildContentsFrom think allow n (S i) rest t0)
      as [[[c s] t1]|e] eqn:Hrest; [|discriminate].
    intros [= _ _ <-]. rewrite (IH _ _ _ _ _ Hrest). f_equal.
    unfold recordMessage. unfold buildParts in Hm.
    destruct (msg_Content m) as [text | blocks |].
    + destruct (_ && _); now injection Hm as _ _ <-.
    + pose proof (buildBlocks_toolmap allow blocks tm) as Hb.
      injection Hm as Hm. rewrite Hm in Hb. exact Hb.
    + discriminate.
Qed.

Lemma fold_recordToolUse_keeps (id name : string) (blocks : list ContentBlock) :
  forallb (fun b => negb (recordsID id b)) blocks = true ->
  forall tm : ToolIdentityMap,
    tm !! id = Some name ->
    fold_left recordToolUse blocks tm !! id = Some name.
Proof.
  induction blocks as [|b blocks IH]; intros Hall tm Htm; [exact Htm|].
  cbn [forallb fold_left] in *. apply andb_true_iff in Hall.
  destruct Hall as [Hb Hall]. apply IH; [assumption|].
  unfold recordToolUse. unfold recordsID in Hb.
  destruct (String.eqb (cb_Type b) "tool_use" && negb (String.eqb (cb_ID b) "")
            && negb (String.eqb (cb_Name b) "")); [|assumption].
  cbn [andb negb] in Hb. apply negb_true_iff, String.eqb_neq in Hb.
  now rewrite lookup_insert_ne.
Qed.

(** X6. The names of tool calls are kept in one map for the whole request.
    After the message loop the map is the given one with the id and name
    of every [tool_use] block (with an id and a name) stored in the order
    of the conversation, whatever the thinking policy.  A [tool_result]
    without a name of its own answers under the name stored for its id, or
    under the id itself when none is stored, and leaves the map alone.
    And the name that a [tool_use] stores is still found after any blocks
    that store nothing for the same id. *)
Theorem X6_tool_names_resolve :
  (forall (think allow : bool) messages tm contents stripped tm',
      buildContents messages tm think allow = Ok (contents, stripped, tm') ->
      tm' = fold_left recordMessage messages tm) /\
  (forall (allow : bool) block (tm : ToolIdentityMap),
      cb_Type block = "tool_result" ->
      cb_Name block = "" ->
      buildBlock allow block tm
      = ([functionResponsePart
            (default (cb_ToolUseID block) (tm !! cb_ToolUseID block))
            (parseToolResultContent (cb_Content block) (cb_IsError block))
            (cb_ToolUseID block)],
         false, tm)) /\
  (forall (tm : ToolIdentityMap) use later,
      cb_Type use = "tool_use" ->
      cb_ID use <> "" ->
      cb_Name use <> "" ->
      forallb (fun b => negb (recordsID (cb_ID use) b)) later = true ->
      fold_left recordToolUse (use :: later) tm !! cb_ID use
      = Some (cb_Name use)).
Proof.
  split; [|split].
  - intros think allow messages tm contents stripped tm'.
    unfold buildContents. apply buildContentsFrom_toolmap.
  - intros allow block tm Htype Hname. unfold buildBlock.
    rewrite Htype, Hname. cbn [String.eqb Ascii.eqb Bool.eqb].
    unfold functionResponsePart.
    destruct (tm !! cb_ToolUseID block); reflexivity.
  - intros tm use later Htype Hid Hname Hlater. cbn [fold_left].
    apply fold_recordToolUse_keeps; [assumption|].
    unfold recordToolUse. rewrite Htype.
    apply String.eqb_neq in Hid, Hname. rewrite Hid, Hname.
    apply lookup_insert_eq.
Qed.

(** ** Thought parts and their signatures *)

Lemma buildBlock_thought_signed (allow : bool) (block : ContentBlock)
  (tm : ToolIdentityMap) (part : GeminiPart) :
  In part (fst (fst (buildBlock allow block tm))) ->
  part_Thought part = true ->
  cb_Type block = "thinking" /\
  part_Text part = cb_Thinking block /\
  part_ThoughtSignature part <> "" /\
  (cb_Signature block <> "" -> part_ThoughtSignature part = cb_Signature block) /\
  (cb_Signature block = "" ->
   allow = true /\ part_ThoughtSignature part = dummyThoughtSignature).
Proof.
  unfold buildBlock.
  destruct (String.eqb_spec (cb_Type block) "text") as [Ht|_].
  { destruct (_ && _); cbn; [intros [<-|[]]|intros []]; discriminate. }
  destruct (String.eqb_spec (cb_Type block) "thinking") as [Ht|_].
  { destruct (String.eqb_spec (cb_Signature block) "") as [Hs|Hs];
      cbn [negb].
    - destruct allow; cbn [negb fst].
      + intros [<-|[]] _. cbn. repeat split; try congruence; discriminate.
      + destruct (negb (isBlank (cb_Thinking block)));
          [intros [<-|[]]|intros []]; discriminate.
    - cbn [fst]. intros [<-|[]] _. cbn. repeat split; congruence. }
  destruct (String.eqb_spec (cb_Type block) "image") as [Ht|_].
  { destruct (cb_Source block) as [source|]; [|intros []].
    destruct (String.eqb (src_Type source) "base64");
      [intros [<-|[]]|intros []]; discriminate. }
  destruct (String.eqb (cb_Type block) "tool_use").
  { intros [<-|[]]. discriminate. }
  destruct (String.eqb (cb_Type block) "tool_result").
  { intros [<-|[]]. discriminate. }
  intros [].
Qed.

Lemma buildBlocks_In (allow : bool) (blocks : list ContentBlock) :
  forall (tm : ToolIdentityMap) part,
    In part (fst (fst (buildBlocks allow blocks tm))) ->
    exists block tm0,
      In block blocks /\ In part (fst (fst (buildBlock allow block tm0))).
Proof.
  induction blocks as [|b blocks IH]; intros tm part; [intros []|].
  cbn [buildBlocks].
  destruct (buildBlock allow b tm) as [[p0 s0] t0] eqn:Hb.
  destruct (buildBlocks allow blocks t0) as [[p1 s1] t1] eqn:Hrest.
  cbn [fst]. intros Hin. apply in_app_or in Hin. destruct Hin as [Hin|Hin].
  - exists b, tm. split; [now left|]. now rewrite Hb.
  - destruct (IH t0 part) as (block & tm0 & Hblock & Hpart);
      [now rewrite Hrest|].
    exists block, tm0. split; [now right|assumption].
Qed.

Lemma buildParts_thought_signed (allow : bool) (content : MessageContent)
  (tm : ToolIdentityMap) parts stripped tm' (part : GeminiPart) :
  buildParts content tm allow = Ok (parts, stripped, tm') ->
  In part parts ->
  part_Thought part = true ->
  part_ThoughtSignature part <> "" /\
  (allow = false ->
   exists blocks block,
     content = ContentBlocks blocks /\ In block blocks /\
     cb_Type block = "thinking" /\
     part_Text part = cb_Thinking block /\
     part_ThoughtSignature part = cb_Signature block).
Proof.
  destruct content as [text | blocks |]; cbn [buildParts].
  - destruct (_ && _); intros [= <- _ _]; [intros [<-|[]]|intros []];
      discriminate.
  - intros [= Hb] Hin Hthought.
    destruct (buildBlocks_In allow blocks tm part) as (block & tm0 & Hblock & Hpart);
      [now rewrite Hb|].
    destruct (buildBlock_thought_signed allow block tm0 part Hpart Hthought)
      as (Htype & Htext & Hsig & Hown & Hdummy).
    split; [assumption|]. intros ->.
    exists blocks, block. repeat split; try assumption.
    destruct (String.eqb_spec (cb_Signature block) "") as [Hs|Hs].
    + destruct (Hdummy Hs) as [? _]. discriminate.
    + now apply Hown.
  - discriminate.
Qed.

Lemma addDummyThought_In (think allow : bool) (n i : nat) (role : string)
  (parts : list GeminiPart) (part : GeminiPart) :
  In part (addDummyThought think allow n i role parts) ->
  In part parts \/ (allow = true /\ part = dummyThoughtPart).
Proof.
  unfold addDummyThought.
  destruct allow; cbn [andb]; [|now left].
  destruct (String.eqb role "model" && think && (i =? n - 1)%nat); [|now left].
  destruct (negb (hasThoughtPart parts) && (0 <? length parts)%nat);
    [|now left].
  intros [<-|Hin]; [right|left]; auto.
Qed.

Lemma buildContentsFrom_In (think allow : bool) (n : nat)
  (messages : list ClaudeMessage) :
  forall (i : nat) (tm : ToolIdentityMap) contents stripped tm' content,
    buildContentsFrom think allow n i messages tm = Ok (contents, stripped, tm') ->
    In content contents ->
    exists msg tm0 parts stripped0 tm1 j,
      In msg messages /\
      buildParts (msg_Content msg) tm0 allow = Ok (parts, stripped0, tm1) /\
      content_Role content = targetRole (msg_Role msg) /\
      content_Parts content
      = addDummyThought think allow n j (targetRole (msg_Role msg)) parts.
Proof.
  induction messages as [|m rest IH];
    intros i tm contents stripped tm' content.
  - cbn [buildContentsFrom]. intros [= <- _ _] [].
  - rewrite buildContentsFrom_cons.
    destruct (buildParts (msg_Content m) tm allow) as [[[ps sm] t0]|e] eqn:Hm;
      [|discriminate].
    destruct (buildContentsFrom think allow n (S i) rest t0)
      as [[[c s] t1]|e] eqn:Hrest; [|discriminate].
    intros [= <- _ _] Hin. apply in_app_or in Hin. destruct Hin as [Hin|Hin].
    + exists m, tm, ps, sm, t0, i. split; [now left|]. split; [assumption|].
      unfold contentEntry in Hin.
      destruct (addDummyThought think allow n i (targetRole (msg_Role m)) ps)
        eqn:Hadd; [destruct Hin|].
      destruct Hin as [<-|[]]. cbn. split; reflexivity.
    + destruct (IH _ _ _ _ _ _ Hrest Hin)
        as (msg & tm0 & parts & s0 & tm1 & j & Hmsg & Hparts & Hrole & Hcontent).
      exists msg, tm0, parts, s0, tm1, j. split; [now right|]. tauto.
Qed.

(** X7. No thought part leaves the transformer without a signature: in the
    contents built for any conversation, under either policy, a part that
    is flagged as a thought carries a signature that is not empty.  Under
    the genuine-signature policy it is moreover the text and the signature
    of a [thinking] block of the conversation: nothing is made up. *)
Theorem X7_thought_parts_are_signed
  (think allow : bool) (messages : list ClaudeMessage) (tm : ToolIdentityMap)
  contents stripped tm' (content : GeminiContent) (part : GeminiPart) :
  buildContents messages tm think allow = Ok (contents, stripped, tm') ->
  In content contents ->
  In part (content_Parts content) ->
  part_Thought part = true ->
  part_ThoughtSignature part <> "" /\
  (allow = false ->
   exists msg blocks block,
     In msg messages /\ msg_Content msg = ContentBlocks blocks /\
     In block blocks /\ cb_Type block = "thinking" /\
     part_Text part = cb_Thinking block /\
     part_ThoughtSignature part = cb_Signature block).
Proof.
  unfold buildContents. intros Hbuild Hcontent Hpart Hthought.
  destruct (buildContentsFrom_In _ _ _ _ _ _ _ _ _ _ Hbuild Hcontent)
    as (msg & tm0 & parts & s0 & tm1 & j & Hmsg & Hparts & _ & Heq).
  rewrite Heq in Hpart. apply addDummyThought_In in Hpart.
  destruct Hpart as [Hpart | [-> ->]].
  - destruct (buildParts_thought_signed _ _ _ _ _ _ _ Hparts Hpart Hthought)
      as [Hsig Hown].
    split; [assumption|]. intros Hallow.
    destruct (Hown Hallow) as (blocks & block & Hc & Hb & Hrest).
    exists msg, blocks, block. tauto.
  - split; [discriminate|]. discriminate.
Qed.

(** ** Roles and order of the contents *)

Lemma targetRole_not_assistant (role : string) : targetRole role <> "assistant".
Proof.
  unfold targetRole. destruct (String.eqb_spec role "assistant"); [discriminate|].
  assumption.
Qed.

Lemma buildContentsFrom_roles (think allow : bool) (n : nat)
  (messages : list ClaudeMessage) :
  forall (i : nat) (tm : ToolIdentityMap) contents stripped tm',
    buildContentsFrom think allow n i messages tm = Ok (contents, stripped, tm') ->
    sublist (map content_Role contents)
      (map (fun msg => targetRole (msg_Role msg)) messages).
Proof.
  induction messages as [|m rest IH]; intros i tm contents stripped tm'.
  - cbn [buildContentsFrom]. intros [= <- _ _]. constructor.
  - rewrite buildContentsFrom_cons.
    destruct (buildParts (msg_Content m) tm allow) as [[[ps sm] t0]|e];
      [|discriminate].
    destruct (buildContentsFrom think allow n (S i) rest t0)
      as [[[c s] t1]|e] eqn:Hrest; [|discriminate].
    intros [= <- _ _]. specialize (IH _ _ _ _ _ Hrest).
    unfold contentEntry.
    destruct (addDummyThought think allow n i (targetRole (msg_Role m)) ps);
      cbn [app map]; [now apply sublist_cons|now apply sublist_skip].
Qed.

(** X8. The contents follow the conversation: the roles of the entries are
    the roles of the messages in the same order with some messages left
    out, where [assistant] has become [model] and every other role is
    passed on as it is.  So no entry has the role [assistant], and there
    are never more entries than messages. *)
Theorem X8_contents_follow_messages
  (think allow : bool) (messages : list ClaudeMessage) (tm : ToolIdentityMap)
  contents stripped tm' :
  buildContents messages tm think allow = Ok (contents, stripped, tm') ->
  sublist (map content_Role contents)
    (map (fun msg => targetRole (msg_Role msg)) messages) /\
  Forall (fun content => content_Role content <> "assistant") contents /\
  (length contents <= length messages)%nat.
Proof.
  unfold buildContents. intros Hbuild.
  pose proof (buildContentsFrom_roles _ _ _ _ _ _ _ _ _ Hbuild) as Hsub.
  split; [assumption|]. split.
  - apply Forall_forall. intros content Hin. apply list_elem_of_In in Hin.
    destruct (buildContentsFrom_In _ _ _ _ _ _ _ _ _ _ Hbuild Hin)
      as (msg & _ & _ & _ & _ & _ & _ & _ & Hrole & _).
    rewrite Hrole. apply targetRole_not_assistant.
  - apply sublist_length in Hsub. now rewrite !length_map in Hsub.
Qed.

(** ** System instruction *)

Lemma isTextPart_textPart (text : string) : isTextPart (textPart text) = true.
Proof. reflexivity. Qed.

Lemma systemBlockParts_text (sysBlocks : list SystemBlock) :
  forallb (fun part => isTextPart part && negb (isBlank (part_Text part)))
    (systemBlockParts sysBlocks) = true.
Proof.
  induction sysBlocks as [|block rest IH]; [reflexivity|].
  cbn [systemBlockParts].
  destruct (String.eqb (sb_Type block) "text"); cbn [andb]; [|assumption].
  destruct (isBlank (sb_Text block)) eqn:Hb; cbn [negb]; [assumption|].
  cbn [forallb]. rewrite IH, andb_true_r.
  change (isTextPart (textPart (sb_Text block))) with true.
  cbn [andb part_Text textPart]. now rewrite Hb.
Qed.

Lemma systemBlockParts_texts (sysBlocks : list SystemBlock) :
  map part_Text (systemBlockParts sysBlocks)
  = map sb_Text
      (List.filter (fun block => String.eqb (sb_Type block) "text"
                                 && negb (isBlank (sb_Text block)))
         sysBlocks).
Proof.
  induction sysBlocks as [|block rest IH]; [reflexivity|].
  cbn [systemBlockParts List.filter].
  destruct (String.eqb (sb_Type block) "text" && negb (isBlank (sb_Text block)));
    [cbn [map]; now rewrite IH|assumption].
Qed.

(** X12. The system instruction is absent exactly when the identity patch
    is switched off and the system prompt of the caller holds no text that
    is not blank.  Otherwise it has the role [user] and consists of plain
    text parts: first the identity patch when it is switched on (the
    configured text without surrounding white space, or the default text
    when that is empty), then the texts of the caller that are not blank,
    in order; blocks that are not of type [text] are ignored. *)
Theorem X12_system_instruction (system : SystemPrompt) (modelName : string)
  (opts : TransformOptions) :
  let identity :=
    if opt_EnableIdentityPatch opts then
      [textPart (if String.eqb (TrimSpace (opt_IdentityPatch opts)) ""
                 then defaultIdentityPatch modelName
                 else TrimSpace (opt_IdentityPatch opts))]
    else [] in
  forallb (fun part => isTextPart part && negb (isBlank (part_Text part)))
    (callerSystemParts system) = true /\
  (forall sysBlocks,
      system = SystemBlocks sysBlocks ->
      map part_Text (callerSystemParts system)
      = map sb_Text
          (List.filter (fun block => String.eqb (sb_Type block) "text"
                                     && negb (isBlank (sb_Text block)))
             sysBlocks)) /\
  match buildSystemInstruction system modelName opts with
  | Some content =>
      content_Role content = "user" /\
      content_Parts content = identity ++ callerSystemParts system /\
      content_Parts content <> [] /\
      forallb isTextPart (content_Parts content) = true
  | None =>
      opt_EnableIdentityPatch opts = false /\ callerSystemParts system = []
  end.
Proof.
  cbn zeta.
  assert (Hcaller : forallb (fun part => isTextPart part
                                         && negb (isBlank (part_Text part)))
                      (callerSystemParts system) = true).
  { destruct system as [| sysStr | sysBlocks |]; cbn [callerSystemParts];
      try reflexivity.
    - destruct (isBlank sysStr) eqn:Hb; [reflexivity|].
      cbn [negb forallb]. rewrite andb_true_r.
      change (isTextPart (textPart sysStr)) with true.
      cbn [andb part_Text textPart]. now rewrite Hb.
    - apply systemBlockParts_text. }
  split; [assumption|].
  split; [intros sysBlocks ->; apply systemBlockParts_texts|].
  assert (Hparts : buildSystemInstruction system modelName opts
                   = match (if opt_EnableIdentityPatch opts then
                              [textPart (if String.eqb (TrimSpace (opt_IdentityPatch opts)) ""
                                         then defaultIdentityPatch modelName
                                         else TrimSpace (opt_IdentityPatch opts))]
                            else []) ++ callerSystemParts system with
                     | [] => None
                     | parts => Some {| content_Role := "user";
                                        content_Parts := parts |}
                     end).
  { unfold buildSystemInstruction, callerSystemParts.
    destruct (opt_EnableIdentityPatch opts);
      destruct system as [| sysStr | sysBlocks |]; cbn [app];
      try reflexivity;
      [destruct (negb (isBlank sysStr)) | destruct (systemBlockParts sysBlocks)];
      reflexivity. }
  rewrite Hparts.
  assert (Htext : forallb isTextPart (callerSystemParts system) = true).
  { clear Hparts. induction (callerSystemParts system) as [|p ps IH];
      [reflexivity|].
    cbn [forallb] in *. apply andb_true_iff in Hcaller.
    destruct Hcaller as [Hp Hps]. apply andb_true_iff in Hp.
    destruct Hp as [Hp _]. now rewrite Hp, IH. }
  destruct (opt_EnableIdentityPatch opts); cbn [app].
  - split; [reflexivity|]. split; [reflexivity|]. split; [discriminate|].
    cbn [content_Parts forallb]. now rewrite isTextPart_textPart, Htext.
  - destruct (callerSystemParts system) as [|p ps] eqn:Hc.
    + split; reflexivity.
    + split; [reflexivity|]. split; [reflexivity|]. split; [discriminate|].
      assumption.
Qed.

(** ** The message loop: failure and the downgrade flag *)

Lemma buildBlocks_allow_not_stripped (blocks : list ContentBlock) :
  forall tm : ToolIdentityMap,
    snd (fst (buildBlocks true blocks tm)) = false.
Proof.
  induction blocks as [|b blocks IH]; intros tm; [reflexivity|].
  cbn [buildBlocks].
  assert (Hb : snd (fst (buildBlock true b tm)) = false).
  { unfold buildBlock. cbn [negb].
    destruct (String.eqb (cb_Type b) "text"); [destruct (_ && _); reflexivity|].
    destruct (String.eqb (cb_Type b) "thinking");
      [destruct (negb (String.eqb (cb_Signature b) "")); reflexivity|].
    destruct (String.eqb (cb_Type b) "image").
    { destruct (cb_Source b) as [source|]; [|reflexivity].
      destruct (String.eqb (src_Type source) "base64"); reflexivity. }
    destruct (String.eqb (cb_Type b) "tool_use"); [reflexivity|].
    destruct (String.eqb (cb_Type b) "tool_result"); reflexivity. }
  destruct (buildBlock true b tm) as [[p0 s0] t0]. cbn [fst snd] in Hb.
  specialize (IH t0). destruct (buildBlocks true blocks t0) as [[p1 s1] t1].
  cbn [fst snd] in *. now rewrite Hb, IH.
Qed.

Lemma buildContentsFrom_allow_not_stripped (think : bool) (n : nat)
  (messages : list ClaudeMessage) :
  forall (i : nat) (tm : ToolIdentityMap) contents stripped tm',
    buildContentsFrom think true n i messages tm = Ok (contents, stripped, tm') ->
    stripped = false.
Proof.
  induction messages as [|m rest IH]; intros i tm contents stripped tm'.
  - cbn [buildContentsFrom]. now intros [= _ <- _].
  - rewrite buildContentsFrom_cons.
    destruct (buildParts (msg_Content m) tm true) as [[[ps sm] t0]|e] eqn:Hm;
      [|discriminate].
    destruct (buildContentsFrom think true n (S i) rest t0)
      as [[[c s] t1]|e] eqn:Hrest; [|discriminate].
    intros [= _ <- _]. rewrite (IH _ _ _ _ _ Hrest), orb_false_r.
    destruct (msg_Content m) as [text | blocks |]; cbn [buildParts] in Hm.
    + destruct (_ && _); now injection Hm as _ <- _.
    + pose proof (buildBlocks_allow_not_stripped blocks tm) as Hb.
      injection Hm as Hm. now rewrite Hm in Hb.
    + discriminate.
Qed.

Lemma buildContentsFrom_decodable (think allow : bool) (n : nat)
  (messages : list ClaudeMessage) :
  forallb isDecodable messages = true ->
  forall (i : nat) (tm : ToolIdentityMap),
    exists r, buildContentsFrom think allow n i messages tm = Ok r.
Proof.
  induction messages as [|m rest IH]; intros Hall i tm.
  - eexists. reflexivity.
  - cbn [forallb] in Hall. apply andb_true_iff in Hall.
    destruct Hall as [Hm Hrest]. rewrite buildContentsFrom_cons.
    assert (Hparts : exists r, buildParts (msg_Content m) tm allow = Ok r).
    { unfold isDecodable in Hm. unfold buildParts.
      destruct (msg_Content m); [destruct (_ && _)| |discriminate]; eauto. }
    destruct Hparts as [[[ps sm] t0] ->].
    destruct (IH Hrest (S i) t0) as [[[c s] t1] ->]. eauto.
Qed.

Lemma buildContentsFrom_first_undecodable (think allow : bool) (n : nat)
  (pre : list ClaudeMessage) (bad : ClaudeMessage) (post : list ClaudeMessage) :
  forallb isDecodable pre = true ->
  isDecodable bad = false ->
  forall (i : nat) (tm : ToolIdentityMap),
    buildContentsFrom think allow n i (pre ++ bad :: post) tm
    = Err (ErrBuildParts (i + length pre) ErrParseContentBlocks).
Proof.
  intros Hpre Hbad i tm. rewrite buildContentsFrom_app.
  destruct (buildContentsFrom_decodable think allow n pre Hpre i tm)
    as [[[c0 s0] t0] ->].
  cbn [buildContentsFrom]. unfold isDecodable in Hbad.
  destruct (msg_Content bad); try discriminate. reflexivity.
Qed.

Section WithConstants.
Variable SafetySetting : Type.
Variable DefaultStopSequences : list string.
Variable DefaultSafetySettings : list SafetySetting.

Abbreviation Transform' :=
  (TransformClaudeToGeminiWithOptions SafetySetting DefaultStopSequences
     DefaultSafetySettings).

(** X9. The transformation fails exactly when the content of some message
    is neither a string nor an array of content blocks: if every message
    is decodable a request is returned, and otherwise the error names the
    position of the first message that is not. *)
Theorem X9_transform_fails_at_first_undecodable
  (claudeReq : ClaudeRequest) (projectID mappedModel : string)
  (opts : TransformOptions) :
  (forallb isDecodable (req_Messages claudeReq) = true ->
   exists out, Transform' claudeReq projectID mappedModel opts = Ok out) /\
  (forall pre bad post,
      req_Messages claudeReq = pre ++ bad :: post ->
      forallb isDecodable pre = true ->
      isDecodable bad = false ->
      Transform' claudeReq projectID mappedModel opts
      = Err (ErrBuildContents
               (ErrBuildParts (length pre) ErrParseContentBlocks))).
Proof.
  split.
  - intros Hall. unfold TransformClaudeToGeminiWithOptions, buildContents.
    destruct (buildContentsFrom_decodable (isThinkingEnabled claudeReq)
                (HasPrefix mappedModel "gemini-")
                (length (req_Messages claudeReq)) _ Hall 0 ∅)
      as [[[c s] t] ->].
    eauto.
  - intros pre bad post Hsplit Hpre Hbad.
    unfold TransformClaudeToGeminiWithOptions, buildContents.
    rewrite Hsplit at 2.
    now rewrite (buildContentsFrom_first_undecodable _ _ _ pre bad post Hpre Hbad).
Qed.

(** X10. The thinking config of the request that is sent: there is none
    when thinking is not enabled in the source request; under the
    synthetic-signature policy no thinking block is ever downgraded, so
    a [gemini-] model with thinking enabled always gets a thinking config
    with [includeThoughts]; and under the genuine-signature policy there
    is a thinking config exactly when thinking is enabled and the message
    loop downgraded nothing. *)
Theorem X10_thinking_config_policy
  (claudeReq : ClaudeRequest) (projectID mappedModel : string)
  (opts : TransformOptions) (out : V1InternalRequest SafetySetting) :
  Transform' claudeReq projectID mappedModel opts = Ok out ->
  exists config stripped contents tm',
    greq_GenerationConfig (v1_Request out) = Some config /\
    buildContents (req_Messages claudeReq) ∅ (isThinkingEnabled claudeReq)
      (HasPrefix mappedModel "gemini-") = Ok (contents, stripped, tm') /\
    (HasPrefix mappedModel "gemini-" = true -> stripped = false) /\
    (isThinkingEnabled claudeReq && negb stripped = false ->
     gc_ThinkingConfig config = None) /\
    (isThinkingEnabled claudeReq && negb stripped = true ->
     exists thinkingConfig,
       gc_ThinkingConfig config = Some thinkingConfig /\
       tc_IncludeThoughts thinkingConfig = true).
Proof.
  intros Hout.
  destruct (Transform_contents _ _ _ _ _ _ _ _ Hout)
    as (stripped & tm' & Hc & Hg).
  eexists _, stripped, _, tm'. split; [exact Hg|]. split; [exact Hc|].
  split; [|split].
  - intros Hallow. rewrite Hallow in Hc. unfold buildContents in Hc.
    exact (buildContentsFrom_allow_not_stripped _ _ _ _ _ _ _ _ Hc).
  - unfold isThinkingEnabled, buildGenerationConfig.
    destruct stripped; [reflexivity|]. cbn [negb]. rewrite andb_true_r.
    destruct (req_Thinking claudeReq) as [thinking|]; [|reflexivity].
    intros ->. reflexivity.
  - unfold isThinkingEnabled, buildGenerationConfig.
    destruct stripped; [now rewrite andb_false_r|]. rewrite andb_true_r.
    destruct (req_Thinking claudeReq) as [thinking|]; [|discriminate].
    intros ->. eexists. split; reflexivity.
Qed.

(** X11. The budget that [buildGenerationConfig] emits is never negative
    and never more than what was asked for; it is at most 24576 when the
    model name of the request contains [gemini-2.5-flash]; and a budget
    that is not positive is left out (zero).  The other fields do not
    depend on the thinking settings: the output limit is 64000 and
    temperature, top-p and top-k are those of the request. *)
Theorem X11_generation_config_bounds (req : ClaudeRequest) :
  let config := buildGenerationConfig DefaultStopSequences req in
  gc_MaxOutputTokens config = 64000%Z /\
  gc_StopSequences config = DefaultStopSequences /\
  gc_Temperature config = req_Temperature req /\
  gc_TopP config = req_TopP req /\
  gc_TopK config = req_TopK req /\
  (forall thinkingConfig,
      gc_ThinkingConfig config = Some thinkingConfig ->
      exists thinking,
        req_Thinking req = Some thinking /\
        th_Type thinking = "enabled" /\
        tc_IncludeThoughts thinkingConfig = true /\
        (0 <= tc_ThinkingBudget thinkingConfig)%Z /\
        (tc_ThinkingBudget thinkingConfig <= Z.max 0 (th_BudgetTokens thinking))%Z /\
        (Contains (req_Model req) "gemini-2.5-flash" = true ->
         tc_ThinkingBudget thinkingConfig <= 24576)%Z /\
        ((th_BudgetTokens thinking <= 24576)%Z ->
         tc_ThinkingBudget thinkingConfig = Z.max 0 (th_BudgetTokens thinking))).
Proof.
  cbn zeta. repeat (split; [reflexivity|]).
  intros thinkingConfig. unfold buildGenerationConfig.
  cbn [gc_ThinkingConfig].
  destruct (req_Thinking req) as [thinking|]; [|discriminate].
  destruct (String.eqb_spec (th_Type thinking) "enabled") as [Ht|]; [|discriminate].
  intros [= <-]. exists thinking. split; [reflexivity|]. split; [assumption|].
  cbn [tc_IncludeThoughts tc_ThinkingBudget]. split; [reflexivity|].
  destruct (Z.ltb_spec 0 (th_BudgetTokens thinking)) as [Hpos|Hneg].
  - destruct (Contains (req_Model req) "gemini-2.5-flash");
      destruct (Z.ltb_spec 24576 (th_BudgetTokens thinking)); cbn [andb];
      repeat split; intros; try lia; try discriminate.
  - repeat split; intros; lia.
Qed.

End WithConstants.

End TransformerMore.

(* ===================================================================== *)
(** * The statements above at concrete inputs *)
(* ===================================================================== *)

Section TransformerMoreSamples.
Import GoStrings Schema Transformer.
Local Open Scope list_scope.

Lemma X2_cleanJSONSchema_top_level_witness :
  exists result,
    cleanJSONSchema (Some titledSchema) = Some result /\
    result !! "type" = Some (JStr "OBJECT") /\
    result !! "properties" = Some (JObj ∅) /\
    result !! "title" = Some (JStr "x").
Proof.
  destruct (X2_cleanJSONSchema_top_level titledSchema)
    as (result & Hc & _ & _ & Htype & Hprops & _ & Hother).
  exists result. split; [exact Hc|].
  split; [apply Htype; reflexivity|].
  split; [apply Hprops; reflexivity|].
  rewrite Hother by (try reflexivity; discriminate). reflexivity.
Defined.

Lemma X3_buildTools_declarations_witness :
  buildTools [plainTool "ls" "list files"; plainTool "web_search" ""]
  = [googleSearchDeclaration] /\
  exists funcDecls,
    buildTools [plainTool "ls" "list files"; plainTool " " "";
                brokenCustomTool "mcp"]
    = [ {| td_FunctionDeclarations := funcDecls; td_GoogleSearch := None |} ] /\
    map fd_Name funcDecls = ["ls"].
Proof.
  split.
  - apply (proj1 (proj2 (X3_buildTools_declarations
                           [plainTool "ls" "list files";
                            plainTool "web_search" ""]))).
    reflexivity.
  - exact (proj2 (proj2 (X3_buildTools_declarations
                           [plainTool "ls" "list files"; plainTool " " "";
                            brokenCustomTool "mcp"])) eq_refl).
Defined.

Lemma X4_declared_functions_witness :
  isBlank (fd_Name listFilesDecl) = false /\
  is_Some (fd_Parameters listFilesDecl !! "type") /\
  is_Some (fd_Parameters listFilesDecl !! "properties") /\
  InDialect (JObj (fd_Parameters listFilesDecl)).
Proof.
  apply (X4_declared_functions_well_formed
           [plainTool "ls" "list files"; brokenCustomTool "mcp"]
           listFilesDeclaration listFilesDecl).
  - assert (H : buildTools [plainTool "ls" "list files"; brokenCustomTool "mcp"]
                = [listFilesDeclaration]) by (vm_compute; reflexivity).
    rewrite H. left. reflexivity.
  - left. reflexivity.
Defined.

Lemma X6_tool_names_resolve_witness :
  ({[ "t1" := "ls" ]} : gmap string string)
  = fold_left recordMessage
      [assistantBlocks [toolUseBlock "t1" "ls"];
       userBlocks [toolResultBlock "t1"]] ∅ /\
  buildBlock false (toolResultBlock "t1") {[ "t1" := "ls" ]}
  = ([functionResponsePart "ls" "Command executed successfully." "t1"],
     false, {[ "t1" := "ls" ]}) /\
  fold_left recordToolUse
    [toolUseBlock "t1" "ls"; textBlock "x"; toolUseBlock "t2" "cat"] ∅
  !! "t1" = Some "ls".
Proof.
  destruct X6_tool_names_resolve as (Hloop & Hresult & Hkeep).
  split; [|split].
  - apply (Hloop false false
             [assistantBlocks [toolUseBlock "t1" "ls"];
              userBlocks [toolResultBlock "t1"]] ∅
             [ {| content_Role := "model";
                  content_Parts :=
                    [ {| part_Text := ""; part_Thought := false;
                         part_ThoughtSignature := "";
                         part_InlineData := None;
                         part_FunctionCall :=
                           Some {| fc_Name := "ls"; fc_Args := JNull;
                                   fc_ID := "t1" |};
                         part_FunctionResponse := None |} ] |};
               {| content_Role := "user";
                  content_Parts :=
                    [functionResponsePart "ls"
                       "Command executed successfully." "t1"] |} ]
             false).
    vm_compute. reflexivity.
  - exact (Hresult false (toolResultBlock "t1") {[ "t1" := "ls" ]}
             eq_refl eq_refl).
  - apply (Hkeep ∅ (toolUseBlock "t1" "ls")
             [textBlock "x"; toolUseBlock "t2" "cat"]);
      try reflexivity; discriminate.
Defined.

Lemma X7_thought_parts_are_signed_witness :
  "sig-1" <> "" /\
  (false = false ->
   exists msg blocks block,
     In msg [userSays "hi"; assistantBlocks [signedThinking "hmm" "sig-1"]] /\
     msg_Content msg = ContentBlocks blocks /\
     In block blocks /\ cb_Type block = "thinking" /\
     "hmm" = cb_Thinking block /\ "sig-1" = cb_Signature block).
Proof.
  apply (X7_thought_parts_are_signed true false
           [userSays "hi"; assistantBlocks [signedThinking "hmm" "sig-1"]] ∅
           [ {| content_Role := "user"; content_Parts := [textPart "hi"] |};
             {| content_Role := "model";
                content_Parts := [signedThoughtPart "hmm" "sig-1"] |} ]
           false ∅
           {| content_Role := "model";
              content_Parts := [signedThoughtPart "hmm" "sig-1"] |}
           (signedThoughtPart "hmm" "sig-1")).
  - vm_compute. reflexivity.
  - right. left. reflexivity.
  - left. reflexivity.
  - reflexivity.
Defined.

Lemma X8_contents_follow_messages_witness :
  sublist ["user"; "model"] ["user"; "model"; "model"] /\
  Forall (fun content => content_Role content <> "assistant")
    [ {| content_Role := "user"; content_Parts := [textPart "hi"] |};
      {| content_Role := "model"; content_Parts := [textPart "ok"] |} ] /\
  (2 <= 3)%nat.
Proof.
  apply (X8_contents_follow_messages false true
           [userSays "hi"; assistantSays "(no content)"; assistantSays "ok"] ∅
           [ {| content_Role := "user"; content_Parts := [textPart "hi"] |};
             {| content_Role := "model"; content_Parts := [textPart "ok"] |} ]
           false ∅).
  vm_compute. reflexivity.
Defined.

Lemma X9_transform_fails_witness :
  (exists out,
      TransformClaudeToGeminiWithOptions unit [] []
        (thinkingRequest "gemini-3-flash" [userSays "hi"] 0)
        "project" "gemini-3-flash" DefaultTransformOptions = Ok out) /\
  TransformClaudeToGeminiWithOptions unit [] []
    (thinkingRequest "gemini-3-flash"
       [userSays "hi"; undecodableMessage; userSays "more"] 0)
    "project" "gemini-3-flash" DefaultTransformOptions
  = Err (ErrBuildContents (ErrBuildParts 1 ErrParseContentBlocks)).
Proof.
  split.
  - apply (proj1 (X9_transform_fails_at_first_undecodable unit [] []
                    (thinkingRequest "gemini-3-flash" [userSays "hi"] 0)
                    "project" "gemini-3-flash" DefaultTransformOptions)).
    reflexivity.
  - apply (proj2 (X9_transform_fails_at_first_undecodable unit [] []
                    (thinkingRequest "gemini-3-flash"
                       [userSays "hi"; undecodableMessage; userSays "more"] 0)
                    "project" "gemini-3-flash" DefaultTransformOptions)
             [userSays "hi"] undecodableMessage [userSays "more"]);
      reflexivity.
Defined.

Lemma X10_thinking_config_policy_witness :
  exists out config thinkingConfig,
    TransformClaudeToGeminiWithOptions unit [] []
      (thinkingRequest "claude-opus-4"
         [userSays "hi"; assistantBlocks [unsignedThinking "hmm"]] 2048)
      "project" "gemini-3-flash" DefaultTransformOptions = Ok out /\
    greq_GenerationConfig (v1_Request out) = Some config /\
    gc_ThinkingConfig config = Some thinkingConfig /\
    tc_IncludeThoughts thinkingConfig = true.
Proof.
  destruct (TransformClaudeToGeminiWithOptions unit [] []
              (thinkingRequest "claude-opus-4"
                 [userSays "hi"; assistantBlocks [unsignedThinking "hmm"]] 2048)
              "project" "gemini-3-flash" DefaultTransformOptions)
    as [out|e] eqn:Hout; [|vm_compute in Hout; discriminate Hout].
  destruct (X10_thinking_config_policy unit [] []
              (thinkingRequest "claude-opus-4"
                 [userSays "hi"; assistantBlocks [unsignedThinking "hmm"]] 2048)
              "project" "gemini-3-flash" DefaultTransformOptions out Hout)
    as (config & stripped & contents & tm' & Hg & _ & Hallow & _ & Hsome).
  rewrite (Hallow eq_refl) in Hsome.
  destruct (Hsome eq_refl) as (thinkingConfig & Ht & Hi).
  exists out, config, thinkingConfig. tauto.
Defined.

Lemma X11_generation_config_bounds_witness :
  exists thinkingConfig,
    gc_ThinkingConfig
      (buildGenerationConfig []
         (thinkingRequest "models/gemini-2.5-flash-lite" [] 30000))
    = Some thinkingConfig /\
    (tc_ThinkingBudget thinkingConfig <= 24576)%Z.
Proof.
  eexists. split; [reflexivity|].
  destruct (proj2 (proj2 (proj2 (proj2 (proj2
              (X11_generation_config_bounds []
                 (thinkingRequest "models/gemini-2.5-flash-lite" [] 30000))))))
              _ eq_refl)
    as (thinking & _ & _ & _ & _ & _ & Hcap & _).
  exact (Hcap eq_refl).
Defined.

Lemma X12_system_instruction_witness :
  map part_Text
    (callerSystemParts
       (SystemBlocks [ {| sb_Type := "text"; sb_Text := "be brief" |};
                       {| sb_Type := "image"; sb_Text := "x" |};
                       {| sb_Type := "text"; sb_Text := "  " |} ]))
  = ["be brief"].
Proof.
  exact (proj1 (proj2 (X12_system_instruction
                         (SystemBlocks
                            [ {| sb_Type := "text"; sb_Text := "be brief" |};
                              {| sb_Type := "image"; sb_Text := "x" |};
                              {| sb_Type := "text"; sb_Text := "  " |} ])
                         "claude-sonnet-4-5"
                         {| opt_EnableIdentityPatch := false;
                            opt_IdentityPatch := "" |}))
           _ eq_refl).
Defined.

End TransformerMoreSamples.

(* ===================================================================== *)
(** * Further properties of the gateway *)
(* ===================================================================== *)

Section ModelResolution.
Import GoStrings Schema Transformer Gateway.
Local Open Scope list_scope.

(** ** The two model tables *)

Lemma supported_has_family_prefix (model : string) :
  model ∈ antigravitySupportedModels ->
  HasPrefix model "gemini-" || HasPrefix model "claude-" = true.
Proof.
  unfold antigravitySupportedModels. rewrite elem_of_list_to_set.
  intros Hin. repeat (apply elem_of_cons in Hin; destruct Hin as [->|Hin];
                      [reflexivity|]).
  now apply elem_of_nil in Hin.
Qed.

(** Every entry of the mapping table sends a Claude name to a model that is
    served directly and is not mapped again. *)
Lemma mapping_entry (model mapped : string) :
  antigravityModelMapping !! model = Some mapped ->
  HasPrefix model "claude-" = true /\
  mapped ∈ antigravitySupportedModels /\
  antigravityModelMapping !! mapped = None.
Proof.
  intros Hm. unfold antigravityModelMapping in Hm.
  apply elem_of_list_to_map_2 in Hm.
  repeat (apply elem_of_cons in Hm; destruct Hm as [[= -> ->]|Hm];
   [split; [reflexivity|split; [|vm_compute; reflexivity]];
    unfold antigravitySupportedModels; rewrite elem_of_list_to_set; set_solver|]).
  now apply elem_of_nil in Hm.
Qed.

Lemma default_model_supported :
  "claude-sonnet-4-5" ∈ antigravitySupportedModels.
Proof.
  unfold antigravitySupportedModels. rewrite elem_of_list_to_set. set_solver.
Qed.

Lemma getMappedModel_no_override (account : Account) (model : string) :
  acc_GetMappedModel account model = model ->
  getMappedModel account model =
  match antigravityModelMapping !! model with
  | Some mapped => mapped
  | None =>
      if HasPrefix model "gemini-" then model
      else if bool_decide (model ∈ antigravitySupportedModels) then model
           else "claude-sonnet-4-5"
  end.
Proof.
  intros Hid. unfold getMappedModel. rewrite Hid, String.eqb_refl. reflexivity.
Qed.

(** X13. Model resolution without an account-level override of the name:
    [getMappedModel] returns a model of the supported table or a name with
    the prefix "gemini-", never anything else; [IsModelSupported] accepts
    what it returns; and resolving the returned name again (when the account
    does not override it either) gives the same name. *)
Theorem X13_resolved_model_is_served (account : Account) (requestedModel : string) :
  acc_GetMappedModel account requestedModel = requestedModel ->
  let resolved := getMappedModel account requestedModel in
  (resolved ∈ antigravitySupportedModels \/ HasPrefix resolved "gemini-" = true) /\
  IsModelSupported resolved = true /\
  (acc_GetMappedModel account resolved = resolved ->
   getMappedModel account resolved = resolved).
Proof.
  intros Hid resolved. subst resolved.
  rewrite (getMappedModel_no_override _ _ Hid).
  destruct (antigravityModelMapping !! requestedModel) as [mapped|] eqn:Hmap.
  - destruct (mapping_entry _ _ Hmap) as (_ & Hsup & Hnone).
    split; [now left|]. split.
    + unfold IsModelSupported. now rewrite bool_decide_eq_true_2.
    + intros Hid'. rewrite (getMappedModel_no_override _ _ Hid'), Hnone.
      rewrite (bool_decide_eq_true_2 _ Hsup). now destruct (HasPrefix mapped "gemini-").
  - destruct (HasPrefix requestedModel "gemini-") eqn:Hgem.
    + split; [now right|]. split.
      * unfold IsModelSupported. rewrite Hgem.
        now repeat destruct (bool_decide _).
      * intros _. rewrite (getMappedModel_no_override _ _ Hid), Hmap, Hgem.
        reflexivity.
    + destruct (bool_decide (requestedModel ∈ antigravitySupportedModels))
        eqn:Hsup.
      * split; [left; now apply bool_decide_eq_true_1 in Hsup|]. split.
        -- unfold IsModelSupported. now rewrite Hsup.
        -- intros _. rewrite (getMappedModel_no_override _ _ Hid), Hmap, Hgem, Hsup.
           reflexivity.
      * split; [left; exact default_model_supported|]. split.
        -- unfold IsModelSupported.
           now rewrite (bool_decide_eq_true_2 _ default_model_supported).
        -- intros Hid'. rewrite (getMappedModel_no_override _ _ Hid').
           vm_compute. reflexivity.
Qed.

(** The theorem at an old Claude name that the table maps to a flash model. *)
Lemma X13_resolved_model_witness :
  getMappedModel sampleAccount "claude-haiku-4-5" = "gemini-3-flash" /\
  IsModelSupported (getMappedModel sampleAccount "claude-haiku-4-5") = true /\
  getMappedModel sampleAccount (getMappedModel sampleAccount "claude-haiku-4-5")
  = getMappedModel sampleAccount "claude-haiku-4-5".
Proof.
  destruct (X13_resolved_model_is_served sampleAccount "claude-haiku-4-5" eq_refl)
    as (_ & Hsup & Hidem).
  split; [vm_compute; reflexivity|]. split; [exact Hsup|].
  apply Hidem. reflexivity.
Defined.

(** X14. [IsModelSupported] is a test of the name's family: it accepts
    exactly the names that begin with "gemini-" or "claude-"; the two tables
    it consults first hold only such names. *)
Theorem X14_IsModelSupported_is_prefix_test (requestedModel : string) :
  IsModelSupported requestedModel
  = HasPrefix requestedModel "gemini-" || HasPrefix requestedModel "claude-".
Proof.
  unfold IsModelSupported.
  destruct (bool_decide (requestedModel ∈ antigravitySupportedModels)) eqn:Hsup.
  - apply bool_decide_eq_true_1 in Hsup.
    now rewrite (supported_has_family_prefix _ Hsup).
  - destruct (bool_decide (is_Some (antigravityModelMapping !! requestedModel)))
      eqn:Hmap.
    + apply bool_decide_eq_true_1 in Hmap. destruct Hmap as [mapped Hmap].
      destruct (mapping_entry _ _ Hmap) as (-> & _). now rewrite orb_true_r.
    + destruct (HasPrefix requestedModel "gemini-"); [reflexivity|].
      now destruct (HasPrefix requestedModel "claude-").
Qed.

(** X15. A name that [IsModelSupported] rejects is resolved all the same:
    without an account-level override [getMappedModel] sends it to the
    default model "claude-sonnet-4-5". *)
Theorem X15_unsupported_name_gets_default (account : Account) (requestedModel : string) :
  IsModelSupported requestedModel = false ->
  acc_GetMappedModel account requestedModel = requestedModel ->
  getMappedModel account requestedModel = "claude-sonnet-4-5".
Proof.
  intros Hno Hid. rewrite (getMappedModel_no_override _ _ Hid).
  unfold IsModelSupported in Hno.
  destruct (bool_decide (requestedModel ∈ antigravitySupportedModels));
    [discriminate|].
  destruct (antigravityModelMapping !! requestedModel) as [mapped|] eqn:Hmap.
  - rewrite bool_decide_eq_true_2 in Hno by eauto. discriminate.
  - destruct (HasPrefix requestedModel "gemini-"); [|reflexivity].
    now destruct (bool_decide _).
Qed.

(** The theorem at a name of another vendor. *)
Lemma X15_unsupported_name_witness :
  IsModelSupported "gpt-4o" = false /\
  getMappedModel sampleAccount "gpt-4o" = "claude-sonnet-4-5".
Proof.
  split; [vm_compute; reflexivity|].
  apply X15_unsupported_name_gets_default; vm_compute; reflexivity.
Defined.

End ModelResolution.

Section EngineMore.
Import GoStrings Schema Transformer Gateway.
Local Open Scope list_scope.

Variable SafetySetting : Type.
Variable DefaultStopSequences : list string.
Variable DefaultSafetySettings : list SafetySetting.
Variable BaseURL : string.
Variable estimateGeminiCountTokens : string -> Z.
Variable handleClaudeStreamingResponse :
  Response -> string -> list ClientWrite * (ForwardError + ClaudeUsage * option Z).
Variable handleClaudeNonStreamingResponse :
  Response -> string -> list ClientWrite * (ForwardError + ClaudeUsage).
Variable handleGeminiStreamingResponse :
  Response -> list ClientWrite * (ForwardError + option ClaudeUsage * option Z).
Variable handleGeminiNonStreamingResponse :
  Response -> list ClientWrite * (ForwardError + option ClaudeUsage).
Variable jsonUnmarshal : string -> option json.
Variable jsonMarshal : json -> string.

Abbreviation Fwd' :=
  (Forward SafetySetting DefaultStopSequences DefaultSafetySettings BaseURL
     handleClaudeStreamingResponse handleClaudeNonStreamingResponse).

Abbreviation Ready' :=
  (forwardReady SafetySetting DefaultStopSequences DefaultSafetySettings).

Abbreviation FwdGemini' :=
  (ForwardGemini BaseURL estimateGeminiCountTokens
     handleGeminiStreamingResponse handleGeminiNonStreamingResponse
     jsonUnmarshal jsonMarshal).

(** ** Classification of statuses *)

Lemma retry_implies_failover (statusCode : Z) :
  shouldRetryUpstreamError statusCode = true ->
  shouldFailoverUpstreamError statusCode = true.
Proof.
  unfold shouldRetryUpstreamError, shouldFailoverUpstreamError. intros H.
  repeat (apply orb_true_iff in H; destruct H as [H|H]);
    apply Z.eqb_eq in H; subst statusCode; reflexivity.
Qed.

Lemma retried_reply_status (resp : Response) :
  isRetriedReply (Reply resp) = true ->
  (400 <=? resp_StatusCode resp)%Z = true /\
  shouldFailoverUpstreamError (resp_StatusCode resp) = true.
Proof.
  cbn [isRetriedReply]. intros H. apply andb_true_iff in H.
  destruct H as [Hge Hre]. split; [exact Hge|now apply retry_implies_failover].
Qed.

Lemma status429_retried (resp : Response) :
  (resp_StatusCode resp =? 429)%Z = true -> isRetriedReply (Reply resp) = true.
Proof.
  intros H. apply Z.eqb_eq in H. cbn [isRetriedReply]. now rewrite H.
Qed.

(** ** Counting in traces, continued *)

Lemma retriedUpTo_spec (s : AntigravityGatewayService) (n : nat) :
  retriedUpTo s n = true <->
  forall j, (1 <= j < 1 + n)%nat -> isRetriedReply (httpUpstream s j) = true.
Proof.
  unfold retriedUpTo. rewrite forallb_forall. split.
  - intros H j Hj. apply H, in_seq. lia.
  - intros H j Hj. apply in_seq in Hj. apply H. lia.
Qed.

Lemma afterCalls_app (e1 e2 : list Event) :
  forallb isAfterCalls (e1 ++ e2)
  = forallb isAfterCalls e1 && forallb isAfterCalls e2.
Proof. apply forallb_app. Qed.

Lemma afterCalls_client (written : list ClientWrite) :
  forallb isAfterCalls (map EvClient written) = true.
Proof. induction written as [|w written IH]; [reflexivity|exact IH]. Qed.

Lemma afterCalls_notified (s : AntigravityGatewayService) (statusCode : Z) :
  forallb isAfterCalls (handleUpstreamError s statusCode) = true.
Proof. unfold handleUpstreamError. destruct (rateLimitService s); reflexivity. Qed.

Lemma afterCalls_counts (events : list Event) :
  forallb isAfterCalls events = true ->
  upstreamCalls events = 0%nat /\ backoffs events = 0%nat /\
  upstreamRequests events = [].
Proof.
  unfold upstreamCalls, backoffs, upstreamRequests.
  induction events as [|e events IH]; [easy|].
  cbn [forallb]. intros H. apply andb_true_iff in H. destruct H as [He H].
  destruct (IH H) as (IH1 & IH2 & IH3).
  destruct e; try discriminate He; cbn [List.filter isUpstreamCall isBackoff];
    auto.
Qed.

Lemma backoffs_app (e1 e2 : list Event) :
  backoffs (e1 ++ e2) = (backoffs e1 + backoffs e2)%nat.
Proof. unfold backoffs. now rewrite List.filter_app, length_app. Qed.

Lemma upstreamRequests_app (e1 e2 : list Event) :
  upstreamRequests (e1 ++ e2) = upstreamRequests e1 ++ upstreamRequests e2.
Proof. unfold upstreamRequests. apply List.filter_app. Qed.

Lemma backoffs_silentRetries (url : string) (k : nat) :
  forall attempt, backoffs (silentRetries url attempt k) = k.
Proof.
  induction k as [|k IH]; intros attempt; [reflexivity|].
  cbn [silentRetries]. change (backoffs (EvUpstreamCall attempt url
    :: EvBackoff attempt :: silentRetries url (S attempt) k))
    with (S (backoffs (silentRetries url (S attempt) k))).
  now rewrite IH.
Qed.

Lemma upstreamRequests_silentRetries (url : string) (k : nat) :
  forall attempt,
    upstreamRequests (silentRetries url attempt k)
    = map (fun attempt => EvUpstreamCall attempt url) (seq attempt k).
Proof.
  induction k as [|k IH]; intros attempt; [reflexivity|].
  cbn [silentRetries seq map]. rewrite <- IH. reflexivity.
Qed.

Lemma noBodyWrite_silentRetries (url : string) (k : nat) :
  forall attempt, noBodyWrite (silentRetries url attempt k) = true.
Proof.
  induction k as [|k IH]; intros attempt; [reflexivity|].
  cbn [silentRetries]. apply IH.
Qed.

(** ** The last iteration of the loop of [Forward] *)

Lemma forwardLoop_final (s : AntigravityGatewayService) (url : string)
  (fuel attempt : nat) :
  attempt = antigravityMaxRetries \/
  isRetriedReply (httpUpstream s attempt) = false ->
  forwardLoop s url (S fuel) attempt =
  match httpUpstream s attempt with
  | TransportError =>
      ([EvUpstreamCall attempt url;
        EvClient (WriteJSON 502
                    (ClaudeErrorBody "upstream_error"
                       "Upstream request failed after retries"))],
       LoopReturn (inl (ErrMessage "Upstream request failed after retries")))
  | Reply resp =>
      (EvUpstreamCall attempt url
       :: (if (resp_StatusCode resp =? 429)%Z
           then handleUpstreamError s (resp_StatusCode resp) else []),
       LoopBreak resp)
  end.
Proof.
  intros Hlast. cbn [forwardLoop].
  destruct (httpUpstream s attempt) as [|resp] eqn:Hup.
  - destruct Hlast as [-> | Hno]; [reflexivity|discriminate Hno].
  - destruct (isRetriedReply (Reply resp)) eqn:Hretried.
    + destruct Hlast as [-> | Hno]; [|discriminate Hno].
      cbn [isRetriedReply] in Hretried. rewrite Hretried. reflexivity.
    + cbn [isRetriedReply] in Hretried. rewrite Hretried.
      destruct (resp_StatusCode resp =? 429)%Z eqn:H429; [|reflexivity].
      apply Z.eqb_eq in H429. rewrite H429 in Hretried. discriminate Hretried.
Qed.

(** From the first attempt on, the loop is a run of retried attempts and
    one last iteration. *)
Lemma forwardLoop_upto (s : AntigravityGatewayService) (url : string) (k : nat) :
  (1 <= k <= antigravityMaxRetries)%nat ->
  retriedUpTo s (k - 1) = true ->
  k = antigravityMaxRetries \/ isRetriedReply (httpUpstream s k) = false ->
  forwardLoop s url antigravityMaxRetries 1 =
  (silentRetries url 1 (k - 1) ++ fst (forwardLoop s url 1 k),
   snd (forwardLoop s url 1 k)).
Proof.
  intros Hk Hretried Hlast.
  replace antigravityMaxRetries
    with ((k - 1) + S (antigravityMaxRetries - k))%nat at 1 by lia.
  rewrite forwardLoop_retries;
    [|lia|intros j Hj; apply (proj1 (retriedUpTo_spec s (k - 1)) Hretried); lia].
  replace (1 + (k - 1))%nat with k by lia.
  now rewrite (forwardLoop_final s url (antigravityMaxRetries - k) k Hlast),
    <- (forwardLoop_final s url 0 k Hlast).
Qed.

(** Some attempt is the last one. *)
Lemma last_attempt_exists (s : AntigravityGatewayService) :
  exists k,
    (1 <= k <= antigravityMaxRetries)%nat /\
    retriedUpTo s (k - 1) = true /\
    (k = antigravityMaxRetries \/ isRetriedReply (httpUpstream s k) = false).
Proof.
  assert (H : forall n, (n < antigravityMaxRetries)%nat ->
            retriedUpTo s n = true \/
            exists k, (1 <= k <= n)%nat /\ retriedUpTo s (k - 1) = true /\
                      isRetriedReply (httpUpstream s k) = false).
  { induction n as [|n IH]; intros Hn; [now left|].
    destruct IH as [IH | (k & Hk & Hr & Hno)]; [lia| |].
    - destruct (isRetriedReply (httpUpstream s (S n))) eqn:Hn1.
      + left. apply retriedUpTo_spec. intros j Hj.
        destruct (Nat.eq_dec j (S n)) as [-> | Hne]; [exact Hn1|].
        apply (proj1 (retriedUpTo_spec s n) IH). lia.
      + right. exists (S n). split; [lia|]. split; [|exact Hn1].
        now replace (S n - 1)%nat with n by lia.
    - right. exists k. split; [lia|]. now split. }
  destruct (H (antigravityMaxRetries - 1)%nat) as [Hall | (k & Hk & Hr & Hno)].
  - unfold antigravityMaxRetries. lia.
  - exists antigravityMaxRetries. split; [unfold antigravityMaxRetries; lia|].
    split; [exact Hall|now left].
  - exists k. split; [unfold antigravityMaxRetries in *; lia|]. split; auto.
Qed.

(** ** [Forward] around its loop *)

Lemma Forward_precondition (s : AntigravityGatewayService) (account : Account)
  (body : option ClaudeRequest) :
  (exists e, Fwd' s account body = ([], inl e) /\ isPreconditionError e = true) \/
  (exists claudeReq, body = Some claudeReq /\ Ready' s account claudeReq).
Proof.
  destruct body as [claudeReq|]; [|left; eexists; split; reflexivity].
  unfold Forward, forwardReady.
  destruct (isBlank (req_Model claudeReq)) eqn:Hmodel;
    [left; eexists; split; reflexivity|].
  destruct (tokenProvider s) as [provider|] eqn:Hprovider;
    [|left; eexists; split; reflexivity].
  destruct (provider account) as [accessToken|] eqn:Htoken;
    [|left; eexists; split; reflexivity].
  destruct (String.eqb (TrimSpace (acc_GetCredential account "project_id")) "")
    eqn:Hproject; [left; eexists; split; reflexivity|].
  destruct (TransformClaudeToGemini _ _ _ claudeReq _ _) as [geminiBody|e]
    eqn:Htransform; [|left; eexists; split; reflexivity].
  right. exists claudeReq. split; [reflexivity|].
  split; [first [reflexivity|exact Hmodel]|]. split; [eauto|].
  split; [first [reflexivity|exact Hproject]|eauto].
Qed.

Ltac unfold_forward H :=
  destruct H as (Hmodel & (provider & accessToken & Hprovider & Htoken)
                 & Hproject & (geminiBody & Htransform));
  unfold Forward; rewrite Hmodel, Hprovider, Htoken, Hproject, Htransform;
  match goal with
  | |- context [req_Stream ?req] => fold (claudeURL BaseURL req)
  end.

(** The header that passes the request id of the upstream on. *)
Lemma requestID_header (requestID : string) :
  exists w,
    (if negb (String.eqb requestID "")
     then [EvClient (WriteHeader "x-request-id" requestID)] else [])
    = map EvClient w.
Proof.
  destruct (negb _); [exists [WriteHeader "x-request-id" requestID]|exists []];
    reflexivity.
Qed.

(** What [Forward] appends to the trace of its loop is written to the
    client or told to the rate-limit collaborator. *)
Lemma Forward_tail (s : AntigravityGatewayService) (account : Account)
  (claudeReq : ClaudeRequest) :
  Ready' s account claudeReq ->
  exists tail,
    fst (Fwd' s account (Some claudeReq)) =
    fst (forwardLoop s (claudeURL BaseURL claudeReq) antigravityMaxRetries 1)
    ++ tail /\
    forallb isAfterCalls tail = true.
Proof.
  intros Hready. unfold_forward Hready.
  destruct (forwardLoop s (claudeURL BaseURL claudeReq) antigravityMaxRetries 1)
    as [events [r | resp |]]; cbn [fst].
  - exists []. now rewrite app_nil_r.
  - destruct (requestID_header (resp_RequestID resp)) as [hw Hhw]. rewrite Hhw.
    destruct (400 <=? resp_StatusCode resp)%Z.
    + destruct (shouldFailoverUpstreamError (resp_StatusCode resp)).
      * cbn [fst]. eexists. split; [reflexivity|apply afterCalls_notified].
      * unfold writeMappedClaudeError.
        repeat match goal with
               | |- context [if ?b then _ else _] => destruct b
               end; cbn [fst]; (eexists; split; [reflexivity|]);
          rewrite afterCalls_app, afterCalls_notified; reflexivity.
    + destruct (req_Stream claudeReq).
      * destruct (handleClaudeStreamingResponse resp (req_Model claudeReq))
          as [written [err | [usage firstTokenMs]]]; cbn [fst];
          (eexists; split; [reflexivity|]);
          now rewrite afterCalls_app, !afterCalls_client.
      * destruct (handleClaudeNonStreamingResponse resp (req_Model claudeReq))
          as [written [err | usage]]; cbn [fst];
          (eexists; split; [reflexivity|]);
          now rewrite afterCalls_app, !afterCalls_client.
  - exists []. now rewrite app_nil_r.
Qed.

(** The trace of [Forward] once its preconditions hold. *)
Lemma Forward_shape (s : AntigravityGatewayService) (account : Account)
  (claudeReq : ClaudeRequest) :
  Ready' s account claudeReq ->
  exists k tail,
    (1 <= k <= antigravityMaxRetries)%nat /\
    retriedUpTo s (k - 1) = true /\
    (k = antigravityMaxRetries \/ isRetriedReply (httpUpstream s k) = false) /\
    fst (Fwd' s account (Some claudeReq))
    = silentRetries (claudeURL BaseURL claudeReq) 1 (k - 1)
      ++ EvUpstreamCall k (claudeURL BaseURL claudeReq) :: tail /\
    forallb isAfterCalls tail = true.
Proof.
  intros Hready.
  destruct (last_attempt_exists s) as (k & Hk & Hretried & Hlast).
  destruct (Forward_tail s account claudeReq Hready) as (tail & Htrace & Htail).
  rewrite (forwardLoop_upto s _ k Hk Hretried Hlast) in Htrace.
  rewrite (forwardLoop_final s _ 0 k Hlast) in Htrace. cbn [fst] in Htrace.
  exists k.
  destruct (httpUpstream s k) as [|resp]; cbn [fst] in Htrace;
    eexists; (split; [exact Hk|]); (split; [exact Hretried|]);
    (split; [exact Hlast|]);
    (split; [rewrite Htrace, <- app_assoc; cbn [app]; reflexivity|]).
  - exact Htail.
  - rewrite afterCalls_app, Htail, andb_true_r.
    destruct (resp_StatusCode resp =? 429)%Z; [apply afterCalls_notified|reflexivity].
Qed.

(** ** What [Forward] sends, writes and returns *)

(** X16. [Forward] either stops on a precondition (a body that does not
    decode, a blank model, no token provider, no access token, no project id
    or a request that cannot be transformed) before anything is sent
    upstream or written to the client, or its trace is a run of [k - 1]
    retried attempts, each followed by its back-off sleep, then request
    number [k], then only writes to the client and notifications of the
    rate-limit collaborator: nothing is sent upstream once the client has
    been written to.  Here [k] is at most [antigravityMaxRetries]; the
    replies before [k] were all retried, and attempt [k] is the last one
    allowed or its reply is not retried. *)
Theorem X16_forward_trace_shape
  (s : AntigravityGatewayService) (account : Account)
  (body : option ClaudeRequest) :
  (exists e, Fwd' s account body = ([], inl e) /\ isPreconditionError e = true) \/
  (exists claudeReq k tail,
      body = Some claudeReq /\
      (1 <= k <= antigravityMaxRetries)%nat /\
      retriedUpTo s (k - 1) = true /\
      (k = antigravityMaxRetries \/ isRetriedReply (httpUpstream s k) = false) /\
      fst (Fwd' s account body)
      = silentRetries (claudeURL BaseURL claudeReq) 1 (k - 1)
        ++ EvUpstreamCall k (claudeURL BaseURL claudeReq) :: tail /\
      forallb isAfterCalls tail = true).
Proof.
  destruct (Forward_precondition s account body)
    as [Hpre | (claudeReq & -> & Hready)]; [now left|right].
  destruct (Forward_shape s account claudeReq Hready)
    as (k & tail & Hk & Hretried & Hlast & Htrace & Htail).
  exists claudeReq, k, tail.
  repeat (split; [first [reflexivity|assumption]|]). assumption.
Qed.

(** X17. Whatever the upstream does, [Forward] sends at most
    [antigravityMaxRetries] = 5 requests, sleeps once between two requests
    and never after the last, and sends every request to the same URL, the
    attempts numbered 1, 2, ... without a gap. *)
Theorem X17_forward_request_budget
  (s : AntigravityGatewayService) (account : Account)
  (claudeReq : ClaudeRequest) :
  let events := fst (Fwd' s account (Some claudeReq)) in
  (upstreamCalls events <= antigravityMaxRetries)%nat /\
  backoffs events = (upstreamCalls events - 1)%nat /\
  upstreamRequests events
  = requestsTo (claudeURL BaseURL claudeReq) (upstreamCalls events).
Proof.
  intros events. subst events.
  destruct (Forward_precondition s account (Some claudeReq))
    as [(e & -> & _) | (claudeReq' & [= <-] & Hready)].
  - cbn. split; [lia|]. split; reflexivity.
  - destruct (Forward_shape s account claudeReq Hready)
      as (k & tail & Hk & _ & _ & -> & Htail).
    destruct (afterCalls_counts tail Htail) as (Hc & Hb & Hr).
    assert (Hcalls : upstreamCalls
                       (silentRetries (claudeURL BaseURL claudeReq) 1 (k - 1)
                        ++ EvUpstreamCall k (claudeURL BaseURL claudeReq) :: tail)
                     = k).
    { rewrite upstreamCalls_app, upstreamCalls_silentRetries.
      change (upstreamCalls (EvUpstreamCall k (claudeURL BaseURL claudeReq) :: tail))
        with (S (upstreamCalls tail)). lia. }
    rewrite Hcalls. split; [lia|]. split.
    + rewrite backoffs_app, backoffs_silentRetries.
      change (backoffs (EvUpstreamCall k (claudeURL BaseURL claudeReq) :: tail))
        with (backoffs tail). lia.
    + rewrite upstreamRequests_app, upstreamRequests_silentRetries.
      change (upstreamRequests
                (EvUpstreamCall k (claudeURL BaseURL claudeReq) :: tail))
        with (EvUpstreamCall k (claudeURL BaseURL claudeReq)
              :: upstreamRequests tail).
      rewrite Hr. unfold requestsTo.
      replace k with (S (k - 1)) at 3 by lia.
      rewrite seq_S, map_app. cbn [map].
      now replace (1 + (k - 1))%nat with k by lia.
Qed.

(** The loop of [Forward] when attempt [k] is answered by a response that
    ends it. *)
Lemma forwardLoop_ends_with (s : AntigravityGatewayService) (url : string)
  (k : nat) (resp : Response) :
  (1 <= k <= antigravityMaxRetries)%nat ->
  retriedUpTo s (k - 1) = true ->
  httpUpstream s k = Reply resp ->
  k = antigravityMaxRetries \/ isRetriedReply (Reply resp) = false ->
  forwardLoop s url antigravityMaxRetries 1 =
  (silentRetries url 1 (k - 1)
   ++ EvUpstreamCall k url
      :: (if (resp_StatusCode resp =? 429)%Z
          then handleUpstreamError s (resp_StatusCode resp) else []),
   LoopBreak resp).
Proof.
  intros Hk Hretried Hup Hlast.
  assert (Hlast' : k = antigravityMaxRetries
                   \/ isRetriedReply (httpUpstream s k) = false)
    by now rewrite Hup.
  rewrite (forwardLoop_upto s url k Hk Hretried Hlast').
  now rewrite (forwardLoop_final s url 0 k Hlast'), Hup.
Qed.

(** X18. A status of 400 or more that is not eligible for failover (so
    neither 401, 403, 429, 529 nor a 5xx) ends [Forward] at the attempt
    that receives it: no further request is sent, the rate-limit
    collaborator (if any) is told the status, and the client receives a
    Claude error, 400 [invalid_request_error] for an upstream 400 and
    502 [upstream_error] for every other such status; the returned error
    carries the upstream status.  The branches of [writeMappedClaudeError]
    for 401, 403, 429 and 529 are not reached from [Forward]. *)
Theorem X18_forward_terminal_status
  (s : AntigravityGatewayService) (account : Account)
  (claudeReq : ClaudeRequest) (k : nat) (resp : Response) :
  Ready' s account claudeReq ->
  (1 <= k <= antigravityMaxRetries)%nat ->
  retriedUpTo s (k - 1) = true ->
  httpUpstream s k = Reply resp ->
  (400 <=? resp_StatusCode resp)%Z = true ->
  shouldFailoverUpstreamError (resp_StatusCode resp) = false ->
  Fwd' s account (Some claudeReq) =
  (silentRetries (claudeURL BaseURL claudeReq) 1 (k - 1)
   ++ [EvUpstreamCall k (claudeURL BaseURL claudeReq)]
   ++ handleUpstreamError s (resp_StatusCode resp)
   ++ [EvClient
         (if (resp_StatusCode resp =? 400)%Z
          then WriteJSON 400
                 (ClaudeErrorBody "invalid_request_error" "Invalid request")
          else WriteJSON 502
                 (ClaudeErrorBody "upstream_error" "Upstream request failed"))],
   inl (ErrUpstream (resp_StatusCode resp))).
Proof.
  intros Hready Hk Hretried Hup Hge Hfail.
  assert (Hnot : isRetriedReply (Reply resp) = false).
  { destruct (isRetriedReply (Reply resp)) eqn:Hre; [|reflexivity].
    apply retried_reply_status in Hre. destruct Hre as [_ Hre]. congruence. }
  unfold_forward Hready.
  rewrite (forwardLoop_ends_with s _ k resp Hk Hretried Hup (or_intror Hnot)).
  rewrite Hge, Hfail.
  assert (H429 : (resp_StatusCode resp =? 429)%Z = false).
  { destruct (resp_StatusCode resp =? 429)%Z eqn:H; [|reflexivity].
    apply status429_retried in H. congruence. }
  rewrite H429. unfold writeMappedClaudeError.
  unfold shouldFailoverUpstreamError in Hfail.
  destruct (resp_StatusCode resp =? 401)%Z; [discriminate Hfail|].
  destruct (resp_StatusCode resp =? 403)%Z; [discriminate Hfail|].
  rewrite H429 in *.
  destruct (resp_StatusCode resp =? 529)%Z; [discriminate Hfail|].
  destruct (resp_StatusCode resp =? 400)%Z;
    now rewrite <- !app_assoc.
Qed.

(** X19. When the fifth request fails at transport level after four
    retried attempts, [Forward] writes 502 [upstream_error] "Upstream
    request failed after retries" to the client and returns an error with
    that message, which is not a failover error; the rate-limit
    collaborator is told nothing, whatever statuses the earlier attempts
    received. *)
Theorem X19_forward_transport_failure
  (s : AntigravityGatewayService) (account : Account)
  (claudeReq : ClaudeRequest) :
  Ready' s account claudeReq ->
  retriedUpTo s (antigravityMaxRetries - 1) = true ->
  httpUpstream s antigravityMaxRetries = TransportError ->
  Fwd' s account (Some claudeReq) =
  (silentRetries (claudeURL BaseURL claudeReq) 1 (antigravityMaxRetries - 1)
   ++ [EvUpstreamCall antigravityMaxRetries (claudeURL BaseURL claudeReq);
       EvClient (WriteJSON 502
                   (ClaudeErrorBody "upstream_error"
                      "Upstream request failed after retries"))],
   inl (ErrMessage "Upstream request failed after retries")) /\
  rateLimitNotifications (fst (Fwd' s account (Some claudeReq))) = [].
Proof.
  intros Hready Hretried Hup.
  assert (Heq : Fwd' s account (Some claudeReq) =
    (silentRetries (claudeURL BaseURL claudeReq) 1 (antigravityMaxRetries - 1)
     ++ [EvUpstreamCall antigravityMaxRetries (claudeURL BaseURL claudeReq);
         EvClient (WriteJSON 502
                     (ClaudeErrorBody "upstream_error"
                        "Upstream request failed after retries"))],
     inl (ErrMessage "Upstream request failed after retries"))).
  { unfold_forward Hready.
    rewrite (forwardLoop_upto s _ antigravityMaxRetries
               ltac:(unfold antigravityMaxRetries; lia) Hretried (or_introl eq_refl)).
    rewrite (forwardLoop_final s _ 0 antigravityMaxRetries (or_introl eq_refl)).
    rewrite Hup. reflexivity. }
  split; [exact Heq|].
  rewrite Heq. cbn [fst].
  now rewrite notifications_app, notifications_silentRetries.
Qed.

(** X20. A response that ends the retry loop of [Forward] with a status
    that is eligible for failover makes [Forward] return the failover error
    with that status, after exactly as many requests as attempts were made
    and without a status or body written to the client, so that the caller
    can still answer from another account.  This is the case for a 401 or
    403 on any attempt, and for whatever response the last allowed attempt
    receives with a retryable status: every retryable status is eligible
    for failover. *)
Theorem X20_forward_failover
  (s : AntigravityGatewayService) (account : Account)
  (claudeReq : ClaudeRequest) (k : nat) (resp : Response) :
  Ready' s account claudeReq ->
  (1 <= k <= antigravityMaxRetries)%nat ->
  retriedUpTo s (k - 1) = true ->
  httpUpstream s k = Reply resp ->
  (k = antigravityMaxRetries /\ isRetriedReply (Reply resp) = true) \/
  (isRetriedReply (Reply resp) = false /\
   (400 <=? resp_StatusCode resp)%Z = true /\
   shouldFailoverUpstreamError (resp_StatusCode resp) = true) ->
  snd (Fwd' s account (Some claudeReq))
  = inl (ErrUpstreamFailover (resp_StatusCode resp)) /\
  upstreamCalls (fst (Fwd' s account (Some claudeReq))) = k /\
  noBodyWrite (fst (Fwd' s account (Some claudeReq))) = true.
Proof.
  intros Hready Hk Hretried Hup Hfinal.
  assert (Hlast : k = antigravityMaxRetries \/ isRetriedReply (Reply resp) = false)
    by (destruct Hfinal as [[? _] | [? _]]; auto).
  assert (Hst : (400 <=? resp_StatusCode resp)%Z = true /\
                shouldFailoverUpstreamError (resp_StatusCode resp) = true).
  { destruct Hfinal as [[_ Hre] | (_ & Hge & Hfail)]; [|now split].
    now apply retried_reply_status. }
  destruct Hst as [Hge Hfail].
  unfold_forward Hready.
  rewrite (forwardLoop_ends_with s _ k resp Hk Hretried Hup Hlast).
  rewrite Hge, Hfail. cbn [fst snd]. split; [reflexivity|]. split.
  - rewrite !upstreamCalls_app, upstreamCalls_silentRetries,
      upstreamCalls_notified.
    change (upstreamCalls (EvUpstreamCall k (claudeURL BaseURL claudeReq) :: ?l))
      with (S (upstreamCalls l)).
    destruct (resp_StatusCode resp =? 429)%Z;
      [rewrite upstreamCalls_notified|cbn]; lia.
  - rewrite !noBodyWrite_app, noBodyWrite_silentRetries, noBodyWrite_notified.
    rewrite andb_true_r. cbn [andb].
    change (noBodyWrite (EvUpstreamCall k (claudeURL BaseURL claudeReq) :: ?l))
      with (noBodyWrite l).
    destruct (resp_StatusCode resp =? 429)%Z; [|reflexivity].
    apply (noBodyWrite_notified s).
Qed.

(** The loop of [Forward] returns from inside only with an error. *)
Lemma forwardLoop_final_return (s : AntigravityGatewayService) (url : string)
  (attempt : nat) (r : ForwardError + ForwardResult) :
  snd (forwardLoop s url 1 attempt) = LoopReturn r -> exists e, r = inl e.
Proof.
  cbn [forwardLoop].
  destruct (httpUpstream s attempt) as [|resp].
  - destruct (attempt <? antigravityMaxRetries)%nat; cbn [snd];
      [discriminate|]. intros [= <-]. eauto.
  - destruct ((400 <=? resp_StatusCode resp)%Z
              && shouldRetryUpstreamError (resp_StatusCode resp));
      [destruct (attempt <? antigravityMaxRetries)%nat|]; discriminate.
Qed.

(** X21. When [Forward] returns a result, some attempt [k] received a
    response with a status below 400, and all attempts before it were
    retried; the result names the model that the client asked for (not the
    model it was mapped to), repeats the request's stream flag and carries
    the request id of that response; exactly [k] requests were sent and the
    rate-limit collaborator was told nothing, whatever the retried attempts
    received. *)
Theorem X21_forward_result
  (s : AntigravityGatewayService) (account : Account)
  (body : option ClaudeRequest) (result : ForwardResult) :
  snd (Fwd' s account body) = inr result ->
  exists claudeReq k resp,
    body = Some claudeReq /\
    (1 <= k <= antigravityMaxRetries)%nat /\
    retriedUpTo s (k - 1) = true /\
    httpUpstream s k = Reply resp /\
    (resp_StatusCode resp < 400)%Z /\
    fwd_Model result = req_Model claudeReq /\
    fwd_Stream result = req_Stream claudeReq /\
    fwd_RequestID result = resp_RequestID resp /\
    upstreamCalls (fst (Fwd' s account body)) = k /\
    rateLimitNotifications (fst (Fwd' s account body)) = [].
Proof.
  intros Hres.
  destruct (Forward_precondition s account body)
    as [(e & Heq & _) | (claudeReq & -> & Hready)];
    [rewrite Heq in Hres; discriminate Hres|].
  destruct (last_attempt_exists s) as (k & Hk & Hretried & Hlast).
  exists claudeReq, k.
  revert Hres. unfold_forward Hready.
  rewrite (forwardLoop_upto s _ k Hk Hretried Hlast).
  rewrite (forwardLoop_final s _ 0 k Hlast).
  destruct (httpUpstream s k) as [|resp] eqn:Hup; cbn [fst snd];
    [discriminate|].
  destruct (400 <=? resp_StatusCode resp)%Z eqn:Hge.
  { destruct (shouldFailoverUpstreamError (resp_StatusCode resp));
      [discriminate|].
    unfold writeMappedClaudeError.
    repeat match goal with
           | |- context [if ?b then _ else _] => destruct b
           end; discriminate. }
  assert (H429 : (resp_StatusCode resp =? 429)%Z = false).
  { apply Z.leb_gt in Hge. apply Z.eqb_neq. lia. }
  rewrite H429.
  destruct (requestID_header (resp_RequestID resp)) as [hw Hhw]. rewrite Hhw.
  assert (Hcount : forall written,
    upstreamCalls
      ((silentRetries (claudeURL BaseURL claudeReq) 1 (k - 1)
        ++ [EvUpstreamCall k (claudeURL BaseURL claudeReq)])
       ++ map EvClient hw ++ map EvClient written) = k /\
    rateLimitNotifications
      ((silentRetries (claudeURL BaseURL claudeReq) 1 (k - 1)
        ++ [EvUpstreamCall k (claudeURL BaseURL claudeReq)])
       ++ map EvClient hw ++ map EvClient written) = []).
  { intros written. split.
    - rewrite !upstreamCalls_app, upstreamCalls_silentRetries,
        !upstreamCalls_client. cbn. lia.
    - now rewrite !notifications_app, notifications_silentRetries,
        !notifications_client. }
  apply Z.leb_gt in Hge.
  destruct (req_Stream claudeReq) eqn:Hstream.
  - destruct (handleClaudeStreamingResponse resp (req_Model claudeReq))
      as [written [err | [usage firstTokenMs]]]; cbn [fst snd];
      [discriminate|]. intros [= <-]. exists resp.
    destruct (Hcount written) as [Hc Hn]. cbn [fwd_Model fwd_Stream fwd_RequestID].
    repeat (split; [first [assumption|reflexivity]|]). assumption.
  - destruct (handleClaudeNonStreamingResponse resp (req_Model claudeReq))
      as [written [err | usage]]; cbn [fst snd];
      [discriminate|]. intros [= <-]. exists resp.
    destruct (Hcount written) as [Hc Hn]. cbn [fwd_Model fwd_Stream fwd_RequestID].
    repeat (split; [first [assumption|reflexivity]|]). assumption.
Qed.

(** ** The retry loop of [ForwardGemini] *)

Abbreviation geminiLoop' := (forwardGeminiLoop estimateGeminiCountTokens).

Lemma geminiLoop_retry_exact (s : AntigravityGatewayService)
  (url originalModel action body : string) (fuel attempt : nat) :
  (attempt < antigravityMaxRetries)%nat ->
  isRetriedReply (httpUpstream s attempt) = true ->
  geminiLoop' s url originalModel action body (S fuel) attempt =
  (geminiRetries s url attempt 1
   ++ fst (geminiLoop' s url originalModel action body fuel (S attempt)),
   snd (geminiLoop' s url originalModel action body fuel (S attempt))).
Proof.
  intros Hlt Hretry. cbn [forwardGeminiLoop geminiRetries].
  apply Nat.ltb_lt in Hlt. rewrite Hlt.
  destruct (httpUpstream s attempt) as [|resp].
  - destruct (geminiLoop' s url originalModel action body fuel (S attempt));
      reflexivity.
  - cbn [isRetriedReply] in Hretry. rewrite Hretry. cbn [hasStatus].
    destruct (geminiLoop' s url originalModel action body fuel (S attempt)).
    cbn [fst snd].
    destruct (resp_StatusCode resp =? 429)%Z eqn:H429.
    + apply Z.eqb_eq in H429. rewrite H429. cbn [app].
      now rewrite <- app_assoc.
    + reflexivity.
Qed.

Lemma geminiRetries_S (s : AntigravityGatewayService) (url : string)
  (attempt k : nat) :
  geminiRetries s url attempt (S k)
  = geminiRetries s url attempt 1 ++ geminiRetries s url (S attempt) k.
Proof. cbn [geminiRetries app]. now rewrite <- app_assoc. Qed.

Lemma geminiLoop_retries_exact (s : AntigravityGatewayService)
  (url originalModel action body : string) (k : nat) :
  forall fuel attempt,
    (attempt + k <= antigravityMaxRetries)%nat ->
    (forall j, (attempt <= j < attempt + k)%nat ->
               isRetriedReply (httpUpstream s j) = true) ->
    geminiLoop' s url originalModel action body (k + fuel) attempt =
    (geminiRetries s url attempt k
     ++ fst (geminiLoop' s url originalModel action body fuel (attempt + k)),
     snd (geminiLoop' s url originalModel action body fuel (attempt + k))).
Proof.
  induction k as [|k IH]; intros fuel attempt Hle Hretry.
  - cbn [Nat.add geminiRetries app]. rewrite Nat.add_0_r.
    destruct (geminiLoop' s url originalModel action body fuel attempt);
      reflexivity.
  - cbn [Nat.add]. rewrite geminiLoop_retry_exact; [|lia|apply Hretry; lia].
    rewrite IH; [|lia|intros j Hj; apply Hretry; lia].
    cbn [fst snd]. rewrite (geminiRetries_S s url attempt k), <- app_assoc.
    now replace (S attempt + k)%nat with (attempt + S k)%nat by lia.
Qed.

(** The retried attempts of [ForwardGemini] in numbers. *)
Lemma geminiRetries_counts (s : AntigravityGatewayService) (url : string)
  (k : nat) :
  forall attempt,
    upstreamCalls (geminiRetries s url attempt k) = k /\
    backoffs (geminiRetries s url attempt k) = k /\
    upstreamRequests (geminiRetries s url attempt k)
    = map (fun attempt => EvUpstreamCall attempt url) (seq attempt k) /\
    noBodyWrite (geminiRetries s url attempt k) = true /\
    rateLimitNotifications (geminiRetries s url attempt k)
    = if rateLimitService s then repeat 429%Z (count429 s attempt k) else [].
Proof.
  induction k as [|k IH]; intros attempt.
  - cbn. now destruct (rateLimitService s).
  - destruct (IH (S attempt)) as (Hc & Hb & Hr & Hw & Hn).
    rewrite (geminiRetries_S s url attempt k).
    rewrite upstreamCalls_app, backoffs_app, upstreamRequests_app,
      noBodyWrite_app, notifications_app, Hc, Hb, Hr, Hw, Hn.
    unfold count429. cbn [geminiRetries seq map List.filter].
    unfold handleUpstreamError.
    destruct (hasStatus 429 (httpUpstream s attempt)), (rateLimitService s);
      cbn; repeat split; reflexivity.
Qed.

Lemma geminiLoop_final (s : AntigravityGatewayService)
  (url originalModel action body : string) (fuel attempt : nat) :
  attempt = antigravityMaxRetries \/
  isRetriedReply (httpUpstream s attempt) = false ->
  geminiLoop' s url originalModel action body (S fuel) attempt
  = geminiLoop' s url originalModel action body 1 attempt /\
  exists tail,
    fst (geminiLoop' s url originalModel action body 1 attempt)
    = EvUpstreamCall attempt url :: tail /\
    forallb isAfterCalls tail = true.
Proof.
  intros Hlast. cbn [forwardGeminiLoop].
  destruct (httpUpstream s attempt) as [|resp] eqn:Hup.
  - destruct Hlast as [-> | Hno]; [|discriminate Hno].
    cbn [Nat.ltb Nat.leb antigravityMaxRetries].
    destruct (String.eqb action "countTokens");
      (split; [reflexivity|eexists; split; reflexivity]).
  - destruct ((400 <=? resp_StatusCode resp)%Z
              && shouldRetryUpstreamError (resp_StatusCode resp)) eqn:Hre.
    + destruct Hlast as [-> | Hno]; [|cbn [isRetriedReply] in Hno; congruence].
      cbn [Nat.ltb Nat.leb antigravityMaxRetries].
      destruct (String.eqb action "countTokens");
        (split; [reflexivity|]); cbn [countTokensFallback fst];
        (eexists; split; [reflexivity|]);
        unfold handleUpstreamError;
        destruct (resp_StatusCode resp =? 429)%Z, (rateLimitService s);
        reflexivity.
    + split; [reflexivity|]. eexists; split; reflexivity.
Qed.

Lemma geminiLoop_upto (s : AntigravityGatewayService)
  (url originalModel action body : string) (k : nat) :
  (1 <= k <= antigravityMaxRetries)%nat ->
  retriedUpTo s (k - 1) = true ->
  forall fuel,
    geminiLoop' s url originalModel action body (k - 1 + fuel) 1 =
    (geminiRetries s url 1 (k - 1)
     ++ fst (geminiLoop' s url originalModel action body fuel k),
     snd (geminiLoop' s url originalModel action body fuel k)).
Proof.
  intros Hk Hretried fuel.
  rewrite geminiLoop_retries_exact;
    [|lia|intros j Hj; apply (proj1 (retriedUpTo_spec s (k - 1)) Hretried); lia].
  now replace (1 + (k - 1))%nat with k by lia.
Qed.

Lemma geminiLoop_starts_with_call (s : AntigravityGatewayService)
  (url originalModel action body : string) (fuel attempt : nat) :
  exists rest,
    fst (geminiLoop' s url originalModel action body (S fuel) attempt)
    = EvUpstreamCall attempt url :: rest.
Proof.
  cbn [forwardGeminiLoop].
  destruct (httpUpstream s attempt) as [|resp].
  - destruct (attempt <? antigravityMaxRetries)%nat.
    + destruct (geminiLoop' s url originalModel action body fuel (S attempt)).
      cbn. eauto.
    + destruct (String.eqb action "countTokens"); cbn; eauto.
  - destruct ((400 <=? resp_StatusCode resp)%Z
              && shouldRetryUpstreamError (resp_StatusCode resp)).
    + destruct (attempt <? antigravityMaxRetries)%nat.
      * destruct (geminiLoop' s url originalModel action body fuel (S attempt)).
        cbn. eauto.
      * destruct (String.eqb action "countTokens"); cbn; eauto.
    + cbn. eauto.
Qed.

(** ** [ForwardGemini] around its loop *)

Lemma supportedAction_not_blank (action : string) :
  supportedAction action = true -> isBlank action = false.
Proof.
  unfold supportedAction. intros H.
  repeat (apply orb_true_iff in H; destruct H as [H|H]);
    apply String.eqb_eq in H; subst action; reflexivity.
Qed.

Ltac unfold_gemini Hready Haction act str :=
  destruct Hready as (Hmodel & Hbody & (provider & accessToken & Hprovider & Htoken)
                      & Hproject & (request & Hrequest));
  unfold ForwardGemini;
  rewrite Hmodel, (supportedAction_not_blank _ Haction), Hbody;
  let H := fresh in
  (pose proof Haction as H; unfold supportedAction in H; rewrite H; clear H);
  cbn [negb];
  rewrite Hprovider, Htoken, Hproject, Hrequest; cbv zeta;
  match goal with
  | |- context [forwardGeminiLoop _ _ ?url] =>
      change url with (geminiURL BaseURL act str)
  end.

Lemma ForwardGemini_precondition (s : AntigravityGatewayService)
  (account : Account) (originalModel action : string) (stream : bool)
  (body : string) :
  (exists events e,
      FwdGemini' s account originalModel action stream body = (events, inl e) /\
      forallb isAfterCalls events = true) \/
  (geminiReady jsonUnmarshal s account originalModel body /\
   supportedAction action = true).
Proof.
  unfold ForwardGemini, geminiReady.
  destruct (isBlank originalModel) eqn:Hmodel;
    [left; eexists _, _; split; reflexivity|].
  destruct (isBlank action) eqn:Hblank;
    [left; eexists _, _; split; reflexivity|].
  destruct (String.eqb body "") eqn:Hbody;
    [left; eexists _, _; split; reflexivity|].
  destruct (supportedAction action) eqn:Haction; unfold supportedAction in Haction;
    rewrite Haction; cbn [negb];
    [|left; eexists _, _; split; reflexivity].
  destruct (tokenProvider s) as [provider|] eqn:Hprovider;
    [|left; eexists _, _; split; reflexivity].
  destruct (provider account) as [accessToken|] eqn:Htoken;
    [|left; eexists _, _; split; reflexivity].
  destruct (String.eqb (TrimSpace (acc_GetCredential account "project_id")) "")
    eqn:Hproject; [left; eexists _, _; split; reflexivity|].
  destruct (jsonUnmarshal body) as [request|] eqn:Hrequest;
    [|left; eexists _, _; split; reflexivity].
  right. split; [|reflexivity].
  split; [reflexivity|]. split; [reflexivity|]. split; [eauto|].
  split; [first [reflexivity|exact Hproject]|eauto].
Qed.

(** What [ForwardGemini] appends to the trace of its loop is written to
    the client or told to the rate-limit collaborator. *)
Lemma ForwardGemini_tail (s : AntigravityGatewayService) (account : Account)
  (originalModel action : string) (stream : bool) (body : string) :
  geminiReady jsonUnmarshal s account originalModel body ->
  supportedAction action = true ->
  exists tail,
    fst (FwdGemini' s account originalModel action stream body) =
    fst (geminiLoop' s (geminiURL BaseURL action stream) originalModel action
           body antigravityMaxRetries 1)
    ++ tail /\
    forallb isAfterCalls tail = true.
Proof.
  intros Hready Haction. unfold_gemini Hready Haction action stream.
  destruct (geminiLoop' s (geminiURL BaseURL action stream) originalModel
              action body antigravityMaxRetries 1)
    as [events [r | resp |]]; cbn [fst].
  - exists []. now rewrite app_nil_r.
  - destruct (requestID_header (resp_RequestID resp)) as [hw Hhw]. rewrite Hhw.
    destruct (400 <=? resp_StatusCode resp)%Z.
    + destruct (String.eqb action "countTokens").
      * cbn [countTokensFallback fst]. eexists. split; [reflexivity|].
        now rewrite !afterCalls_app, afterCalls_client, afterCalls_notified.
      * destruct (shouldFailoverUpstreamError (resp_StatusCode resp));
          cbn [fst]; (eexists; split; [reflexivity|]);
          now rewrite !afterCalls_app, afterCalls_client, afterCalls_notified.
    + destruct (stream || _).
      * destruct (handleGeminiStreamingResponse resp)
          as [written [err | [usage firstTokenMs]]]; cbn [fst];
          (eexists; split; [reflexivity|]);
          now rewrite afterCalls_app, !afterCalls_client.
      * destruct (handleGeminiNonStreamingResponse resp)
          as [written [err | usage]]; cbn [fst];
          (eexists; split; [reflexivity|]);
          now rewrite afterCalls_app, !afterCalls_client.
  - exists []. now rewrite app_nil_r.
Qed.

(** ** What [ForwardGemini] sends, writes and returns *)

(** X22. [ForwardGemini] answers a request that it cannot forward with one
    Google error and nothing else, before the token provider is looked at
    and before anything is sent upstream: 400 [INVALID_ARGUMENT] for a
    blank model, a blank action or an empty body, and 404 [NOT_FOUND] for
    an action other than [generateContent], [streamGenerateContent] and
    [countTokens] (compared as it is, without trimming).  The error that is
    returned carries the message that is written. *)
Theorem X22_gemini_rejects_bad_input
  (s : AntigravityGatewayService) (account : Account)
  (originalModel action : string) (stream : bool) (body : string) :
  isBlank originalModel = true \/ isBlank action = true \/
  String.eqb body "" = true \/ supportedAction action = false ->
  let malformed :=
    isBlank originalModel || isBlank action || String.eqb body "" in
  exists message,
    FwdGemini' s account originalModel action stream body =
    ([EvClient
        (WriteJSON (if malformed then 400 else 404)
           (GoogleErrorBody (if malformed then 400 else 404) message
              (if malformed then "INVALID_ARGUMENT" else "NOT_FOUND")))],
     inl (ErrMessage message)).
Proof.
  intros Hbad malformed. subst malformed. unfold ForwardGemini.
  destruct (isBlank originalModel); [eexists; reflexivity|].
  destruct (isBlank action); [eexists; reflexivity|].
  destruct (String.eqb body ""); [eexists; reflexivity|].
  destruct Hbad as [H | [H | [H | H]]]; try discriminate H.
  unfold supportedAction in H. rewrite H. eexists; reflexivity.
Qed.

(** X23. [ForwardGemini] reports a 429 at once: when request number [k] is
    sent after [k - 1] retried attempts, the rate-limit collaborator (if
    there is one) has been told 429 once for every earlier attempt that was
    answered with 429, and nothing else; nothing has been written to the
    client yet. *)
Theorem X23_gemini_reports_each_429
  (s : AntigravityGatewayService) (account : Account)
  (originalModel action : string) (stream : bool) (body : string) (k : nat) :
  geminiReady jsonUnmarshal s account originalModel body ->
  supportedAction action = true ->
  (1 <= k <= antigravityMaxRetries)%nat ->
  retriedUpTo s (k - 1) = true ->
  exists before rest,
    fst (FwdGemini' s account originalModel action stream body)
    = before ++ EvUpstreamCall k (geminiURL BaseURL action stream) :: rest /\
    upstreamCalls before = (k - 1)%nat /\
    noBodyWrite before = true /\
    rateLimitNotifications before
    = if rateLimitService s then repeat 429%Z (count429 s 1 (k - 1)) else [].
Proof.
  intros Hready Haction Hk Hretried.
  destruct (ForwardGemini_tail s account originalModel action stream body
              Hready Haction) as (tail & Htrace & _).
  replace antigravityMaxRetries
    with ((k - 1) + S (antigravityMaxRetries - k))%nat in Htrace at 1 by lia.
  rewrite (geminiLoop_upto s _ originalModel action body k Hk Hretried) in Htrace.
  destruct (geminiLoop_starts_with_call s (geminiURL BaseURL action stream)
              originalModel action body (antigravityMaxRetries - k) k)
    as [rest Hrest].
  cbn [fst] in Htrace. rewrite Hrest in Htrace.
  destruct (geminiRetries_counts s (geminiURL BaseURL action stream) (k - 1) 1)
    as (Hc & _ & _ & Hw & Hn).
  exists (geminiRetries s (geminiURL BaseURL action stream) 1 (k - 1)),
    (rest ++ tail).
  split; [now rewrite Htrace, <- app_assoc|]. auto.
Qed.

(** X24. Whatever the upstream does and whatever it is asked,
    [ForwardGemini] sends at most [antigravityMaxRetries] = 5 requests,
    sleeps once between two requests and never after the last, and sends
    every request to the same URL, the attempts numbered 1, 2, ... without
    a gap. *)
Theorem X24_gemini_request_budget
  (s : AntigravityGatewayService) (account : Account)
  (originalModel action : string) (stream : bool) (body : string) :
  let events := fst (FwdGemini' s account originalModel action stream body) in
  (upstreamCalls events <= antigravityMaxRetries)%nat /\
  backoffs events = (upstreamCalls events - 1)%nat /\
  upstreamRequests events
  = requestsTo (geminiURL BaseURL action stream) (upstreamCalls events).
Proof.
  intros events. subst events.
  destruct (ForwardGemini_precondition s account originalModel action stream body)
    as [(events & e & -> & Hafter) | [Hready Haction]].
  - cbn [fst]. destruct (afterCalls_counts events Hafter) as (-> & -> & ->).
    split; [lia|]. split; reflexivity.
  - destruct (ForwardGemini_tail s account originalModel action stream body
                Hready Haction) as (tail & -> & Htail).
    destruct (last_attempt_exists s) as (k & Hk & Hretried & Hlast).
    pose proof (geminiLoop_upto s (geminiURL BaseURL action stream)
                  originalModel action body k Hk Hretried
                  (S (antigravityMaxRetries - k))) as Hloop.
    replace ((k - 1) + S (antigravityMaxRetries - k))%nat
      with antigravityMaxRetries in Hloop by lia.
    destruct (geminiLoop_final s (geminiURL BaseURL action stream)
                originalModel action body (antigravityMaxRetries - k) k Hlast)
      as (Hfinal & last & Hlast1 & Hlast').
    rewrite Hfinal, Hlast1 in Hloop. rewrite Hloop. cbn [fst].
    destruct (geminiRetries_counts s (geminiURL BaseURL action stream) (k - 1) 1)
      as (Hc & Hb & Hr & _ & _).
    destruct (afterCalls_counts last Hlast') as (Hc1 & Hb1 & Hr1).
    destruct (afterCalls_counts tail Htail) as (Hc2 & Hb2 & Hr2).
    assert (Hcalls :
      upstreamCalls
        ((geminiRetries s (geminiURL BaseURL action stream) 1 (k - 1)
          ++ EvUpstreamCall k (geminiURL BaseURL action stream) :: last)
         ++ tail) = k).
    { rewrite !upstreamCalls_app, Hc, Hc2.
      change (upstreamCalls
                (EvUpstreamCall k (geminiURL BaseURL action stream) :: last))
        with (S (upstreamCalls last)). lia. }
    rewrite Hcalls. split; [lia|]. split.
    + rewrite !backoffs_app, Hb, Hb2.
      change (backoffs (EvUpstreamCall k (geminiURL BaseURL action stream) :: last))
        with (backoffs last). lia.
    + rewrite !upstreamRequests_app, Hr, Hr2, app_nil_r.
      change (upstreamRequests
                (EvUpstreamCall k (geminiURL BaseURL action stream) :: last))
        with (EvUpstreamCall k (geminiURL BaseURL action stream)
              :: upstreamRequests last).
      rewrite Hr1. unfold requestsTo.
      replace k with (S (k - 1)) at 3 by lia.
      rewrite seq_S, map_app. cbn [map].
      now replace (1 + (k - 1))%nat with k by lia.
Qed.

(** X25. In [ForwardGemini], for an action other than [countTokens], a
    status of 400 or more that is not eligible for failover ends the
    exchange at the attempt that receives it, and the client receives the
    upstream's own status and content type (or [application/json] when
    there is none) with the body unwrapped from its envelope, empty when
    the body cannot be decoded; nothing else has been written to the client
    before, and the returned error carries the status. *)
Theorem X25_gemini_passes_error_through
  (s : AntigravityGatewayService) (account : Account)
  (originalModel action : string) (stream : bool) (body : string)
  (k : nat) (resp : Response) :
  geminiReady jsonUnmarshal s account originalModel body ->
  supportedAction action = true ->
  String.eqb action "countTokens" = false ->
  (1 <= k <= antigravityMaxRetries)%nat ->
  retriedUpTo s (k - 1) = true ->
  httpUpstream s k = Reply resp ->
  (400 <=? resp_StatusCode resp)%Z = true ->
  shouldFailoverUpstreamError (resp_StatusCode resp) = false ->
  exists before,
    noBodyWrite before = true /\
    upstreamCalls before = k /\
    FwdGemini' s account originalModel action stream body =
    (before
     ++ [EvClient
           (WriteData (resp_StatusCode resp)
              (if String.eqb (resp_ContentType resp) ""
               then "application/json" else resp_ContentType resp)
              (default ""
                 (unwrapV1InternalResponse jsonUnmarshal jsonMarshal
                    (resp_Body resp))))],
     inl (ErrAntigravityUpstream (resp_StatusCode resp))).
Proof.
  intros Hready Haction Hcount Hk Hretried Hup Hge Hfail.
  assert (Hnot : (400 <=? resp_StatusCode resp)%Z
                 && shouldRetryUpstreamError (resp_StatusCode resp) = false).
  { destruct (isRetriedReply (Reply resp)) eqn:Hre; [|exact Hre].
    apply retried_reply_status in Hre. destruct Hre as [_ Hre]. congruence. }
  pose proof (geminiLoop_upto s (geminiURL BaseURL action stream)
                originalModel action body k Hk Hretried
                (S (antigravityMaxRetries - k))) as Hloop.
  replace ((k - 1) + S (antigravityMaxRetries - k))%nat
    with antigravityMaxRetries in Hloop by lia.
  cbn [forwardGeminiLoop] in Hloop. rewrite Hup, Hnot in Hloop.
  cbn [fst snd] in Hloop.
  unfold_gemini Hready Haction action stream.
  rewrite Hloop, Hge, Hcount, Hfail.
  destruct (geminiRetries_counts s (geminiURL BaseURL action stream) (k - 1) 1)
    as (Hc & _ & _ & Hw & _).
  exists ((geminiRetries s (geminiURL BaseURL action stream) 1 (k - 1)
           ++ [EvUpstreamCall k (geminiURL BaseURL action stream)])
          ++ (if negb (String.eqb (resp_RequestID resp) "")
              then [EvClient (WriteHeader "x-request-id" (resp_RequestID resp))]
              else [])
          ++ handleUpstreamError s (resp_StatusCode resp)).
  split; [|split].
  - rewrite !noBodyWrite_app, Hw, noBodyWrite_notified.
    now destruct (negb (String.eqb (resp_RequestID resp) "")).
  - rewrite !upstreamCalls_app, Hc, upstreamCalls_notified.
    destruct (negb (String.eqb (resp_RequestID resp) "")); cbn; lia.
  - now rewrite <- !app_assoc.
Qed.

End EngineMore.

(** ** The theorems against concrete upstreams *)

Section EngineMoreSamples.
Import GoStrings Schema Transformer Gateway.
Local Open Scope list_scope.

(** The theorem at an upstream that answers 503 and then 404. *)
Lemma X18_forward_terminal_status_witness :
  sampleForward (sampleService [503; 404]%Z) sampleAccount (Some sampleRequest)
  = ([ EvUpstreamCall 1 "https://upstream/v1internal:generateContent";
       EvBackoff 1;
       EvUpstreamCall 2 "https://upstream/v1internal:generateContent";
       EvRateLimit 404;
       EvClient (WriteJSON 502
                   (ClaudeErrorBody "upstream_error" "Upstream request failed")) ],
     inl (ErrUpstream 404)).
Proof.
  apply (X18_forward_terminal_status unit [] [] "https://upstream"
           echoClaudeStreaming echoClaudeNonStreaming
           (sampleService [503; 404]%Z) sampleAccount sampleRequest 2
           (responseWith 404)).
  - apply sampleRequest_ready.
  - unfold antigravityMaxRetries. lia.
  - reflexivity.
  - reflexivity.
  - reflexivity.
  - reflexivity.
Defined.

(** The theorem at an upstream that answers 429 four times and then drops
    the connection. *)
Lemma X19_forward_transport_failure_witness :
  snd (sampleForward (sampleService [429; 429; 429; 429]%Z) sampleAccount
         (Some sampleRequest))
  = inl (ErrMessage "Upstream request failed after retries") /\
  rateLimitNotifications
    (fst (sampleForward (sampleService [429; 429; 429; 429]%Z) sampleAccount
            (Some sampleRequest))) = [].
Proof.
  destruct (X19_forward_transport_failure unit [] [] "https://upstream"
              echoClaudeStreaming echoClaudeNonStreaming
              (sampleService [429; 429; 429; 429]%Z) sampleAccount sampleRequest
              (sampleRequest_ready _) eq_refl eq_refl) as [Heq Hquiet].
  split; [|exact Hquiet].
  change (snd (Forward unit [] [] "https://upstream" echoClaudeStreaming
                 echoClaudeNonStreaming (sampleService [429; 429; 429; 429]%Z)
                 sampleAccount (Some sampleRequest))
          = inl (ErrMessage "Upstream request failed after retries")).
  rewrite Heq. reflexivity.
Defined.

(** The theorem at an upstream that answers 401 to the first request. *)
Lemma X20_forward_failover_witness :
  snd (sampleForward (sampleService [401]%Z) sampleAccount (Some sampleRequest))
  = inl (ErrUpstreamFailover 401) /\
  upstreamCalls
    (fst (sampleForward (sampleService [401]%Z) sampleAccount
            (Some sampleRequest))) = 1%nat /\
  noBodyWrite
    (fst (sampleForward (sampleService [401]%Z) sampleAccount
            (Some sampleRequest))) = true.
Proof.
  apply (X20_forward_failover unit [] [] "https://upstream"
           echoClaudeStreaming echoClaudeNonStreaming
           (sampleService [401]%Z) sampleAccount sampleRequest 1
           (responseWith 401)).
  - apply sampleRequest_ready.
  - unfold antigravityMaxRetries. lia.
  - reflexivity.
  - reflexivity.
  - right. repeat split; reflexivity.
Defined.

(** The theorem at a request for a model that is mapped to another one,
    answered with 429 and then 200. *)
Lemma X21_forward_result_witness :
  getMappedModel sampleAccount "claude-haiku-4-5" = "gemini-3-flash" /\
  (exists result,
      snd (sampleForward (sampleService [429; 200]%Z) sampleAccount
             (Some (plainRequest "claude-haiku-4-5" [userSays "hi"])))
      = inr result /\
      fwd_Model result = "claude-haiku-4-5") /\
  rateLimitNotifications
    (fst (sampleForward (sampleService [429; 200]%Z) sampleAccount
            (Some (plainRequest "claude-haiku-4-5" [userSays "hi"])))) = [].
Proof.
  split; [vm_compute; reflexivity|].
  destruct (X21_forward_result unit [] [] "https://upstream"
              echoClaudeStreaming echoClaudeNonStreaming
              (sampleService [429; 200]%Z) sampleAccount
              (Some (plainRequest "claude-haiku-4-5" [userSays "hi"]))
              {| fwd_RequestID := ""; fwd_Usage := zeroUsage;
                 fwd_Model := "claude-haiku-4-5"; fwd_Stream := false;
                 fwd_FirstTokenMs := None |})
    as (claudeReq & k & resp & Hbody & _ & _ & _ & _ & Hmodel & _ & _ & _ & Hquiet).
  - vm_compute. reflexivity.
  - split; [|exact Hquiet].
    eexists. split; [vm_compute; reflexivity|reflexivity].
Defined.

(** The theorem at an action that is not known. *)
Lemma X22_gemini_rejects_bad_input_witness :
  exists message,
    sampleForwardGemini (sampleService [200]%Z) sampleAccount
      "gemini-2.5-flash" "embedContent" false "{}"
    = ([EvClient (WriteJSON 404 (GoogleErrorBody 404 message "NOT_FOUND"))],
       inl (ErrMessage message)).
Proof.
  apply (X22_gemini_rejects_bad_input "https://upstream" sampleEstimate
           echoGeminiStreaming echoGeminiNonStreaming sampleUnmarshal
           sampleMarshal (sampleService [200]%Z) sampleAccount
           "gemini-2.5-flash" "embedContent" false "{}").
  right. right. right. reflexivity.
Defined.

(** The theorem at an upstream that answers 429, 503, 429 and then 200:
    two notifications before the fourth request. *)
Lemma X23_gemini_reports_each_429_witness :
  exists before rest,
    fst (sampleForwardGemini (sampleService [429; 503; 429; 200]%Z)
           sampleAccount "gemini-2.5-flash" "generateContent" false "{}")
    = before
      ++ EvUpstreamCall 4 "https://upstream/v1internal:generateContent" :: rest /\
    upstreamCalls before = 3%nat /\
    noBodyWrite before = true /\
    rateLimitNotifications before = [429; 429]%Z.
Proof.
  apply (X23_gemini_reports_each_429 "https://upstream" sampleEstimate
           echoGeminiStreaming echoGeminiNonStreaming sampleUnmarshal
           sampleMarshal (sampleService [429; 503; 429; 200]%Z) sampleAccount
           "gemini-2.5-flash" "generateContent" false "{}" 4).
  - apply sampleBody_ready.
  - reflexivity.
  - unfold antigravityMaxRetries. lia.
  - reflexivity.
Defined.

(** The theorem at an upstream that answers 404 to the first request. *)
Lemma X25_gemini_passes_error_through_witness :
  exists before,
    noBodyWrite before = true /\
    upstreamCalls before = 1%nat /\
    sampleForwardGemini (sampleService [404]%Z) sampleAccount
      "gemini-2.5-flash" "generateContent" false "{}"
    = (before ++ [EvClient (WriteData 404 "application/json" "{}")],
       inl (ErrAntigravityUpstream 404)).
Proof.
  apply (X25_gemini_passes_error_through "https://upstream" sampleEstimate
           echoGeminiStreaming echoGeminiNonStreaming sampleUnmarshal
           sampleMarshal (sampleService [404]%Z) sampleAccount
           "gemini-2.5-flash" "generateContent" false "{}" 1 (responseWith 404)).
  - apply sampleBody_ready.
  - reflexivity.
  - reflexivity.
  - unfold antigravityMaxRetries. lia.
  - reflexivity.
  - reflexivity.
  - reflexivity.
  - reflexivity.
Defined.

End EngineMoreSamples.

(* ===================================================================== *)
(** * The streaming response path *)
(* ===================================================================== *)

Section StringFacts.
Import GoStrings.

Lemma HasPrefix_app (pre s : string) : HasPrefix (pre ++ s) pre = true.
Proof.
  unfold HasPrefix. induction pre as [|c pre IH]; simpl.
  - now destruct s.
  - destruct (ascii_dec c c) as [_|Hne]; [exact IH|now destruct Hne].
Qed.

Lemma dropBytes_app (pre s : string) :
  dropBytes (String.length pre) (pre ++ s) = s.
Proof. induction pre as [|c pre IH]; [now destruct s|exact IH]. Qed.

Lemma TrimPrefix_app (pre s : string) : TrimPrefix (pre ++ s) pre = s.
Proof. unfold TrimPrefix. now rewrite HasPrefix_app, dropBytes_app. Qed.

Lemma HasPrefix_split (s pre : string) :
  HasPrefix s pre = true -> s = (pre ++ TrimPrefix s pre)%string.
Proof.
  intros H. unfold TrimPrefix. rewrite H. unfold HasPrefix in H.
  revert s H. induction pre as [|c pre IH]; intros s H.
  - now destruct s.
  - destruct s as [|d s]; [discriminate H|]. simpl in H.
    destruct (ascii_dec c d) as [->|]; [|discriminate H].
    change (String d s
            = String d (pre ++ dropBytes (String.length pre) s)%string).
    f_equal. now apply IH.
Qed.

End StringFacts.

Section StreamingFacts.
Import GoStrings Schema Transformer Gateway.
Local Open Scope list_scope.

Variable jsonUnmarshal : string -> option json.
Variable jsonMarshal : json -> string.
Variable decodeSSE : string -> SSEData.
Variable elapsedMs : nat -> Z.

Abbreviation unwrapLine := (unwrapSSELine jsonUnmarshal jsonMarshal).
Abbreviation unwrapped := (unwrappedLine jsonUnmarshal jsonMarshal).
Abbreviation asSSE := (sseLine jsonUnmarshal jsonMarshal decodeSSE).
Abbreviation writesOf := (lineWrites jsonUnmarshal jsonMarshal).
Abbreviation readStep :=
  (streamRead jsonUnmarshal jsonMarshal decodeSSE elapsedMs).
Abbreviation resultAfter :=
  (streamResult jsonUnmarshal jsonMarshal decodeSSE elapsedMs).
Abbreviation loop :=
  (streamLoop jsonUnmarshal jsonMarshal decodeSSE elapsedMs).
Abbreviation handle :=
  (handleStreamingResponse jsonUnmarshal jsonMarshal decodeSSE elapsedMs).
Abbreviation firstRead := (firstPayload jsonUnmarshal jsonMarshal decodeSSE).

(** ** [unwrapSSELine] *)

Lemma unwrapSSELine_data (payload : string) :
  unwrapLine ("data: " ++ payload) =
  ("data: "
   ++ (if String.eqb payload "" || String.eqb payload "[DONE]" then payload
       else default payload
              (unwrapV1InternalResponse jsonUnmarshal jsonMarshal payload)))%string.
Proof.
  unfold unwrapSSELine, unwrapV1InternalResponse.
  rewrite (HasPrefix_app "data: " payload), (TrimPrefix_app "data: " payload).
  cbn [negb].
  destruct (String.eqb payload "" || String.eqb payload "[DONE]");
    [reflexivity|].
  destruct (jsonUnmarshal payload) as [[| | | | |outer]|]; try reflexivity.
  now destruct (outer !! "response").
Qed.

(** X26. [unwrapSSELine] keeps the framing of the stream: a line without
    the prefix "data: " is returned as it is, and a data line stays a data
    line.  Its payload is returned as it is when it is empty or [DONE];
    otherwise it is what [unwrapV1InternalResponse] makes of it (the value
    of the [response] field when the payload is an object that has one),
    and the payload itself when that function fails. *)
Theorem X26_unwrapSSELine_keeps_framing (line : string) :
  HasPrefix (unwrapLine line) "data: " = HasPrefix line "data: " /\
  (HasPrefix line "data: " = false -> unwrapLine line = line) /\
  (forall payload,
      unwrapLine ("data: " ++ payload) =
      ("data: "
       ++ (if String.eqb payload "" || String.eqb payload "[DONE]" then payload
           else default payload
                  (unwrapV1InternalResponse jsonUnmarshal jsonMarshal
                     payload)))%string).
Proof.
  assert (Hplain : HasPrefix line "data: " = false -> unwrapLine line = line).
  { intros H. unfold unwrapSSELine. now rewrite H. }
  split; [|split; [exact Hplain|exact unwrapSSELine_data]].
  destruct (HasPrefix line "data: ") eqn:Hdata.
  - rewrite (HasPrefix_split _ _ Hdata), unwrapSSELine_data.
    apply (HasPrefix_app "data: ").
  - now rewrite (Hplain eq_refl).
Qed.

(** ** One iteration *)

Lemma streamRead_line (k : nat) (line : string) (res : antigravityStreamResult) :
  fst (readStep k line res) = unwrapped line.
Proof. reflexivity. Qed.

Lemma streamRead_usage (k : nat) (line : string) (res : antigravityStreamResult) :
  sr_usage (snd (readStep k line res)) = usageStep (sr_usage res) (asSSE line).
Proof.
  unfold streamRead, sseLine, classifyLine, unwrappedLine. cbn [snd].
  destruct (HasPrefix _ "data: "); [|reflexivity].
  destruct (String.eqb _ ""); [reflexivity|].
  destruct (String.eqb _ "[DONE]"); reflexivity.
Qed.

Lemma streamRead_first (k : nat) (line : string) (res : antigravityStreamResult) :
  sr_firstTokenMs (snd (readStep k line res)) =
  match sr_firstTokenMs res with
  | Some ms => Some ms
  | None =>
      if match asSSE line with DataEvent _ => true | _ => false end
      then Some (elapsedMs k) else None
  end.
Proof.
  unfold streamRead, sseLine, classifyLine, unwrappedLine. cbn [snd].
  destruct (HasPrefix _ "data: "); [|now destruct (sr_firstTokenMs res)].
  destruct (String.eqb _ ""); cbn [negb andb];
    [now destruct (sr_firstTokenMs res)|].
  destruct (String.eqb _ "[DONE]"); cbn [negb andb sr_firstTokenMs];
    now destruct (sr_firstTokenMs res).
Qed.

(** ** The result after a run of lines *)

Lemma streamResult_app (pre post : list string) :
  forall k res,
    resultAfter k (pre ++ post) res
    = resultAfter (k + length pre) post (resultAfter k pre res).
Proof.
  induction pre as [|line pre IH]; intros k res; cbn [app streamResult length].
  - now rewrite Nat.add_0_r.
  - rewrite IH. now replace (S k + length pre)%nat with (k + S (length pre))%nat by lia.
Qed.

Lemma streamResult_usage (lines : list string) :
  forall k res,
    sr_usage (resultAfter k lines res)
    = fold_left usageStep (map asSSE (List.filter nonEmptyLine lines))
        (sr_usage res).
Proof.
  induction lines as [|line lines IH]; intros k res; [reflexivity|].
  cbn [streamResult List.filter]. rewrite IH. unfold nonEmptyLine at 2.
  destruct (String.eqb line ""); cbn [negb]; [reflexivity|].
  cbn [map fold_left]. now rewrite streamRead_usage.
Qed.

Lemma streamResult_first (lines : list string) :
  forall k res,
    sr_firstTokenMs (resultAfter k lines res)
    = match sr_firstTokenMs res with
      | Some ms => Some ms
      | None => elapsedMs <$> firstRead k lines
      end.
Proof.
  induction lines as [|line lines IH]; intros k res.
  - cbn. now destruct (sr_firstTokenMs res).
  - cbn [streamResult firstPayload]. rewrite IH.
    destruct (String.eqb line ""); cbn [negb andb]; [reflexivity|].
    rewrite streamRead_first.
    destruct (sr_firstTokenMs res); [reflexivity|].
    now destruct (asSSE line).
Qed.

Lemma lineWrites_app (l1 l2 : list string) :
  writesOf (l1 ++ l2) = writesOf l1 ++ writesOf l2.
Proof. unfold lineWrites. apply flat_map_app. Qed.

(** ** The loop *)

(** Lines that are all written. *)
Lemma streamLoop_written (clientWrites : nat -> bool) (pre : list string) :
  forall reads last k w res,
    (forall j, (j < length (List.filter nonEmptyLine pre))%nat ->
               clientWrites (w + j)%nat = true) ->
    loop clientWrites (pre ++ reads) last k w res =
    (writesOf (List.filter nonEmptyLine pre)
     ++ fst (loop clientWrites reads last (k + length pre)
               (w + length (List.filter nonEmptyLine pre))
               (resultAfter k pre res)),
     snd (loop clientWrites reads last (k + length pre)
            (w + length (List.filter nonEmptyLine pre))
            (resultAfter k pre res))).
Proof.
  induction pre as [|line pre IH]; intros reads last k w res Hok.
  - cbn [app List.filter length streamResult lineWrites flat_map].
    rewrite !Nat.add_0_r. now destruct (loop clientWrites reads last k w res).
  - assert (Hne : nonEmptyLine line = negb (String.eqb line "")) by reflexivity.
    cbn [app streamLoop List.filter streamResult length].
    cbn [List.filter] in Hok. rewrite Hne in Hok. rewrite Hne. clear Hne.
    destruct (String.eqb line "") eqn:Hline; cbn [negb] in *.
    + rewrite IH by exact Hok.
      now replace (S k + length pre)%nat with (k + S (length pre))%nat by lia.
    + destruct (readStep k line res) as [u res'] eqn:Hread.
      assert (Hu : u = unwrapped line)
        by (now rewrite <- (streamRead_line k line res), Hread).
      assert (Hw : clientWrites w = true)
        by (rewrite <- (Nat.add_0_r w); apply Hok; cbn [length]; lia).
      rewrite Hw, IH.
      * cbn [snd length]. subst u.
        replace (S k + length pre)%nat with (k + S (length pre))%nat by lia.
        replace (S w + length (List.filter nonEmptyLine pre))%nat
          with (w + S (length (List.filter nonEmptyLine pre)))%nat by lia.
        destruct (loop clientWrites reads last _ _ _). reflexivity.
      * intros j Hj. replace (S w + j)%nat with (w + S j)%nat by lia.
        apply Hok. cbn [length]. lia.
Qed.

(** The last read. *)
Lemma streamLoop_end (clientWrites : nat -> bool) (last : ReadEnd)
  (k w : nat) (res : antigravityStreamResult) :
  loop clientWrites [] last k w res =
  match last with
  | ReadFailure => ([], (None, Some ErrStreamRead))
  | ReadEOF line =>
      if nonEmptyLine line then
        if clientWrites w
        then (writesOf [line], (Some (resultAfter k [line] res), None))
        else ([], (Some (resultAfter k [line] res), Some ErrStreamWrite))
      else ([], (Some res, None))
  end.
Proof.
  destruct last as [line|]; [|reflexivity].
  cbn [streamLoop streamResult]. unfold nonEmptyLine.
  destruct (String.eqb line ""); cbn [negb]; [reflexivity|].
  destruct (readStep k line res) as [u res'] eqn:Hread.
  assert (Hu : u = unwrapped line)
    by (now rewrite <- (streamRead_line k line res), Hread).
  subst u. cbn [snd]. now destruct (clientWrites w).
Qed.

(** A complete line whose write fails. *)
Lemma streamLoop_write_fails (clientWrites : nat -> bool) (line : string)
  (reads : list string) (last : ReadEnd) (k w : nat)
  (res : antigravityStreamResult) :
  nonEmptyLine line = true ->
  clientWrites w = false ->
  loop clientWrites (line :: reads) last k w res
  = ([], (Some (resultAfter k [line] res), Some ErrStreamWrite)).
Proof.
  unfold nonEmptyLine. intros Hline Hw. cbn [streamLoop streamResult].
  destruct (String.eqb line ""); [discriminate Hline|].
  destruct (readStep k line res) as [u res'] eqn:Hread. now rewrite Hw.
Qed.

Lemma streamResult_eq (lines : list string) :
  resultAfter 0 lines {| sr_usage := zeroUsage; sr_firstTokenMs := None |}
  = {| sr_usage := streamUsage (map asSSE (List.filter nonEmptyLine lines));
       sr_firstTokenMs := elapsedMs <$> firstRead 0 lines |}.
Proof.
  pose proof (streamResult_usage lines 0
                {| sr_usage := zeroUsage; sr_firstTokenMs := None |}) as Hu.
  pose proof (streamResult_first lines 0
                {| sr_usage := zeroUsage; sr_firstTokenMs := None |}) as Hf.
  destruct (resultAfter 0 lines _) as [u f]. cbn in Hu, Hf. now subst.
Qed.

Lemma streamLoop_complete (clientWrites : nat -> bool) (reads : list string)
  (rest : string) (res : antigravityStreamResult) :
  (forall w, clientWrites w = true) ->
  loop clientWrites reads (ReadEOF rest) 0 0 res
  = (writesOf (List.filter nonEmptyLine (reads ++ [rest])),
     (Some (resultAfter 0 (reads ++ [rest]) res), None)).
Proof.
  intros Hok.
  pose proof (streamLoop_written clientWrites reads [] (ReadEOF rest) 0 0 res
                (fun j _ => Hok _)) as Hloop.
  rewrite app_nil_r, streamLoop_end, Hok in Hloop. rewrite Hloop.
  rewrite List.filter_app, lineWrites_app, streamResult_app.
  cbn [List.filter streamResult Nat.add].
  change (nonEmptyLine rest) with (negb (String.eqb rest "")).
  destruct (String.eqb rest ""); reflexivity.
Qed.

Lemma streamLoop_read_fails (clientWrites : nat -> bool) (reads : list string)
  (res : antigravityStreamResult) :
  (forall w, clientWrites w = true) ->
  loop clientWrites reads ReadFailure 0 0 res
  = (writesOf (List.filter nonEmptyLine reads), (None, Some ErrStreamRead)).
Proof.
  intros Hok.
  pose proof (streamLoop_written clientWrites reads [] ReadFailure 0 0 res
                (fun j _ => Hok _)) as Hloop.
  rewrite app_nil_r, streamLoop_end in Hloop. rewrite Hloop.
  cbn [fst snd]. now rewrite app_nil_r.
Qed.

Lemma streamLoop_fails_at (clientWrites : nat -> bool) (reads : list string)
  (last : ReadEnd) (pre : list string) (line : string) (post : list string)
  (res : antigravityStreamResult) :
  linesRead reads last = pre ++ line :: post ->
  nonEmptyLine line = true ->
  (forall w, (w < length (List.filter nonEmptyLine pre))%nat ->
             clientWrites w = true) ->
  clientWrites (length (List.filter nonEmptyLine pre)) = false ->
  loop clientWrites reads last 0 0 res
  = (writesOf (List.filter nonEmptyLine pre),
     (Some (resultAfter 0 (pre ++ [line]) res), Some ErrStreamWrite)).
Proof.
  intros Hlines Hline Hok Hfail.
  assert (Hin : forall later final,
    loop clientWrites (pre ++ line :: later) final 0 0 res
    = (writesOf (List.filter nonEmptyLine pre),
       (Some (resultAfter 0 (pre ++ [line]) res), Some ErrStreamWrite))).
  { intros later final.
    rewrite (streamLoop_written clientWrites pre (line :: later) final 0 0 res)
      by (intros j Hj; now apply Hok).
    cbn [Nat.add]. rewrite streamLoop_write_fails by assumption.
    cbn [fst snd]. now rewrite app_nil_r, streamResult_app. }
  destruct last as [rest|]; cbn [linesRead] in Hlines.
  - destruct post as [|x post _] using rev_ind.
    + apply app_inj_tail in Hlines. destruct Hlines as [-> ->].
      rewrite <- (app_nil_r pre) at 1.
      rewrite (streamLoop_written clientWrites pre [] (ReadEOF line) 0 0 res)
        by (intros j Hj; now apply Hok).
      cbn [Nat.add]. rewrite streamLoop_end, Hline, Hfail.
      cbn [fst snd]. now rewrite app_nil_r, streamResult_app.
    + change (pre ++ line :: post ++ [x]) with (pre ++ (line :: post) ++ [x])
        in Hlines.
      rewrite app_assoc in Hlines.
      apply app_inj_tail in Hlines. destruct Hlines as [-> ->]. apply Hin.
  - rewrite Hlines. apply Hin.
Qed.

(** ** [handleStreamingResponse] *)

(** X27. When the body ends with [io.EOF] and every write reaches the
    client, [handleStreamingResponse] sets the four streaming headers and
    status 200, writes every line that is not empty, in order, unwrapped
    and followed by a line feed, and flushes after each; it returns no
    error, as usage the fold of [parseClaudeSSEUsage] over the payloads of
    those lines from the zero snapshot (the function [streamUsage]), and as
    first-token time the clock at the first read that holds a payload, or
    none when there is no such read. *)
Theorem X27_stream_complete
  (clientWrites : nat -> bool) (reads : list string) (rest : string) :
  (forall w, clientWrites w = true) ->
  handle true clientWrites reads (ReadEOF rest) =
  (streamHeaders ++ writesOf (List.filter nonEmptyLine (reads ++ [rest])),
   (Some {| sr_usage :=
              streamUsage
                (map asSSE (List.filter nonEmptyLine (reads ++ [rest])));
            sr_firstTokenMs := elapsedMs <$> firstRead 0 (reads ++ [rest]) |},
    None)).
Proof.
  intros Hok. unfold handleStreamingResponse. cbn [negb].
  now rewrite streamLoop_complete, streamResult_eq.
Qed.

(** X28. How [handleStreamingResponse] fails.  Without a flusher it sets
    the headers and returns an error before reading anything.  When
    reading fails it returns no result, so the usage read so far is lost,
    although the lines read before have been written to the client.  When
    a write fails it stops there and returns, next to the error, the usage
    and first-token time read so far, those of the line whose write failed
    included; later lines are neither read for usage nor written. *)
Theorem X28_stream_failures
  (clientWrites : nat -> bool) (reads : list string) (last : ReadEnd) :
  handle false clientWrites reads last
  = (streamHeaders, (None, Some ErrStreamingNotSupported)) /\
  ((forall w, clientWrites w = true) ->
   handle true clientWrites reads ReadFailure
   = (streamHeaders ++ writesOf (List.filter nonEmptyLine reads),
      (None, Some ErrStreamRead))) /\
  (forall pre line post,
      linesRead reads last = pre ++ line :: post ->
      nonEmptyLine line = true ->
      (forall w, (w < length (List.filter nonEmptyLine pre))%nat ->
                 clientWrites w = true) ->
      clientWrites (length (List.filter nonEmptyLine pre)) = false ->
      handle true clientWrites reads last
      = (streamHeaders ++ writesOf (List.filter nonEmptyLine pre),
         (Some {| sr_usage :=
                    streamUsage
                      (map asSSE (List.filter nonEmptyLine (pre ++ [line])));
                  sr_firstTokenMs :=
                    elapsedMs <$> firstRead 0 (pre ++ [line]) |},
          Some ErrStreamWrite))).
Proof.
  split; [reflexivity|]. split.
  - intros Hok. unfold handleStreamingResponse. cbn [negb].
    now rewrite streamLoop_read_fails.
  - intros pre line post Hlines Hline Hok Hfail.
    unfold handleStreamingResponse. cbn [negb].
    now rewrite (streamLoop_fails_at clientWrites reads last pre line post _
                   Hlines Hline Hok Hfail), streamResult_eq.
Qed.

End StreamingFacts.

Section StreamingSamples.
Import GoStrings Schema Transformer Gateway.
Local Open Scope list_scope.

(** The theorem at a line that is no data line. *)
Lemma X26_unwrapSSELine_witness :
  unwrapSSELine sampleUnmarshal sampleMarshal "event: ping" = "event: ping".
Proof.
  apply (proj1 (proj2 (X26_unwrapSSELine_keeps_framing sampleUnmarshal
                         sampleMarshal "event: ping"))).
  reflexivity.
Defined.

(** The theorem at a stream of a start event, a separator, a delta event
    and the end marker. *)
Lemma X27_stream_complete_witness :
  snd (sampleStream true (fun _ => true)
         [ ("data: start" ++ crlf)%string; crlf;
           ("data: delta" ++ newline)%string ]
         (ReadEOF "data: [DONE]"))
  = (Some {| sr_usage := usageOf 10 12; sr_firstTokenMs := Some 100%Z |}, None).
Proof.
  unfold sampleStream.
  rewrite (X27_stream_complete sampleUnmarshal sampleMarshal sampleDecodeSSE
             sampleClock (fun _ => true)
             [ ("data: start" ++ crlf)%string; crlf;
               ("data: delta" ++ newline)%string ]
             "data: [DONE]" (fun _ => eq_refl)).
  vm_compute. reflexivity.
Defined.

(** The theorem at a client that goes away after the first line: the usage
    of the second line is reported all the same. *)
Lemma X28_stream_failures_witness :
  sampleStream true (fun w => Nat.eqb w 0)
    [ ("data: start" ++ newline)%string; ("data: delta" ++ newline)%string;
      ("data: start" ++ newline)%string ]
    (ReadEOF "")
  = (streamHeaders ++ [WriteLine ("data: start" ++ newline)%string; Flush],
     (Some {| sr_usage := usageOf 10 12; sr_firstTokenMs := Some 100%Z |},
      Some ErrStreamWrite)).
Proof.
  unfold sampleStream.
  rewrite (proj2 (proj2 (X28_stream_failures sampleUnmarshal sampleMarshal
                           sampleDecodeSSE sampleClock (fun w => Nat.eqb w 0)
                           [ ("data: start" ++ newline)%string;
                             ("data: delta" ++ newline)%string;
                             ("data: start" ++ newline)%string ]
                           (ReadEOF "")))
             [ ("data: start" ++ newline)%string ]
             ("data: delta" ++ newline)%string
             [ ("data: start" ++ newline)%string; "" ]).
  - vm_compute. reflexivity.
  - reflexivity.
  - reflexivity.
  - intros w Hw. change (w < 1)%nat in Hw.
    assert (w = 0%nat) as -> by lia. reflexivity.
  - reflexivity.
Defined.

End StreamingSamples.
